(** * Lab artefacts: coverage, parallel tests and Bandit metrics

    A shallow embedding of the reductions that the lab scripts perform on
    the output of the external tools (coverage.py, pytest, Bandit, git),
    with the properties of those reductions.

    Conventions.
    - A Python [str] is a Rocq [string]; one [ascii] stands for one code
      point below 256.
    - A value decoded by [json.load] is a [json]; a [dict] is the list of
      its items in insertion order.
    - A Python call that can raise returns a [result]: [Ok v] or
      [Raise e].
    - Python floats are kept behind the interface [PyFloat]; the
      statements hold for every implementation of it. *)

From Stdlib Require Import String Ascii List ZArith Lia Bool Arith.
From Stdlib Require QArith DecimalString Sorted Permutation.
Import ListNotations.

Local Open Scope string_scope.
Local Open Scope list_scope.
Local Open Scope nat_scope.

(* ================================================================== *)
(** * Python strings *)
(* ================================================================== *)

Module PyStr.

(** [str.isspace] on one code point below 256. *)
Definition is_space (a : ascii) : bool :=
  let n := nat_of_ascii a in
  ((9 <=? n) && (n <=? 13)) || ((28 <=? n) && (n <=? 32))
  || (n =? 133) || (n =? 160).

(** [c.isdigit()] as the pattern [\d] sees it: below 256 only 0-9. *)
Definition is_digit (a : ascii) : bool :=
  let n := nat_of_ascii a in (48 <=? n) && (n <=? 57).

(** [s.startswith(p)]. *)
Definition startswith (p s : string) : bool := String.prefix p s.

(** [sub in s]. *)
Fixpoint contains (sub s : string) : bool :=
  String.prefix sub s ||
  match s with
  | EmptyString => false
  | String _ r => contains sub r
  end.

(** [s.endswith(suf)]. *)
Fixpoint endswith (suf s : string) : bool :=
  String.eqb suf s ||
  match s with
  | EmptyString => false
  | String _ r => endswith suf r
  end.

(** Puts [a] in front of the first field of a split. *)
Definition cons_head (a : ascii) (l : list string) : list string :=
  match l with
  | [] => [String a EmptyString]
  | h :: t => String a h :: t
  end.

(** [s.split(c)] for a separator of one character. *)
Fixpoint split (c : ascii) (s : string) : list string :=
  match s with
  | EmptyString => [EmptyString]
  | String a r =>
      if Ascii.eqb a c then EmptyString :: split c r
      else cons_head a (split c r)
  end.

(** [s.split(c, n)]: at most [n] cuts, the rest is kept whole. *)
Fixpoint split_max (c : ascii) (s : string) (n : nat) {struct s}
  : list string :=
  match s with
  | EmptyString => [EmptyString]
  | String a r =>
      match n with
      | O => [s]
      | S n' =>
          if Ascii.eqb a c then EmptyString :: split_max c r n'
          else cons_head a (split_max c r n)
      end
  end.

(** [sep.join(l)]. *)
Fixpoint join (sep : string) (l : list string) : string :=
  match l with
  | [] => EmptyString
  | [x] => x
  | x :: t => x ++ sep ++ join sep t
  end.

(** [s.lstrip()]. *)
Fixpoint lstrip (s : string) : string :=
  match s with
  | EmptyString => EmptyString
  | String a r => if is_space a then lstrip r else s
  end.

(** [s.rstrip()]. *)
Fixpoint rstrip (s : string) : string :=
  match s with
  | EmptyString => EmptyString
  | String a r =>
      match rstrip r with
      | EmptyString => if is_space a then EmptyString else String a EmptyString
      | r' => String a r'
      end
  end.

(** [s.strip()]. *)
Definition strip (s : string) : string := rstrip (lstrip s).

(** [s.split(c)[0]]: the text before the first [c]. *)
Definition first_field (c : ascii) (s : string) : string :=
  hd EmptyString (split c s).

(** The longest prefix whose characters satisfy [p]. *)
Fixpoint take_while (p : ascii -> bool) (s : string) : string :=
  match s with
  | EmptyString => EmptyString
  | String a r => if p a then String a (take_while p r) else EmptyString
  end.

(** [s[n:]]. *)
Fixpoint drop (n : nat) (s : string) : string :=
  match n, s with
  | O, _ => s
  | S n', String _ r => drop n' r
  | S _, EmptyString => EmptyString
  end.

(** [re.search(lit + '(' + cls + '+)', s)]: the leftmost place where the
    literal [lit] is followed by at least one character of the class
    [p]; the group is the longest run of such characters there. *)
Fixpoint search_lit_run (lit : string) (p : ascii -> bool) (s : string)
  : option string :=
  let here :=
    if String.prefix lit s then
      match take_while p (drop (String.length lit) s) with
      | EmptyString => None
      | g => Some g
      end
    else None in
  match here with
  | Some g => Some g
  | None =>
      match s with
      | EmptyString => None
      | String _ r => search_lit_run lit p r
      end
  end.

End PyStr.

(* ================================================================== *)
(** * Python values, exceptions and floats *)
(* ================================================================== *)

Module Py.

(** The exception classes that the scripts can meet. *)
Inductive exn : Type :=
| FileNotFoundError
| PermissionError
| JSONDecodeError
| TypeError
| AttributeError
| KeyError
| ValueError
| ZeroDivisionError
| OverflowError.

(** The outcome of a call: a value, or an exception on its way up. *)
Inductive result (A : Type) : Type :=
| Ok (a : A)
| Raise (e : exn).
Arguments Ok {A} a.
Arguments Raise {A} e.

Definition bind {A B} (r : result A) (k : A -> result B) : result B :=
  match r with
  | Ok a => k a
  | Raise e => Raise e
  end.

Definition raises {A} (r : result A) : bool :=
  match r with Ok _ => false | Raise _ => true end.

(** [try: r  except Exception: h] (also the bare [except:]). *)
Definition try_except {A} (r : result A) (h : exn -> A) : A :=
  match r with
  | Ok a => a
  | Raise e => h e
  end.

(** [try: r  except FileNotFoundError: h]: other exceptions go on. *)
Definition except_FileNotFoundError {A} (r : result A) (h : result A)
  : result A :=
  match r with
  | Raise FileNotFoundError => h
  | _ => r
  end.

(** Python's [float], as far as the scripts use it. *)
Class PyFloat (F : Type) : Type := {
  (** [float(n)] for an [n] in range. *)
  f_of_int : Z -> F;
  (** [float(n)] does not raise [OverflowError]. *)
  f_fits : Z -> bool;
  f_add : F -> F -> F;
  f_sub : F -> F -> F;
  (** [x / y] for a [y] that is not zero. *)
  f_div : F -> F -> F;
  (** [n / m] on two ints, [m] not zero; [None] is [OverflowError]. *)
  f_div_int : Z -> Z -> option F;
  (** [x == 0]. *)
  f_is_zero : F -> bool;
  (** [x > 0]. *)
  f_pos : F -> bool;
  f_pos_not_zero : forall x, f_pos x = true -> f_is_zero x = false;
  f_of_int_is_zero :
    forall n, f_fits n = true -> f_is_zero (f_of_int n) = Z.eqb n 0
}.

(** A value decoded by [json.load]. *)
#[local] Set Warnings "-register-all".
Inductive json (F : Type) : Type :=
| JNull
| JBool (b : bool)
| JInt (z : Z)
| JFloat (f : F)
| JStr (s : string)
| JList (l : list (json F))
| JDict (d : list (string * json F)).
Arguments JNull {F}.
Arguments JBool {F} b.
Arguments JInt {F} z.
Arguments JFloat {F} f.
Arguments JStr {F} s.
Arguments JList {F} l.
Arguments JDict {F} d.
#[local] Set Warnings "+register-all".

(** A Python number: [int] (with [bool]) or [float]. *)
Inductive pynum (F : Type) : Type :=
| PInt (z : Z)
| PFloat (f : F).
Arguments PInt {F} z.
Arguments PFloat {F} f.

Declare Scope py_scope.
Delimit Scope py_scope with py.
Notation "x <- r ;; k" := (bind r (fun x => k))
  (at level 61, r at next level, right associativity) : py_scope.

Section Values.
Context {F : Type} `{PyFloat F}.
Local Open Scope py_scope.

(** Items of a dict: the value stored under [k]. *)
Fixpoint lookup {V : Type} (k : string) (d : list (string * V)) : option V :=
  match d with
  | [] => None
  | (k', v) :: t => if String.eqb k k' then Some v else lookup k t
  end.

(** [d[k] = v] on the items of a dict: the place of [k] is kept, a new
    key goes to the end. *)
Fixpoint store {V : Type} (k : string) (v : V) (d : list (string * V))
  : list (string * V) :=
  match d with
  | [] => [(k, v)]
  | (k', v') :: t =>
      if String.eqb k k' then (k, v) :: t else (k', v') :: store k v t
  end.

(** [bool(v)]. *)
Definition truthy (v : json F) : bool :=
  match v with
  | JNull => false
  | JBool b => b
  | JInt z => negb (Z.eqb z 0)
  | JFloat f => negb (f_is_zero f)
  | JStr s => negb (String.eqb s "")
  | JList l => match l with [] => false | _ => true end
  | JDict d => match d with [] => false | _ => true end
  end.

(** [v == s] for a string literal [s]: never raises. *)
Definition eq_str (v : json F) (s : string) : bool :=
  match v with
  | JStr s' => String.eqb s' s
  | _ => false
  end.

(** [k in v] for a string [k]. *)
Definition py_in (k : string) (v : json F) : result bool :=
  match v with
  | JDict d => Ok (match lookup k d with Some _ => true | None => false end)
  | JList l => Ok (existsb (fun x => eq_str x k) l)
  | JStr s => Ok (PyStr.contains k s)
  | _ => Raise TypeError
  end.

(** [v[k]] for a string [k]. *)
Definition py_index (v : json F) (k : string) : result (json F) :=
  match v with
  | JDict d =>
      match lookup k d with Some x => Ok x | None => Raise KeyError end
  | _ => Raise TypeError
  end.

(** [v.get(k, dflt)]: only a dict has [get]. *)
Definition py_get (v : json F) (k : string) (dflt : json F)
  : result (json F) :=
  match v with
  | JDict d =>
      Ok (match lookup k d with Some x => x | None => dflt end)
  | _ => Raise AttributeError
  end.

(** [for x in v]: the values that the loop visits. *)
Definition py_iter (v : json F) : result (list (json F)) :=
  match v with
  | JList l => Ok l
  | JDict d => Ok (map (fun kv => JStr (fst kv)) d)
  | JStr s =>
      Ok (map (fun a => JStr (String a EmptyString)) (list_ascii_of_string s))
  | _ => Raise TypeError
  end.

(** [v.items()]: only a dict has [items]. *)
Definition py_items (v : json F) : result (list (string * json F)) :=
  match v with
  | JDict d => Ok d
  | _ => Raise AttributeError
  end.

(** The number that a value is, if it is one ([True] is 1). *)
Definition as_num (v : json F) : option (pynum F) :=
  match v with
  | JBool b => Some (PInt (if b then 1 else 0)%Z)
  | JInt z => Some (PInt z)
  | JFloat f => Some (PFloat f)
  | _ => None
  end.

(** [float(n)] on an int, as the arithmetic operators do it. *)
Definition float_of_int (n : Z) : result F :=
  if f_fits n then Ok (f_of_int n) else Raise OverflowError.

(** [a > 0] on numbers. *)
Definition num_gt0 (a : pynum F) : bool :=
  match a with
  | PInt z => Z.ltb 0 z
  | PFloat f => f_pos f
  end.

(** [v > 0]. *)
Definition py_gt0 (v : json F) : result bool :=
  match as_num v with
  | Some a => Ok (num_gt0 a)
  | None => Raise TypeError
  end.

(** [a + b] on numbers. *)
Definition num_add (a b : pynum F) : result (pynum F) :=
  match a, b with
  | PInt x, PInt y => Ok (PInt (x + y)%Z)
  | PInt x, PFloat g => fx <- float_of_int x ;; Ok (PFloat (f_add fx g))
  | PFloat f, PInt y => fy <- float_of_int y ;; Ok (PFloat (f_add f fy))
  | PFloat f, PFloat g => Ok (PFloat (f_add f g))
  end.

(** [a + v] where [a] is a number. *)
Definition py_add (a : pynum F) (v : json F) : result (pynum F) :=
  match as_num v with
  | Some b => num_add a b
  | None => Raise TypeError
  end.

(** [a / b], true division: both operands become floats, then a zero
    divisor raises; two ints are divided exactly and rounded once. *)
Definition num_truediv (a b : pynum F) : result F :=
  match a, b with
  | PInt x, PInt y =>
      if Z.eqb y 0 then Raise ZeroDivisionError
      else match f_div_int x y with
           | Some q => Ok q
           | None => Raise OverflowError
           end
  | PInt x, PFloat g =>
      fx <- float_of_int x ;;
      if f_is_zero g then Raise ZeroDivisionError else Ok (f_div fx g)
  | PFloat f, PInt y =>
      fy <- float_of_int y ;;
      if f_is_zero fy then Raise ZeroDivisionError else Ok (f_div f fy)
  | PFloat f, PFloat g =>
      if f_is_zero g then Raise ZeroDivisionError else Ok (f_div f g)
  end.

(** [sum(ts)] on a list of floats: the int 0, then float additions from
    the left, that is [float(0) + t1 + t2 + ...]. *)
Definition py_sum (ts : list F) : pynum F :=
  match ts with
  | [] => PInt 0
  | _ => PFloat (fold_left f_add ts (f_of_int 0))
  end.

(** [sum(ts) / len(ts)]. The length of a list always fits a float, so
    the division raises for the empty list only. *)
Definition py_mean (ts : list F) : result F :=
  match py_sum ts with
  | PInt _ => Raise ZeroDivisionError
  | PFloat total =>
      Ok (f_div total (f_of_int (Z.of_nat (List.length ts))))
  end.

(** [a / b] on decoded values. *)
Definition py_truediv (a b : json F) : result F :=
  match as_num a, as_num b with
  | Some x, Some y => num_truediv x y
  | _, _ => Raise TypeError
  end.

End Values.

(** ** Files *)

(** What [open(path)] followed by [json.load] gives: an exception
    ([FileNotFoundError] for a missing file, [JSONDecodeError] for text
    that is not JSON, ...) or the decoded value. *)
Inductive file (F : Type) : Type :=
| FileError (e : exn)
| FileJson (j : json F).
Arguments FileError {F} e.
Arguments FileJson {F} j.

(** The files, by path. *)
Definition filesystem (F : Type) : Type := string -> file F.

(** [with open(path) as f: json.load(f)]. *)
Definition load_json {F} (fs : filesystem F) (path : string)
  : result (json F) :=
  match fs path with
  | FileError e => Raise e
  | FileJson j => Ok j
  end.

End Py.

(* ================================================================== *)
(** * lab6_final/sequential-test-script.py *)
(* ================================================================== *)

Module SequentialTestScript.
Import Py.

(** The two statuses that [run_sequential_tests] records. *)
Inductive status : Type := PASSED | FAILED.

Definition status_eqb (a b : status) : bool :=
  match a, b with
  | PASSED, PASSED | FAILED, FAILED => true
  | _, _ => false
  end.

(** What one iteration observes: [time.time()] before and after
    [subprocess.run(["pytest"], ...)], and the captured [stdout]. *)
Record pytest_run (F : Type) : Type := {
  start_time : F;
  end_time : F;
  stdout : string
}.
Arguments start_time {F} p.
Arguments end_time {F} p.
Arguments stdout {F} p.

(** [test_results]: a [defaultdict(list)], test name to statuses. *)
Definition test_results : Type := list (string * list status).

(** [test_results[test_name].append(status)]. *)
Definition append_status (test_name : string) (st : status)
  (tr : test_results) : test_results :=
  match lookup test_name tr with
  | Some l => store test_name (l ++ [st]) tr
  | None => store test_name [st] tr
  end.

(** The body of [for line in lines]. *)
Definition record_line (tr : test_results) (line : string) : test_results :=
  if PyStr.contains " PASSED " line
     || PyStr.contains " FAILED " line
     || PyStr.contains " ERROR " line
  then
    let parts := PyStr.split " " line in
    let test_name := hd EmptyString parts in
    let st := if PyStr.contains " PASSED " line then PASSED else FAILED in
    append_status test_name st tr
  else tr.

(** [lines = result.stdout.strip().split("\n")]. *)
Definition output_lines (out : string) : list string :=
  PyStr.split "010" (PyStr.strip out).

(** The parsing part of the body of [for i in range(iterations)]. *)
Definition record_output (tr : test_results) (out : string) : test_results :=
  fold_left record_line (output_lines out) tr.

(** The loop over the items of [test_results]. *)
Fixpoint classify (tr : test_results) : list string * list string :=
  match tr with
  | [] => ([], [])
  | (test_name, results) :: rest =>
      let '(failing_tests, flaky_tests) := classify rest in
      if forallb (fun r => status_eqb r FAILED) results
      then (test_name :: failing_tests, flaky_tests)
      else if existsb (status_eqb PASSED) results
              && existsb (status_eqb FAILED) results
      then (failing_tests, test_name :: flaky_tests)
      else (failing_tests, flaky_tests)
  end.

Section Run.
Context {F : Type} `{PyFloat F}.
Local Open Scope py_scope.

(** The statuses collected over all iterations. *)
Definition collect (runs : list (pytest_run F)) : test_results :=
  fold_left (fun tr r => record_output tr (stdout r)) runs [].

(** [execution_times] after the loop. *)
Definition execution_times (runs : list (pytest_run F)) : list F :=
  map (fun r => f_sub (end_time r) (start_time r)) runs.

(** [run_sequential_tests(iterations)], where the [i]-th element of
    [runs] is what iteration [i] observes. The average that is printed
    is computed, so no iteration at all raises; the value returned is
    the pair of lists, which is also what goes to
    [sequential_results.json]. *)
Definition run_sequential_tests (runs : list (pytest_run F))
  : result (list string * list string) :=
  let tr := collect runs in
  let '(failing_tests, flaky_tests) := classify tr in
  _ <- py_mean (execution_times runs) ;;
  Ok (failing_tests, flaky_tests).

End Run.

End SequentialTestScript.

(* ================================================================== *)
(** * lab6_final/parallel-test-script.py *)
(* ================================================================== *)

Module ParallelTestScript.
Import Py.
Export SequentialTestScript (pytest_run, start_time, end_time, stdout).

(** A parallel configuration. *)
Record config : Type := {
  worker_count : string;
  thread_count : string;
  dist_mode : string
}.

(** The dict that [run_parallel_tests] returns, with the two entries
    that [execute_all_configurations] adds to it. *)
Record parallel_result (F : Type) : Type := {
  r_config : config;
  tpar : F;
  avg_time : F;
  times : list F;
  failures : list nat;
  failing_tests : list (list string);
  flaky_tests : list string
}.
Arguments r_config {F} p.
Arguments tpar {F} p.
Arguments avg_time {F} p.
Arguments times {F} p.
Arguments failures {F} p.
Arguments failing_tests {F} p.
Arguments flaky_tests {F} p.

Record recorded_result (F : Type) : Type := {
  base : parallel_result F;
  speedup : F;
  tseq_used : pynum F
}.
Arguments base {F} r.
Arguments speedup {F} r.
Arguments tseq_used {F} r.

(** The command line built from a configuration. *)
Definition command (c : config) : list string :=
  ["pytest"]
  ++ (if String.eqb (worker_count c) "1" then []
      else ["-n"; worker_count c])
  ++ (if String.eqb (dist_mode c) "no" then []
      else ["--dist"; dist_mode c])
  ++ (if String.eqb (thread_count c) "1" then []
      else ["--parallel-threads"; thread_count c]).

(** The body of [for line in lines]. *)
Definition record_failure (failing : list string) (line : string)
  : list string :=
  if PyStr.contains " FAILED " line || PyStr.contains " ERROR " line
  then
    let parts := PyStr.split " " line in
    let test_name := hd EmptyString parts in
    failing ++ [test_name]
  else failing.

(** [failing_tests] of one iteration. *)
Definition failing_of_output (out : string) : list string :=
  fold_left record_failure (PyStr.split "010" (PyStr.strip out)) [].

(** [set.update]: the elements not yet in the set are added. (Python
    leaves the order of a set open; here it is the order of
    insertion.) *)
Fixpoint set_update (seen : list string) (l : list string) : list string :=
  match l with
  | [] => seen
  | x :: t =>
      if existsb (String.eqb x) seen then set_update seen t
      else set_update (seen ++ [x]) t
  end.

Section Run.
Context {F : Type} `{PyFloat F}.
Local Open Scope py_scope.

(** The processes: the [k]-th call of [subprocess.run] of the script,
    with command [cmd], is observed as [world k cmd]. *)
Definition world : Type := nat -> list string -> pytest_run F.

(** The body of the loop of [run_parallel_tests], [iterations] times
    from call number [k]: the runs observed. *)
Fixpoint observe (w : world) (cmd : list string) (k iterations : nat)
  : list (pytest_run F) :=
  match iterations with
  | O => []
  | S n => w k cmd :: observe w cmd (S k) n
  end.

(** [run_parallel_tests(config, iterations)], started when [k] calls
    were made; the number of calls made is returned with the dict. *)
Definition run_parallel_tests (w : world) (k : nat) (c : config)
  (iterations : nat) : result (parallel_result F * nat) :=
  let runs := observe w (command c) k iterations in
  let execution_times :=
    map (fun r => f_sub (end_time r) (start_time r)) runs in
  let all_failing_tests := map (fun r => failing_of_output (stdout r)) runs in
  tpar <- py_mean execution_times ;;
  let all_tests := fold_left set_update all_failing_tests [] in
  let flaky_tests :=
    filter (fun test =>
      let counts :=
        List.length
          (filter (fun tests => existsb (String.eqb test) tests)
             all_failing_tests) in
      (0 <? counts) && (counts <? iterations)) all_tests in
  Ok ({| r_config := c;
         tpar := tpar;
         avg_time := tpar;
         times := execution_times;
         failures := map (@List.length string) all_failing_tests;
         failing_tests := all_failing_tests;
         flaky_tests := flaky_tests |},
      k + iterations).

(** [calculate_speedup(sequential_time, parallel_time)]. *)
Definition calculate_speedup (sequential_time parallel_time : pynum F)
  : result F :=
  num_truediv sequential_time parallel_time.

(** [f"{tseq:.2f}"]: only a number can be formatted so, and an int
    is formatted as the float that it converts to, which raises
    [OverflowError] for an int too large for a float (0 is never too
    large). *)
Definition format_2f (v : json F) : result (pynum F) :=
  match v with
  | JStr _ => Raise ValueError
  | JInt z =>
      if Z.eqb z 0 || f_fits z then Ok (PInt z) else Raise OverflowError
  | _ => match as_num v with
         | Some a => Ok a
         | None => Raise TypeError
         end
  end.

(** The choice of [tseq] among the layouts of [sequential_time.json]. *)
Definition tseq_of_data (sequential_data : json F) : result (json F) :=
  a <- py_in "avg_time" sequential_data ;;
  if a then py_index sequential_data "avg_time" else
  b <- py_in "avg_time_simple" sequential_data ;;
  if b then py_index sequential_data "avg_time_simple" else
  c <- py_in "avg_time_nested" sequential_data ;;
  if c then py_index sequential_data "avg_time_nested" else
  d <- (d1 <- py_in "tseq_simple" sequential_data ;;
        if d1 then
          x <- py_index sequential_data "tseq_simple" ;; py_in "value" x
        else Ok false) ;;
  if d then
    x <- py_index sequential_data "tseq_simple" ;; py_index x "value"
  else
  e <- (e1 <- py_in "tseq_nested" sequential_data ;;
        if e1 then
          x <- py_index sequential_data "tseq_nested" ;; py_in "value" x
        else Ok false) ;;
  if e then
    x <- py_index sequential_data "tseq_nested" ;; py_index x "value"
  else Ok (JFloat (f_of_int 10)).

(** The [try] block that loads [Tseq], with its two handlers. *)
Definition load_tseq (fs : filesystem F) : result (pynum F) :=
  let body :=
    sequential_data <- load_json fs "sequential_time.json" ;;
    tseq <- tseq_of_data sequential_data ;;
    format_2f tseq in
  match body with
  | Raise FileNotFoundError => Ok (PFloat (f_of_int 10))
  | Raise JSONDecodeError => Ok (PFloat (f_of_int 10))
  | r => r
  end.

Definition configurations : list config :=
  [ {| worker_count := "1"; thread_count := "1"; dist_mode := "no" |};
    {| worker_count := "auto"; thread_count := "1"; dist_mode := "no" |};
    {| worker_count := "1"; thread_count := "1"; dist_mode := "load" |};
    {| worker_count := "auto"; thread_count := "1"; dist_mode := "load" |};
    {| worker_count := "1"; thread_count := "auto"; dist_mode := "no" |};
    {| worker_count := "1"; thread_count := "auto"; dist_mode := "load" |};
    {| worker_count := "auto"; thread_count := "auto"; dist_mode := "no" |};
    {| worker_count := "auto"; thread_count := "auto"; dist_mode := "load" |}
  ].

(** The loop [for config in configurations] from call number [k], with
    [results] so far. *)
Fixpoint run_configurations (w : world) (tseq : pynum F)
  (cs : list config) (k : nat) (results : list (recorded_result F))
  : result (list (recorded_result F)) :=
  match cs with
  | [] => Ok results
  | c :: rest =>
      rk <- run_parallel_tests w k c 3 ;;
      let '(res, k') := rk in
      sp <- calculate_speedup tseq (PFloat (tpar res)) ;;
      run_configurations w tseq rest k'
        (results ++ [{| base := res; speedup := sp; tseq_used := tseq |}])
  end.

(** [execute_all_configurations()]. *)
Definition execute_all_configurations (fs : filesystem F) (w : world)
  : result (list (recorded_result F)) :=
  tseq <- load_tseq fs ;;
  run_configurations w tseq configurations 0 [].

End Run.

End ParallelTestScript.

(* ================================================================== *)
(** * lab5_final/coverage-comparison.py *)
(* ================================================================== *)

Module CoverageComparison.
Import Py.

(** The dict that [extract_coverage_metrics] returns. *)
Record coverage_metrics (F : Type) : Type := {
  line_coverage : pynum F;
  branch_coverage : pynum F;
  missing_lines : json F;
  num_statements : json F
}.
Arguments line_coverage {F} c.
Arguments branch_coverage {F} c.
Arguments missing_lines {F} c.
Arguments num_statements {F} c.

Section Coverage.
Context {F : Type} `{PyFloat F}.
Local Open Scope py_scope.

(** One [try]/[except FileNotFoundError] block of
    [load_coverage_data]: the variable starts as [{}] and keeps that
    value when the file is not found. *)
Definition load_or_empty (fs : filesystem F) (path : string)
  : result (json F) :=
  except_FileNotFoundError (load_json fs path) (Ok (JDict [])).

(** [load_coverage_data(suite_a_file, suite_b_file)]. *)
Definition load_coverage_data (fs : filesystem F)
  (suite_a_file suite_b_file : string) : result (json F * json F) :=
  suite_a_data <- load_or_empty fs suite_a_file ;;
  suite_b_data <- load_or_empty fs suite_b_file ;;
  Ok (suite_a_data, suite_b_data).

(** [isinstance(v, (int, float))]; a [bool] is an [int]. *)
Definition is_int_or_float (v : json F) : bool :=
  match as_num v with Some _ => true | None => false end.

(** [extract_coverage_metrics(data)]. *)
Definition extract_coverage_metrics (data : json F)
  : result (coverage_metrics F) :=
  no_totals <-
    (if negb (truthy data) then Ok true
     else b <- py_in "totals" data ;; Ok (negb b)) ;;
  if no_totals then
    Ok {| line_coverage := PInt 0;
          branch_coverage := PInt 0;
          missing_lines := JInt 0;
          num_statements := JInt 0 |}
  else
    totals <- py_index data "totals" ;;
    n0 <- py_get totals "num_statements" (JInt 0) ;;
    positive <- py_gt0 n0 ;;
    line_coverage <-
      (if positive then
         c <- py_get totals "covered_lines" (JInt 0) ;;
         n <- py_get totals "num_statements" (JInt 1) ;;
         q <- py_truediv c n ;; Ok (PFloat q)
       else Ok (PInt 0)) ;;
    p <- py_get totals "percent_covered" JNull ;;
    branch_coverage <-
      (if is_int_or_float p then
         p0 <- py_get totals "percent_covered" (JInt 0) ;;
         q <- py_truediv p0 (JInt 100) ;; Ok (PFloat q)
       else Ok (PInt 0)) ;;
    missing <- py_get totals "missing_lines" (JInt 0) ;;
    statements <- py_get totals "num_statements" (JInt 0) ;;
    Ok {| line_coverage := line_coverage;
          branch_coverage := branch_coverage;
          missing_lines := missing;
          num_statements := statements |}.

End Coverage.

End CoverageComparison.

(* ================================================================== *)
(** * lab5_final/module-level-coverage.py *)
(* ================================================================== *)

Module ModuleLevelCoverage.
Import Py.

(** The entry of one module while the files are read. *)
Record module_count (F : Type) : Type := {
  total_lines : pynum F;
  covered_lines : pynum F;
  files : nat
}.
Arguments total_lines {F} m.
Arguments covered_lines {F} m.
Arguments files {F} m.

(** The entry of one module in the dict that is returned. *)
Record module_metric (F : Type) : Type := {
  counts : module_count F;
  coverage : pynum F
}.
Arguments counts {F} m.
Arguments coverage {F} m.

(** [re.search(r'algorithms/([^/]+)', file_path)], group 1. *)
Definition module_of_path (file_path : string) : option string :=
  PyStr.search_lit_run "algorithms/"
    (fun a => negb (Ascii.eqb a "/")) file_path.

(** The first test of the loop body: the files that are skipped. *)
Definition is_test_file (file_path : string) : bool :=
  PyStr.contains "/tests/" file_path
  || PyStr.contains "pynguin_tests" file_path
  || PyStr.endswith "__init__.py" file_path.

(** The module that a file is counted in, if it is counted. *)
Definition counted_module (file_path : string) : option string :=
  if is_test_file file_path then None
  else match module_of_path file_path with
       | Some module_name =>
           if String.eqb module_name "tests"
              || String.eqb module_name "pynguin_tests"
           then None
           else Some module_name
       | None => None
       end.

Section Modules.
Context {F : Type} `{PyFloat F}.
Local Open Scope py_scope.

(** The value that the [defaultdict] makes for a new module. *)
Definition new_count : module_count F :=
  {| total_lines := PInt 0; covered_lines := PInt 0; files := 0 |}.

(** [module_metrics[module_name]], made on first use. *)
Definition entry (module_name : string)
  (mm : list (string * module_count F)) : module_count F :=
  match lookup module_name mm with
  | Some m => m
  | None => new_count
  end.

(** The body of the loop over the files. *)
Definition count_file (mm : list (string * module_count F))
  (item : string * json F) : result (list (string * module_count F)) :=
  let '(file_path, file_data) := item in
  match counted_module file_path with
  | None => Ok mm
  | Some module_name =>
      summary <- py_get file_data "summary" (JDict []) ;;
      covered <- py_get summary "covered_lines" (JInt 0) ;;
      total <- py_get summary "num_statements" (JInt 0) ;;
      let m := entry module_name mm in
      c' <- py_add (covered_lines m) covered ;;
      t' <- py_add (total_lines m) total ;;
      Ok (store module_name
            {| total_lines := t'; covered_lines := c';
               files := S (files m) |} mm)
  end.

(** The loop over the files. *)
Fixpoint count_files (mm : list (string * module_count F))
  (items : list (string * json F))
  : result (list (string * module_count F)) :=
  match items with
  | [] => Ok mm
  | item :: rest => mm' <- count_file mm item ;; count_files mm' rest
  end.

(** The body of the second loop: the coverage of one module. *)
Definition module_coverage (m : module_count F) : result (pynum F) :=
  if num_gt0 (total_lines m) then
    q <- num_truediv (covered_lines m) (total_lines m) ;; Ok (PFloat q)
  else Ok (PInt 0).

(** The second loop. *)
Fixpoint add_coverage (mm : list (string * module_count F))
  : result (list (string * module_metric F)) :=
  match mm with
  | [] => Ok []
  | (module_name, m) :: rest =>
      cov <- module_coverage m ;;
      rest' <- add_coverage rest ;;
      Ok ((module_name, {| counts := m; coverage := cov |}) :: rest')
  end.

(** [extract_module_metrics(coverage_data)]. *)
Definition extract_module_metrics (coverage_data : json F)
  : result (list (string * module_metric F)) :=
  files_value <- py_get coverage_data "files" (JDict []) ;;
  items <- py_items files_value ;;
  mm <- count_files [] items ;;
  add_coverage mm.

End Modules.

End ModuleLevelCoverage.

(* ================================================================== *)
(** * lab6_final/analysis-script.py *)
(* ================================================================== *)

Module AnalysisScript.
Import Py.

Section Main.
Context {F : Type}.

(** The dict that [main] uses when [sequential_results.json] cannot be
    loaded. *)
Definition default_sequential_data : json F :=
  JDict [ ("failing_tests", JList []);
          ("flaky_tests", JList []);
          ("execution_times", JList []) ].

(** The first [try]/[except:] block of [main]: [sequential_data]. *)
Definition main_sequential_data (fs : filesystem F) : json F :=
  try_except (load_json fs "sequential_results.json")
    (fun _ => default_sequential_data).

End Main.

End AnalysisScript.

(* ================================================================== *)
(** * lab78_final/run_bandit_analysis.py *)
(* ================================================================== *)

Module RunBanditAnalysis.
Import Py.

(** One entry of [commits]. *)
Record commit : Type := {
  hash : string;
  author : string;
  timestamp : Z;
  date : string;
  message : string
}.

(** The dict that [parse_bandit_results] returns. *)
Record metrics : Type := {
  high_confidence : nat;
  medium_confidence : nat;
  low_confidence : nat;
  high_severity : nat;
  medium_severity : nat;
  low_severity : nat;
  unique_cwes : list string
}.

(** One data row of [results.csv]. *)
Record csv_row : Type := {
  row_commit_hash : string;
  row_author : string;
  row_date : string;
  row_message : string;
  row_high_confidence : nat;
  row_medium_confidence : nat;
  row_low_confidence : nat;
  row_high_severity : nat;
  row_medium_severity : nat;
  row_low_severity : nat;
  row_unique_cwes : string
}.

(** The value of a decimal digit. *)
Definition digit_value (a : ascii) : Z := Z.of_nat (nat_of_ascii a - 48).

(** The digits of an int literal, where one underscore may stand
    between two digits. *)
Fixpoint digits_value (s : string) (acc : Z) (after_digit : bool)
  : option Z :=
  match s with
  | EmptyString => if after_digit then Some acc else None
  | String a r =>
      if PyStr.is_digit a
      then digits_value r (10 * acc + digit_value a)%Z true
      else if Ascii.eqb a "_" && after_digit
      then digits_value r acc false
      else None
  end.

(** [int(s)] on a string, base 10; [None] is [ValueError]. (The limit
    that recent versions put on the number of digits is left out.) *)
Definition py_int (s : string) : option Z :=
  match PyStr.strip s with
  | String "+" r => digits_value r 0 false
  | String "-" r => option_map Z.opp (digits_value r 0 false)
  | t => digits_value t 0 false
  end.

(** [os.path.join(a, b)] on a POSIX system. *)
Definition os_path_join (a b : string) : string :=
  if PyStr.startswith "/" b then b
  else if String.eqb a "" || PyStr.endswith "/" a then a ++ b
  else a ++ "/" ++ b.

(** [set.add]. *)
Definition set_add (x : string) (s : list string) : list string :=
  if existsb (String.eqb x) s then s else s ++ [x].

(** [re.search(r'CWE-(\d+)', text)], group 1. *)
Definition search_cwe (text : string) : option string :=
  PyStr.search_lit_run "CWE-" PyStr.is_digit text.

(** The row that [main] writes for a commit and its metrics. *)
Definition row_of (c : commit) (m : metrics) : csv_row :=
  {| row_commit_hash := hash c;
     row_author := author c;
     row_date := date c;
     row_message := message c;
     row_high_confidence := high_confidence m;
     row_medium_confidence := medium_confidence m;
     row_low_confidence := low_confidence m;
     row_high_severity := high_severity m;
     row_medium_severity := medium_severity m;
     row_low_severity := low_severity m;
     row_unique_cwes := PyStr.join "," (unique_cwes m) |}.

Section Commits.
Local Open Scope py_scope.

(** [datetime.fromtimestamp(t).strftime('%Y-%m-%d %H:%M:%S')]: it
    depends on the local time zone and raises out of range. *)
Variable strftime_local : Z -> result string.

(** [int(timestamp)]. *)
Definition int_of_str (s : string) : result Z :=
  match py_int s with
  | Some z => Ok z
  | None => Raise ValueError
  end.

(** The body of the loop over the lines of [git log]: the commit that
    the line adds, if it adds one. *)
Definition commit_of_line (line : string) : result (option commit) :=
  if String.eqb line "" then Ok None
  else
    match PyStr.split_max "," line 3 with
    | [commit_hash; author; timestamp; message] =>
        t <- int_of_str timestamp ;;
        t' <- int_of_str timestamp ;;
        d <- strftime_local t' ;;
        Ok (Some {| hash := commit_hash; author := author; timestamp := t;
                    date := d; message := message |})
    | _ => Ok None
    end.

(** The loop over the lines. *)
Fixpoint commits_of_lines (lines : list string) : result (list commit) :=
  match lines with
  | [] => Ok []
  | line :: rest =>
      c <- commit_of_line line ;;
      cs <- commits_of_lines rest ;;
      Ok (match c with Some x => x :: cs | None => cs end)
  end.

(** [get_last_100_non_merge_commits(repo_path)], as a function of the
    output of [git log]. *)
Definition get_last_100_non_merge_commits (git_stdout : string)
  : result (list commit) :=
  commits <- commits_of_lines (PyStr.split "010" (PyStr.strip git_stdout)) ;;
  Ok (firstn 100 commits).

End Commits.

Section Bandit.
Context {F : Type} `{PyFloat F}.
Local Open Scope py_scope.

(** [str(v)] on a decoded value. *)
Variable py_str : json F -> string.

Definition empty_metrics : metrics :=
  {| high_confidence := 0; medium_confidence := 0; low_confidence := 0;
     high_severity := 0; medium_severity := 0; low_severity := 0;
     unique_cwes := [] |}.

(** The count by confidence. *)
Definition count_confidence (m : metrics) (v : json F) : metrics :=
  if eq_str v "HIGH" then
    {| high_confidence := S (high_confidence m);
       medium_confidence := medium_confidence m;
       low_confidence := low_confidence m;
       high_severity := high_severity m;
       medium_severity := medium_severity m;
       low_severity := low_severity m;
       unique_cwes := unique_cwes m |}
  else if eq_str v "MEDIUM" then
    {| high_confidence := high_confidence m;
       medium_confidence := S (medium_confidence m);
       low_confidence := low_confidence m;
       high_severity := high_severity m;
       medium_severity := medium_severity m;
       low_severity := low_severity m;
       unique_cwes := unique_cwes m |}
  else if eq_str v "LOW" then
    {| high_confidence := high_confidence m;
       medium_confidence := medium_confidence m;
       low_confidence := S (low_confidence m);
       high_severity := high_severity m;
       medium_severity := medium_severity m;
       low_severity := low_severity m;
       unique_cwes := unique_cwes m |}
  else m.

(** The count by severity. *)
Definition count_severity (m : metrics) (v : json F) : metrics :=
  if eq_str v "HIGH" then
    {| high_confidence := high_confidence m;
       medium_confidence := medium_confidence m;
       low_confidence := low_confidence m;
       high_severity := S (high_severity m);
       medium_severity := medium_severity m;
       low_severity := low_severity m;
       unique_cwes := unique_cwes m |}
  else if eq_str v "MEDIUM" then
    {| high_confidence := high_confidence m;
       medium_confidence := medium_confidence m;
       low_confidence := low_confidence m;
       high_severity := high_severity m;
       medium_severity := S (medium_severity m);
       low_severity := low_severity m;
       unique_cwes := unique_cwes m |}
  else if eq_str v "LOW" then
    {| high_confidence := high_confidence m;
       medium_confidence := medium_confidence m;
       low_confidence := low_confidence m;
       high_severity := high_severity m;
       medium_severity := medium_severity m;
       low_severity := S (low_severity m);
       unique_cwes := unique_cwes m |}
  else m.

(** [metrics['unique_cwes'].add(x)]. *)
Definition add_cwe (m : metrics) (x : string) : metrics :=
  {| high_confidence := high_confidence m;
     medium_confidence := medium_confidence m;
     low_confidence := low_confidence m;
     high_severity := high_severity m;
     medium_severity := medium_severity m;
     low_severity := low_severity m;
     unique_cwes := set_add x (unique_cwes m) |}.

(** The CWE of one finding: from [issue_cwe], or from the text. *)
Definition count_cwe (m : metrics) (finding : json F) : result metrics :=
  has_id <-
    (b <- py_in "issue_cwe" finding ;;
     if b then
       cwe <- py_index finding "issue_cwe" ;; py_in "id" cwe
     else Ok false) ;;
  if has_id then
    cwe <- py_index finding "issue_cwe" ;;
    id <- py_index cwe "id" ;;
    Ok (add_cwe m (py_str id))
  else
    text <- py_get finding "issue_text" (JStr "") ;;
    match text with
    | JStr s =>
        Ok (match search_cwe s with
            | Some g => add_cwe m g
            | None => m
            end)
    | _ => Raise TypeError
    end.

(** The body of [for result in data.get('results', [])]. Each
    [result.get(...)] of a chain of tests reads the same value, so it is
    read once. *)
Definition count_result (m : metrics) (finding : json F) : result metrics :=
  confidence <- py_get finding "issue_confidence" JNull ;;
  let m1 := count_confidence m confidence in
  severity <- py_get finding "issue_severity" JNull ;;
  let m2 := count_severity m1 severity in
  count_cwe m2 finding.

(** The loop over the findings. *)
Fixpoint count_results (m : metrics) (findings : list (json F))
  : result metrics :=
  match findings with
  | [] => Ok m
  | finding :: rest => m' <- count_result m finding ;; count_results m' rest
  end.

(** The findings that the loop visits. *)
Definition findings_of (data : json F) : result (list (json F)) :=
  results <- py_get data "results" (JList []) ;;
  py_iter results.

(** The body of the [try] of [parse_bandit_results]; the order of the
    final list is the order of first insertion here (Python leaves the
    order of a set open). *)
Definition parse_bandit_data (fs : filesystem F) (output_file : string)
  : result metrics :=
  data <- load_json fs output_file ;;
  findings <- findings_of data ;;
  count_results empty_metrics findings.

(** What the script prints when it has caught an exception. *)
Inductive printed : Type :=
| ErrorParsing (output_file : string) (e : exn)
| ErrorProcessingCommit (commit_hash : string) (e : exn).

(** [parse_bandit_results(output_file)] with what it prints: [None]
    after any exception. *)
Definition parse_bandit_results_io (fs : filesystem F)
  (output_file : string) : option metrics * list printed :=
  try_except (m <- parse_bandit_data fs output_file ;; Ok (Some m, []))
    (fun e => (None, [ErrorParsing output_file e])).

(** The value that [parse_bandit_results(output_file)] returns. *)
Definition parse_bandit_results (fs : filesystem F) (output_file : string)
  : option metrics :=
  fst (parse_bandit_results_io fs output_file).

(** What one call of [run_bandit_on_commit] does: it raises (no
    directory, no [git], no [bandit]), or it returns and the output file
    of the commit has been written or has been left as it was. *)
Inductive bandit_effect : Type :=
| RunRaises (e : exn)
| RunReturns (written : option (file F)).

(** The tools, by commit hash. *)
Variable run_bandit : string -> bandit_effect.

(** The files after a write to [path]. *)
Definition write_file (fs : filesystem F) (path : string) (f : file F)
  : filesystem F :=
  fun p => if String.eqb p path then f else fs p.

(** [run_bandit_on_commit(repo_path, commit_hash, output_file)]. *)
Definition run_bandit_on_commit (fs : filesystem F)
  (commit_hash output_file : string) : result (filesystem F) :=
  match run_bandit commit_hash with
  | RunRaises e => Raise e
  | RunReturns None => Ok fs
  | RunReturns (Some f) => Ok (write_file fs output_file f)
  end.

(** The state of the loop over the commits: the files, the data rows
    written so far and the errors printed so far. *)
Record loop_state : Type := {
  st_files : filesystem F;
  st_rows : list csv_row;
  st_printed : list printed
}.

(** The body of [for i, commit in enumerate(commits)] in [main]. *)
Definition process_commit (bandit_outputs_dir : string)
  (st : loop_state) (c : commit) : loop_state :=
  let output_file := os_path_join bandit_outputs_dir (hash c ++ ".json") in
  match run_bandit_on_commit (st_files st) (hash c) output_file with
  | Raise e =>
      {| st_files := st_files st;
         st_rows := st_rows st;
         st_printed := st_printed st ++ [ErrorProcessingCommit (hash c) e] |}
  | Ok fs' =>
      let '(metrics, out) := parse_bandit_results_io fs' output_file in
      match metrics with
      | Some m =>
          {| st_files := fs';
             st_rows := st_rows st ++ [row_of c m];
             st_printed := st_printed st ++ out |}
      | None =>
          {| st_files := fs';
             st_rows := st_rows st;
             st_printed := st_printed st ++ out |}
      end
  end.

(** The loop over the commits of one repository. *)
Definition process_commits (bandit_outputs_dir : string)
  (commits : list commit) (st : loop_state) : loop_state :=
  fold_left (process_commit bandit_outputs_dir) commits st.

End Bandit.

End RunBanditAnalysis.

(* ================================================================== *)
(** * lab78_final/analyze_results.py *)
(* ================================================================== *)

Module AnalyzeResults.
Import Py.

(** ** The column [unique_cwes] *)

(** A cell of a column that [pd.read_csv] has read. *)
Inductive cell : Type :=
| NaN
| Num (z : Z)
| Text (s : string).

(** The texts that [pd.read_csv] takes for a missing value. *)
Definition na_values : list string :=
  [ ""; "#N/A"; "#N/A N/A"; "#NA"; "-1.#IND"; "-1.#QNAN"; "-NaN"; "-nan";
    "1.#IND"; "1.#QNAN"; "<NA>"; "N/A"; "NA"; "NULL"; "NaN"; "None";
    "n/a"; "nan"; "null" ].

Definition is_na (s : string) : bool := existsb (String.eqb s) na_values.

(** An integer literal of a CSV field: a sign or none, then digits. *)
Definition int_literal (s : string) : option Z :=
  let digits t :=
    if String.eqb t "" then None
    else if String.eqb (PyStr.take_while PyStr.is_digit t) t
    then RunBanditAnalysis.digits_value t 0 false
    else None in
  match s with
  | String "+" r => digits r
  | String "-" r => option_map Z.opp (digits r)
  | _ => digits s
  end.

(** [pd.read_csv] on the texts of one column, with the default options:
    a text of [na_values] is missing; if every other text is an integer
    literal the column is numeric, otherwise it keeps its texts. (A
    column of floating-point or boolean literals, which pandas also
    converts, is not distinguished from a column of texts.) *)
Definition read_csv_column (texts : list string) : list cell :=
  let present := filter (fun s => negb (is_na s)) texts in
  if forallb (fun s => match int_literal s with
                       | Some _ => true | None => false end) present
  then map (fun s => if is_na s then NaN
                     else match int_literal s with
                          | Some z => Num z
                          | None => NaN
                          end) texts
  else map (fun s => if is_na s then NaN else Text s) texts.

(** [lambda x: [] if pd.isna(x) else x.split(",") if x else []]. *)
Definition split_cwes (x : cell) : result (list string) :=
  match x with
  | NaN => Ok []
  | Text s => if String.eqb s "" then Ok [] else Ok (PyStr.split "," s)
  | Num z => if Z.eqb z 0 then Ok [] else Raise AttributeError
  end.

(** [Series.apply(f)] for an [f] that can raise. *)
Fixpoint apply_cells {A} (f : cell -> result A) (col : list cell)
  : result (list A) :=
  match col with
  | [] => Ok []
  | x :: t =>
      match f x with
      | Raise e => Raise e
      | Ok y => match apply_cells f t with
                | Raise e => Raise e
                | Ok ys => Ok (y :: ys)
                end
      end
  end.

(** [load_repository_results], the column [unique_cwes]: from the
    fields as [main] of [run_bandit_analysis.py] wrote them, one per
    row, to the lists in the frame. (The sort by date moves whole rows
    and is left out.) *)
Definition load_unique_cwes (fields : list string)
  : result (list (list string)) :=
  apply_cells split_cwes (read_csv_column fields).

(** ** The severity columns *)

(** A numeric column: its cells as exact numbers; [None] is NaN. As
    [pd.read_csv] reads the counts, a column without NaN is an int64
    column, whose cells are within int64, and a column with a NaN is a
    float64 column, whose cells are float64 values. *)
Definition series : Type := list (option Z).

(** A frame: its columns by name. *)
Definition dataframe : Type := list (string * series).

(** [df[name]]. *)
Definition column (df : dataframe) (name : string) : result series :=
  match lookup name df with
  | Some s => Ok s
  | None => Raise KeyError
  end.

(** The int64 that an operation on int64 leaves of the exact result:
    it wraps around. *)
Definition wrap64 (z : Z) : Z := ((z + 2 ^ 63) mod 2 ^ 64 - 2 ^ 63)%Z.

(** The multiple of [q] that is nearest to [z], for [z] not negative
    and [q] positive; of two that are as near, the even multiple. *)
Definition round_half_even (z q : Z) : Z :=
  let k := (z / q)%Z in
  let r := (z mod q)%Z in
  if (2 * r <? q)%Z then (k * q)%Z
  else if (q <? 2 * r)%Z then ((k + 1) * q)%Z
  else if Z.even k then (k * q)%Z
  else ((k + 1) * q)%Z.

(** The float64 that an integer becomes: 53 significant bits, rounded
    to the nearest, ties to the even one. (No integer that occurs here
    is too large for a float64.) *)
Definition to_float64 (z : Z) : Z :=
  let e := Z.log2 (Z.abs z) in
  if (e <? 53)%Z then z
  else (Z.sgn z * round_half_even (Z.abs z) (2 ^ (e - 52)))%Z.

(** The column has no NaN: it is an int64 column. *)
Definition is_int64 (s : series) : bool :=
  forallb (fun c => match c with Some _ => true | None => false end) s.

(** [a - b] on two cells as [Series.diff()] computes it: on an int64
    column the subtraction is done in int64, where it wraps around, and
    its result is stored as a float64; on a float64 column it is the
    subtraction of float64. *)
Definition cell_sub (int64 : bool) (a b : option Z) : option Z :=
  match a, b with
  | Some x, Some y =>
      Some (to_float64 (if int64 then wrap64 (x - y) else (x - y)%Z))
  | _, _ => None
  end.

(** The rows of [Series.diff()] after a row [prev]. *)
Fixpoint diff_from (int64 : bool) (prev : option Z) (s : series)
  : series :=
  match s with
  | [] => []
  | x :: t => cell_sub int64 x prev :: diff_from int64 x t
  end.

(** [Series.diff()]: the first row has no row before it, and the
    result is a float64 column. *)
Definition diff (s : series) : series :=
  match s with
  | [] => []
  | x :: t => None :: diff_from (is_int64 s) x t
  end.

(** [-x]. *)
Definition neg (x : option Z) : option Z := option_map Z.opp x.

(** [max(0, x)]: [x] if [x > 0], otherwise the first argument; no
    comparison with NaN holds. *)
Definition max0 (x : option Z) : option Z :=
  match x with
  | Some v => if Z.ltb 0 v then Some v else Some 0%Z
  | None => Some 0%Z
  end.

(** The three assignments for one severity level. *)
Definition add_changes (level : string) (df : dataframe)
  : result dataframe :=
  match column df (level ++ "_severity") with
  | Raise e => Raise e
  | Ok counts =>
      let df1 := store (level ++ "_severity_change") (diff counts) df in
      match column df1 (level ++ "_severity_change") with
      | Raise e => Raise e
      | Ok change =>
          let df2 :=
            store (level ++ "_severity_introduced") (map max0 change) df1 in
          match column df2 (level ++ "_severity_change") with
          | Raise e => Raise e
          | Ok change' =>
              Ok (store (level ++ "_severity_fixed")
                    (map (fun x => max0 (neg x)) change') df2)
          end
      end
  end.

(** The first loop of [answer_rq1], for one frame. *)
Definition answer_rq1_changes (df : dataframe) : result dataframe :=
  add_changes "high" df.

(** The first loop of [answer_rq2], for one frame. *)
Definition answer_rq2_changes (df : dataframe) : result dataframe :=
  bind (add_changes "high" df) (fun df1 =>
  bind (add_changes "medium" df1) (fun df2 =>
  add_changes "low" df2)).

(** The loop over [repositories_data.items()]: every frame is changed
    in place. *)
Fixpoint for_each_repository (f : dataframe -> result dataframe)
  (repositories_data : list (string * dataframe))
  : result (list (string * dataframe)) :=
  match repositories_data with
  | [] => Ok []
  | (repo_name, df) :: rest =>
      bind (f df) (fun df' =>
      bind (for_each_repository f rest) (fun rest' =>
      Ok ((repo_name, df') :: rest')))
  end.

End AnalyzeResults.

(* ================================================================== *)
(** * Python strings: more methods *)
(* ================================================================== *)

Module PyStrMore.

(** The double quote and the newline as strings. *)
Definition dquote : string := String "034" EmptyString.
Definition newline : string := String "010" EmptyString.

(** [s.split(sep)] for a separator [sep] that is not empty, from the
    left and without overlap; [skip] characters of a separator that was
    found are still to be passed over. *)
Fixpoint split_sep (sep s : string) (skip : nat) {struct s} : list string :=
  match s with
  | EmptyString => [EmptyString]
  | String a r =>
      match skip with
      | S k => split_sep sep r k
      | O =>
          if String.prefix sep s
          then EmptyString :: split_sep sep r (String.length sep - 1)
          else PyStr.cons_head a (split_sep sep r 0)
      end
  end.

(** [c.lower()] on one code point below 256. *)
Definition lower_char (a : ascii) : ascii :=
  let n := nat_of_ascii a in
  if ((65 <=? n) && (n <=? 90))
     || ((192 <=? n) && (n <=? 222) && negb (n =? 215))
  then ascii_of_nat (n + 32)
  else a.

(** [s.lower()]. *)
Fixpoint lower (s : string) : string :=
  match s with
  | EmptyString => EmptyString
  | String a r => String (lower_char a) (lower r)
  end.

(** The strings written one after the other. *)
Fixpoint write_all (l : list string) : string :=
  match l with
  | [] => EmptyString
  | x :: t => x ++ write_all t
  end.

End PyStrMore.

(* ================================================================== *)
(** * lab6_final/sequential-test-script.py: pytest.ini and Tseq *)
(* ================================================================== *)

Module SequentialTestScriptMore.
Import Py PyStrMore.
Export SequentialTestScript (pytest_run, start_time, end_time, stdout).

(** The text files, by path; [None] is no file. *)
Definition textfiles : Type := string -> option string.

(** [with open(path, "w") as f: f.write(text)]. *)
Definition write_text (files : textfiles) (path text : string) : textfiles :=
  fun p => if String.eqb p path then Some text else files p.

(** The rest of a match of [_+$]: underscores, then the end or one
    newline before the end. *)
Fixpoint underscores_to_end (s : string) : bool :=
  match s with
  | EmptyString => true
  | String a r =>
      if Ascii.eqb a "_" then underscores_to_end r
      else Ascii.eqb a "010" && String.eqb r EmptyString
  end.

(** [re.match(r"^_+$", test)]. *)
Definition match_underscores (test : string) : bool :=
  match test with
  | String a r => Ascii.eqb a "_" && underscores_to_end r
  | EmptyString => false
  end.

(** The test of the first loop of [create_pytest_ini]. *)
Definition is_special (test : string) : bool :=
  String.eqb test "_____________________" || match_underscores test.

(** The first loop of [create_pytest_ini]. *)
Fixpoint sort_patterns (tests special_patterns regular_tests : list string)
  : list string * list string :=
  match tests with
  | [] => (special_patterns, regular_tests)
  | test :: rest =>
      if is_special test
      then sort_patterns rest (special_patterns ++ [test]) regular_tests
      else sort_patterns rest special_patterns (regular_tests ++ [test])
  end.

(** The name that is excluded with [-k] for a regular test. *)
Definition excluded_name (test : string) : string :=
  if PyStr.contains "::" test
  then last (split_sep "::" test 0) EmptyString
  else test.

(** What is written for a special pattern. *)
Definition ignore_glob (pattern : string) : string :=
  "--ignore-glob=" ++ dquote ++ "*" ++ pattern ++ "*" ++ dquote ++ " ".

(** What is written for a regular test. *)
Definition not_option (test : string) : string :=
  "-k " ++ dquote ++ "not " ++ excluded_name test ++ dquote ++ " ".

(** The text that [create_pytest_ini] writes to [pytest.ini]. *)
Definition pytest_ini_text (failing_tests flaky_tests : list string)
  : string :=
  let '(special_patterns, regular_tests) :=
    sort_patterns (failing_tests ++ flaky_tests) [] [] in
  write_all
    ([ ("[pytest]" ++ newline)%string; "addopts = " ]
     ++ map ignore_glob special_patterns
     ++ map not_option regular_tests
     ++ [ newline ]).

(** [create_pytest_ini(failing_tests, flaky_tests)]. *)
Definition create_pytest_ini (failing_tests flaky_tests : list string)
  (files : textfiles) : textfiles :=
  write_text files "pytest.ini" (pytest_ini_text failing_tests flaky_tests).

Section Run.
Context {F : Type} `{PyFloat F}.
Local Open Scope py_scope.

(** The processes, as for the parallel script: the [k]-th call of
    [subprocess.run] with command [cmd]. *)
Definition world : Type := nat -> list string -> pytest_run F.

(** [verify_clean_test_suite()], started when [k] calls were made: the
    value returned, the files and the number of calls after it. *)
Definition verify_clean_test_suite (w : world) (k : nat) (files : textfiles)
  : bool * textfiles * nat :=
  let result := w k ["pytest"] in
  let failing_tests :=
    ParallelTestScript.failing_of_output (stdout result) in
  match failing_tests with
  | [] => (true, files, S k)
  | _ :: _ =>
      let files1 :=
        write_text files "pytest.ini"
          (write_all [("[pytest]" ++ newline)%string;
                      ("addopts = --collect-only" ++ newline)%string]) in
      let _ := w (S k) ["pytest"] in
      let files2 :=
        write_text files1 "pytest.ini"
          (write_all [("[pytest]" ++ newline)%string;
                      ("addopts = -k " ++ dquote ++ "not test" ++ dquote
                       ++ newline)%string]) in
      (false, files2, S (S k))
  end.

(** The times of [n] runs of pytest from call number [k]. *)
Definition run_times (w : world) (k n : nat) : list F :=
  map (fun r => f_sub (end_time r) (start_time r))
    (ParallelTestScript.observe w ["pytest"] k n).

(** The loop over [outer_i] of [measure_sequential_time]. *)
Fixpoint measure_runs (w : world) (k outer_iterations inner_iterations : nat)
  (outer_avg_times all_execution_times : list F)
  : result (list F * list F * nat) :=
  match outer_iterations with
  | O => Ok (outer_avg_times, all_execution_times, k)
  | S n =>
      let inner_execution_times := run_times w k inner_iterations in
      avg_inner_time <- py_mean inner_execution_times ;;
      measure_runs w (k + inner_iterations) n inner_iterations
        (outer_avg_times ++ [avg_inner_time])
        (all_execution_times ++ inner_execution_times)
  end.

(** [measure_sequential_time(outer_iterations, inner_iterations)]. *)
Definition measure_sequential_time (w : world)
  (k outer_iterations inner_iterations : nat)
  : result (F * list F * list F * nat) :=
  looped <- measure_runs w k outer_iterations inner_iterations [] [] ;;
  let '(outer_avg_times, all_execution_times, k') := looped in
  final_avg_time <- py_mean outer_avg_times ;;
  Ok (final_avg_time, outer_avg_times, all_execution_times, k').

(** [measure_simple_sequential_time(iterations)]. *)
Definition measure_simple_sequential_time (w : world) (k iterations : nat)
  : result (F * list F * nat) :=
  let execution_times := run_times w k iterations in
  avg_time <- py_mean execution_times ;;
  Ok (avg_time, execution_times, k + iterations).

(** A list of floats as a value of JSON. *)
Definition json_floats (l : list F) : json F := JList (map JFloat l).

(** A list of strings as a value of JSON. *)
Definition json_strings (l : list string) : json F := JList (map JStr l).

(** The dict that [run_sequential_tests] dumps to
    [sequential_results.json]. *)
Definition sequential_results_json (failing_tests flaky_tests : list string)
  (execution_times : list F) : json F :=
  JDict [ ("failing_tests", json_strings failing_tests);
          ("flaky_tests", json_strings flaky_tests);
          ("execution_times", json_floats execution_times) ].

(** The dict that the script dumps to [sequential_time.json]. *)
Definition sequential_time_json (avg_time_nested : F)
  (outer_avg_times all_execution_times_nested : list F)
  (avg_time_simple : F) (execution_times_simple : list F) : json F :=
  JDict
    [ ("avg_time", JFloat avg_time_simple);
      ("avg_time_nested", JFloat avg_time_nested);
      ("avg_time_simple", JFloat avg_time_simple);
      ("tseq_nested", JDict
         [ ("value", JFloat avg_time_nested);
           ("description", JStr "Tseq (5 repetitions of 3 executions each)");
           ("outer_avg_times", json_floats outer_avg_times);
           ("all_times", json_floats all_execution_times_nested);
           ("test_suite_runs", JInt 3);
           ("repetitions_per_run", JInt 5) ]);
      ("tseq_simple", JDict
         [ ("value", JFloat avg_time_simple);
           ("description", JStr "Tseq (5 executions)");
           ("times", json_floats execution_times_simple);
           ("total_executions", JInt 5) ]) ].

(** [with open(path, "w") as f: json.dump(data, f, indent=2)]. *)
Definition dump_json (fs : filesystem F) (path : string) (data : json F)
  : filesystem F :=
  fun p => if String.eqb p path then FileJson data else fs p.

(** The files after the script: the text files and the JSON files. *)
Record script_files : Type := {
  text_files : textfiles;
  json_files : filesystem F
}.

(** The script, from its first line under [if __name__ == "__main__"]
    to the dump of [sequential_time.json]. *)
Definition main (w : world) (files : script_files) : result script_files :=
  let runs := ParallelTestScript.observe w ["pytest"] 0 10 in
  lists <- SequentialTestScript.run_sequential_tests runs ;;
  let '(failing_tests, flaky_tests) := lists in
  let json1 :=
    dump_json (json_files files) "sequential_results.json"
      (sequential_results_json failing_tests flaky_tests
         (SequentialTestScript.execution_times runs)) in
  let text1 := create_pytest_ini failing_tests flaky_tests (text_files files) in
  let '(is_clean, text2, k) := verify_clean_test_suite w 10 text1 in
  nested <- measure_sequential_time w k 3 5 ;;
  let '(avg_time_nested, outer_avg_times, all_nested, k') := nested in
  simple <- measure_simple_sequential_time w k' 5 ;;
  let '(avg_time_simple, execution_times_simple, _) := simple in
  Ok {| text_files := text2;
        json_files :=
          dump_json json1 "sequential_time.json"
            (sequential_time_json avg_time_nested outer_avg_times
               all_nested avg_time_simple execution_times_simple) |}.

End Run.

End SequentialTestScriptMore.

(* ================================================================== *)
(** * collections.Counter *)
(* ================================================================== *)

Module PyCounter.
Import Py.

(** A [Counter] on strings: its items in insertion order. *)
Definition counter : Type := list (string * nat).

(** [c[x] += 1]. *)
Definition counter_add (c : counter) (x : string) : counter :=
  match lookup x c with
  | Some n => store x (S n) c
  | None => store x 1 c
  end.

(** [c.update(l)], and [Counter(l)] from the empty counter. *)
Definition counter_update (c : counter) (l : list string) : counter :=
  fold_left counter_add l c.

(** One step of a stable sort by count, largest first: [x] goes behind
    the items whose count is not smaller. *)
Fixpoint insert_desc (x : string * nat) (l : counter) : counter :=
  match l with
  | [] => [x]
  | y :: t => if snd y <? snd x then x :: y :: t else y :: insert_desc x t
  end.

(** [sorted(c.items(), key=itemgetter(1), reverse=True)]: items of equal
    count keep their order. *)
Definition sort_desc (c : counter) : counter :=
  fold_left (fun acc x => insert_desc x acc) c [].

(** [c.most_common(n)]. *)
Definition most_common (n : nat) (c : counter) : counter :=
  firstn n (sort_desc c).

End PyCounter.

(* ================================================================== *)
(** * lab6_final/analysis-script.py: the analysis *)
(* ================================================================== *)

Module AnalysisScriptMore.
Import Py PyCounter.

(** The dict that [categorize_test_failures] returns. *)
Record categories : Type := {
  shared_resources : list string;
  timing_issues : list string;
  order_dependencies : list string;
  other_issues : list string
}.

(** The four branches of the loop of [categorize_test_failures]. *)
Inductive category : Type :=
| SharedResource
| TimingIssue
| OrderDependency
| OtherIssue.

(** The branch that a test takes. *)
Definition category_of (test : string) : category :=
  let test_lower := PyStrMore.lower test in
  if PyStr.contains "global" test_lower
     || PyStr.contains "state" test_lower
     || PyStr.contains "resource" test_lower
  then SharedResource
  else if PyStr.contains "time" test_lower
          || PyStr.contains "wait" test_lower
          || PyStr.contains "sleep" test_lower
  then TimingIssue
  else if PyStr.contains "order" test_lower
          || PyStr.contains "sequence" test_lower
          || PyStr.contains "depend" test_lower
  then OrderDependency
  else OtherIssue.

(** The body of the loop of [categorize_test_failures]. *)
Definition categorize_test (c : categories) (test : string) : categories :=
  match category_of test with
  | SharedResource =>
      {| shared_resources := shared_resources c ++ [test];
         timing_issues := timing_issues c;
         order_dependencies := order_dependencies c;
         other_issues := other_issues c |}
  | TimingIssue =>
      {| shared_resources := shared_resources c;
         timing_issues := timing_issues c ++ [test];
         order_dependencies := order_dependencies c;
         other_issues := other_issues c |}
  | OrderDependency =>
      {| shared_resources := shared_resources c;
         timing_issues := timing_issues c;
         order_dependencies := order_dependencies c ++ [test];
         other_issues := other_issues c |}
  | OtherIssue =>
      {| shared_resources := shared_resources c;
         timing_issues := timing_issues c;
         order_dependencies := order_dependencies c;
         other_issues := other_issues c ++ [test] |}
  end.

(** [categorize_test_failures(failure_analysis)], as a function of
    [failure_analysis["all_failing_tests"]]. *)
Definition categorize_test_failures (all_failing_tests : list string)
  : categories :=
  fold_left categorize_test all_failing_tests
    {| shared_resources := []; timing_issues := [];
       order_dependencies := []; other_issues := [] |}.

Section Analysis.
Context {F : Type} `{PyFloat F}.
Local Open Scope py_scope.

(** [list.sort(key=lambda x: x[1], reverse=True)] on the failure rates. *)
Variable sort_by_rate : list (string * F) -> list (string * F).

(** The dict that [analyze_parallel_failures] returns. *)
Record failure_analysis : Type := {
  all_failing_tests : list string;
  most_common_failures : counter;
  config_failure_rates : list (string * F)
}.

(** The results of the parallel script, as it dumps them. *)
Definition parallel_results : Type :=
  list (ParallelTestScript.recorded_result F).

(** The failure lists of all results, in the order of the two loops. *)
Definition failure_lists (results : parallel_results)
  : list (list string) :=
  flat_map (fun r => ParallelTestScript.failing_tests
                       (ParallelTestScript.base r)) results.

(** [config_str] of a result. *)
Definition config_str (c : ParallelTestScript.config) : string :=
  ("-n " ++ ParallelTestScript.worker_count c
   ++ " --dist " ++ ParallelTestScript.dist_mode c
   ++ " --parallel-threads " ++ ParallelTestScript.thread_count c)%string.

(** [sum(1 for x in failures if x > 0) / len(failures)]. *)
Definition failure_rate (failures : list nat) : result F :=
  num_truediv
    (PInt (Z.of_nat (List.length (filter (fun x => 0 <? x) failures))))
    (PInt (Z.of_nat (List.length failures))).

(** The third loop of [analyze_parallel_failures]. *)
Fixpoint failure_rates (results : parallel_results)
  : result (list (string * F)) :=
  match results with
  | [] => Ok []
  | r :: rest =>
      rate <- failure_rate
                (ParallelTestScript.failures (ParallelTestScript.base r)) ;;
      rates <- failure_rates rest ;;
      Ok ((config_str (ParallelTestScript.r_config
                         (ParallelTestScript.base r)), rate) :: rates)
  end.

(** [analyze_parallel_failures(parallel_results)]. (The order of
    [all_failing_tests], which Python takes from a set, is the order of
    insertion here.) *)
Definition analyze_parallel_failures (results : parallel_results)
  : result failure_analysis :=
  let all_tests :=
    fold_left ParallelTestScript.set_update (failure_lists results) [] in
  let test_failure_counter :=
    fold_left counter_update (failure_lists results) [] in
  rates <- failure_rates results ;;
  Ok {| all_failing_tests := all_tests;
        most_common_failures := most_common 10 test_failure_counter;
        config_failure_rates := sort_by_rate rates |}.

(** [v[k] = x]. *)
Definition py_setitem (v : json F) (k : string) (x : json F)
  : result (json F) :=
  match v with
  | JDict d => Ok (JDict (store k x d))
  | _ => Raise TypeError
  end.

(** The body of each handler of the second [try] of [main]. *)
Definition default_avg_time (sequential_data : json F) : result (json F) :=
  present <- py_in "avg_time" sequential_data ;;
  if present then Ok sequential_data
  else py_setitem sequential_data "avg_time" (JInt 0).

(** The second [try] block of [main], which puts [avg_time] into
    [sequential_data]; its three handlers do the same. *)
Definition main_avg_time (fs : filesystem F) (sequential_data : json F)
  : result (json F) :=
  let body :=
    sequential_time_data <- load_json fs "sequential_time.json" ;;
    a <- py_in "avg_time" sequential_time_data ;;
    if a then
      x <- py_index sequential_time_data "avg_time" ;;
      py_setitem sequential_data "avg_time" x
    else
    b <- py_in "avg_time_simple" sequential_time_data ;;
    if b then
      x <- py_index sequential_time_data "avg_time_simple" ;;
      py_setitem sequential_data "avg_time" x
    else
    c <- (c1 <- py_in "tseq_simple" sequential_time_data ;;
          if c1 then
            t <- py_index sequential_time_data "tseq_simple" ;;
            py_in "value" t
          else Ok false) ;;
    if c then
      t <- py_index sequential_time_data "tseq_simple" ;;
      x <- py_index t "value" ;;
      py_setitem sequential_data "avg_time" x
    else Ok sequential_data in
  match body with
  | Ok d => Ok d
  | Raise _ => default_avg_time sequential_data
  end.

(** [sequential_data] of [main] after its first two [try] blocks. *)
Definition main_sequential (fs : filesystem F) : result (json F) :=
  main_avg_time fs (AnalysisScript.main_sequential_data fs).

(** The Tseq in the report of [generate_report]:
    [f"{sequential_data.get('avg_time', 0):.2f}"]. *)
Definition report_tseq (sequential_data : json F) : result (pynum F) :=
  x <- py_get sequential_data "avg_time" (JInt 0) ;;
  ParallelTestScript.format_2f x.

End Analysis.

End AnalysisScriptMore.

(* ================================================================== *)
(** * lab78_final/analyze_results.py: the summaries *)
(* ================================================================== *)

Module AnalyzeResultsMore.
Import Py PyCounter AnalyzeResults.

(** ** [answer_rq3] *)

(** The column [unique_cwes] of the frame of each repository, as
    [load_repository_results] leaves it: one list of CWEs per row. *)
Definition repositories_cwes : Type := list (string * list (list string)).

(** The dict that [answer_rq3] returns. *)
Record rq3_summary : Type := {
  overall_top_cwes : list (string * nat);
  repository_top_cwes : list (string * list (string * nat))
}.

(** [l.extend(cwes)] for the lists [cwes] of a column in turn. *)
Definition extend_all (l : list string) (column : list (list string))
  : list string :=
  fold_left (fun acc cwes => acc ++ cwes) column l.

(** The first loop of [answer_rq3]: [repo_cwes] and [all_cwes]. *)
Definition collect_cwes (repositories_data : repositories_cwes)
  : list (string * list string) * list string :=
  fold_left
    (fun st item =>
       (store (fst item) (extend_all [] (snd item)) (fst st),
        extend_all (snd st) (snd item)))
    repositories_data ([], []).

(** [{f"CWE-{cwe}": count for cwe, count in top}]. *)
Definition cwe_dict (top : counter) : list (string * nat) :=
  fold_left (fun d item => store ("CWE-" ++ fst item)%string (snd item) d)
    top [].

(** The loop that fills [summary["repository_top_cwes"]]. *)
Definition repository_tops (repo_cwes : list (string * list string))
  : list (string * list (string * nat)) :=
  fold_left
    (fun d item =>
       match snd item with
       | [] => store (fst item) [] d
       | cwes =>
           store (fst item)
             (cwe_dict (most_common 5 (counter_update [] cwes))) d
       end)
    repo_cwes [].

(** [answer_rq3(repositories_data, output_dir)]: the summary that it
    returns. (The figures, and the file that the summary is dumped to,
    are left out.) *)
Definition answer_rq3 (repositories_data : repositories_cwes)
  : rq3_summary :=
  let '(repo_cwes, all_cwes) := collect_cwes repositories_data in
  let cwe_counts := counter_update [] all_cwes in
  match all_cwes with
  | [] =>
      {| overall_top_cwes := [];
         repository_top_cwes :=
           fold_left (fun d repo_name => store repo_name [] d)
             (map fst repositories_data) [] |}
  | _ =>
      let top_cwes :=
        most_common (Nat.min 10 (List.length cwe_counts)) cwe_counts in
      {| overall_top_cwes := cwe_dict top_cwes;
         repository_top_cwes := repository_tops repo_cwes |}
  end.

(** ** The counts of [answer_rq1] *)

(** [x > 0] on a cell: no comparison with NaN holds. *)
Definition gt0 (x : option Z) : bool :=
  match x with
  | Some v => Z.ltb 0 v
  | None => false
  end.

(** [len(df[df[name] > 0])]: the rows that the mask keeps. *)
Definition len_positive (df : dataframe) (name : string) : result nat :=
  bind (column df name) (fun s => Ok (List.length (filter gt0 s))).

(** [len(df)]: the rows of a frame, which all its columns have. *)
Definition len_frame (df : dataframe) : nat :=
  match df with
  | [] => 0
  | (_, s) :: _ => List.length s
  end.

(** The three counts of the entry of a repository in the summary of
    [answer_rq1]. *)
Record rq1_counts : Type := {
  total_commits : nat;
  commits_introducing_vulnerabilities : nat;
  commits_fixing_vulnerabilities : nat
}.

(** The counts for one frame, after the first loop of [answer_rq1].
    (The percentages and the means of the entry are floats and are
    left out.) *)
Definition answer_rq1_counts (df : dataframe) : result rq1_counts :=
  bind (answer_rq1_changes df) (fun df' =>
  bind (len_positive df' "high_severity_introduced") (fun introduced =>
  bind (len_positive df' "high_severity_fixed") (fun fixed =>
  Ok {| total_commits := len_frame df';
        commits_introducing_vulnerabilities := introduced;
        commits_fixing_vulnerabilities := fixed |}))).

End AnalyzeResultsMore.

(* ================================================================== *)
(** * lab5_final/coverage-comparison.py: the files *)
(* ================================================================== *)

Module CoverageComparisonMore.
Import Py.

(** The entry of a file for one suite. *)
Record suite_metrics (F : Type) : Type := {
  covered_lines : json F;
  num_statements : json F;
  coverage : pynum F
}.
Arguments covered_lines {F} s.
Arguments num_statements {F} s.
Arguments coverage {F} s.

(** The entry of a file: the keys [suite_a], [suite_b] and
    [improvement], each present or not. *)
Record file_metric (F : Type) : Type := {
  suite_a : option (suite_metrics F);
  suite_b : option (suite_metrics F);
  improvement : option (pynum F)
}.
Arguments suite_a {F} f.
Arguments suite_b {F} f.
Arguments improvement {F} f.

(** The files that both loops skip. *)
Definition is_test_file (file_path : string) : bool :=
  PyStr.contains "/tests/" file_path
  || PyStr.contains "pynguin_tests" file_path
  || PyStr.endswith "__init__.py" file_path.

Section Files.
Context {F : Type} `{PyFloat F}.
Local Open Scope py_scope.

(** [a - b] on numbers. *)
Definition num_sub (a b : pynum F) : result (pynum F) :=
  match a, b with
  | PInt x, PInt y => Ok (PInt (x - y)%Z)
  | PInt x, PFloat g => fx <- float_of_int x ;; Ok (PFloat (f_sub fx g))
  | PFloat f, PInt y => fy <- float_of_int y ;; Ok (PFloat (f_sub f fy))
  | PFloat f, PFloat g => Ok (PFloat (f_sub f g))
  end.

(** The dict that both loops make from [file_data]. *)
Definition suite_metrics_of (file_data : json F)
  : result (suite_metrics F) :=
  summary <- py_get file_data "summary" (JDict []) ;;
  covered <- py_get summary "covered_lines" (JInt 0) ;;
  statements <- py_get summary "num_statements" (JInt 0) ;;
  n0 <- py_get summary "num_statements" (JInt 0) ;;
  positive <- py_gt0 n0 ;;
  cov <-
    (if positive then
       c <- py_get summary "covered_lines" (JInt 0) ;;
       n <- py_get summary "num_statements" (JInt 1) ;;
       q <- py_truediv c n ;; Ok (PFloat q)
     else Ok (PInt 0)) ;;
  Ok {| covered_lines := covered;
        num_statements := statements;
        coverage := cov |}.

(** The loop over the files of suite A. *)
Fixpoint process_suite_a (file_metrics : list (string * file_metric F))
  (items : list (string * json F))
  : result (list (string * file_metric F)) :=
  match items with
  | [] => Ok file_metrics
  | (file_path, file_data) :: rest =>
      if is_test_file file_path then process_suite_a file_metrics rest
      else
        s <- suite_metrics_of file_data ;;
        process_suite_a
          (store file_path
             {| suite_a := Some s; suite_b := None; improvement := None |}
             file_metrics)
          rest
  end.

(** The loop over the files of suite B. *)
Fixpoint process_suite_b (file_metrics : list (string * file_metric F))
  (items : list (string * json F))
  : result (list (string * file_metric F)) :=
  match items with
  | [] => Ok file_metrics
  | (file_path, file_data) :: rest =>
      if is_test_file file_path then process_suite_b file_metrics rest
      else
        s <- suite_metrics_of file_data ;;
        match lookup file_path file_metrics with
        | Some m =>
            process_suite_b
              (store file_path
                 {| suite_a := suite_a m; suite_b := Some s;
                    improvement := improvement m |}
                 file_metrics)
              rest
        | None =>
            process_suite_b
              (store file_path
                 {| suite_a := None; suite_b := Some s;
                    improvement := None |}
                 file_metrics)
              rest
        end
  end.

(** The body of the last loop. *)
Definition add_improvement (m : file_metric F) : result (file_metric F) :=
  match suite_a m, suite_b m with
  | Some a, Some b =>
      d <- num_sub (coverage b) (coverage a) ;;
      Ok {| suite_a := suite_a m; suite_b := suite_b m;
            improvement := Some d |}
  | _, _ => Ok m
  end.

(** The last loop. *)
Fixpoint add_improvements (file_metrics : list (string * file_metric F))
  : result (list (string * file_metric F)) :=
  match file_metrics with
  | [] => Ok []
  | (file_path, m) :: rest =>
      m' <- add_improvement m ;;
      rest' <- add_improvements rest ;;
      Ok ((file_path, m') :: rest')
  end.

(** [analyze_file_coverage(suite_a_data, suite_b_data)]. *)
Definition analyze_file_coverage (suite_a_data suite_b_data : json F)
  : result (list (string * file_metric F)) :=
  files_a <- py_get suite_a_data "files" (JDict []) ;;
  items_a <- py_items files_a ;;
  file_metrics <- process_suite_a [] items_a ;;
  files_b <- py_get suite_b_data "files" (JDict []) ;;
  items_b <- py_items files_b ;;
  file_metrics' <- process_suite_b file_metrics items_b ;;
  add_improvements file_metrics'.

End Files.

End CoverageComparisonMore.

(* ================================================================== *)
(** * Exact arithmetic as an implementation of [PyFloat] *)
(* ================================================================== *)

Module ExactFloat.
Import Py QArith.

Definition q_pos (x : Q) : bool := negb (Qle_bool x 0).

Definition q_is_zero (x : Q) : bool := Qeq_bool x 0.

Lemma q_pos_not_zero (x : Q) : q_pos x = true -> q_is_zero x = false.
Proof.
  unfold q_pos, q_is_zero; intros Hpos.
  destruct (Qeq_bool x 0) eqn:E; trivial.
  apply Qeq_bool_iff in E.
  assert (Hle : Qle_bool x 0 = true).
  { apply Qle_bool_iff. rewrite E. apply Qle_refl. }
  rewrite Hle in Hpos. discriminate.
Qed.

Lemma q_of_int_is_zero (n : Z) :
  true = true -> q_is_zero (inject_Z n) = Z.eqb n 0.
Proof.
  intros _. unfold q_is_zero, Qeq_bool, inject_Z; simpl.
  rewrite Z.mul_1_r. reflexivity.
Qed.

#[export] Instance Q_PyFloat : PyFloat Q := {|
  f_of_int := inject_Z;
  f_fits := fun _ => true;
  f_add := Qplus;
  f_sub := Qminus;
  f_div := Qdiv;
  f_div_int := fun n m => Some (Qdiv (inject_Z n) (inject_Z m));
  f_is_zero := q_is_zero;
  f_pos := q_pos;
  f_pos_not_zero := q_pos_not_zero;
  f_of_int_is_zero := q_of_int_is_zero
|}.

End ExactFloat.

(* ================================================================== *)
(** * Sample inputs *)
(* ================================================================== *)

Module Samples.
Import Py QArith ExactFloat.
Local Open Scope string_scope.

(** Lines joined by newlines. *)
Definition text (lines : list string) : string :=
  PyStr.join (String "010" EmptyString) lines.

(** Two verbose pytest runs: [test_x] passes then fails, [test_y] fails
    twice (once as an error). *)
Definition two_runs : list (SequentialTestScript.pytest_run Q) :=
  [ {| SequentialTestScript.start_time := 10;
       SequentialTestScript.end_time := 12;
       SequentialTestScript.stdout :=
         text [ "collected 2 items";
                "tests/test_a.py::test_x PASSED [ 50%]";
                "tests/test_a.py::test_y FAILED [100%]" ] |};
    {| SequentialTestScript.start_time := 20;
       SequentialTestScript.end_time := 23;
       SequentialTestScript.stdout :=
         text [ "collected 2 items";
                "tests/test_a.py::test_x FAILED [ 50%]";
                "tests/test_a.py::test_y ERROR [100%]" ] |} ].

(** [sequential_time.json] in its layout with [avg_time_simple]. *)
Definition sequential_time_files : filesystem Q :=
  fun path =>
    if String.eqb path "sequential_time.json"
    then FileJson (JDict [("avg_time_simple", JFloat 12)])
    else FileError FileNotFoundError.

(** The [k]-th run of pytest takes [k + 1] seconds. *)
Definition slower_each_time : nat -> list string ->
  SequentialTestScript.pytest_run Q :=
  fun k _ =>
    {| SequentialTestScript.start_time := 100;
       SequentialTestScript.end_time := 100 + inject_Z (Z.of_nat (S k));
       SequentialTestScript.stdout := "" |}.

(** What [execute_all_configurations] returns for them. *)
Definition parallel_results : list (ParallelTestScript.recorded_result Q) :=
  Eval vm_compute in
    match ParallelTestScript.execute_all_configurations
            sequential_time_files slower_each_time with
    | Ok results => results
    | Raise _ => []
    end.

(** A coverage report: two counted files of [arrays], one counted file
    of [sort] without statements, a test file and an [__init__.py]. *)
Definition file_summary (covered statements : Z) : json Q :=
  JDict [("summary", JDict [("covered_lines", JInt covered);
                            ("num_statements", JInt statements)])].

Definition coverage_report : json Q :=
  JDict
    [ ("totals", JDict [("covered_lines", JInt 3);
                        ("num_statements", JInt 4);
                        ("missing_lines", JInt 1);
                        ("percent_covered", JFloat 75)]);
      ("files", JDict
         [ ("algorithms/arrays/flatten.py", file_summary 2 3);
           ("algorithms/tests/test_array.py", file_summary 9 9);
           ("algorithms/arrays/rotate.py", file_summary 1 1);
           ("algorithms/sort/__init__.py", file_summary 5 5);
           ("algorithms/sort/empty.py", file_summary 0 0) ]) ].

Definition coverage_report_metrics : CoverageComparison.coverage_metrics Q :=
  Eval vm_compute in
    match CoverageComparison.extract_coverage_metrics coverage_report with
    | Ok m => m
    | Raise _ =>
        {| CoverageComparison.line_coverage := PInt 0;
           CoverageComparison.branch_coverage := PInt 0;
           CoverageComparison.missing_lines := JNull;
           CoverageComparison.num_statements := JNull |}
    end.

Definition coverage_report_modules
  : list (string * ModuleLevelCoverage.module_metric Q) :=
  Eval vm_compute in
    match ModuleLevelCoverage.extract_module_metrics coverage_report with
    | Ok mm => mm
    | Raise _ => []
    end.

(** [str] on the values that occur in the samples: ints, strings,
    [None] and the booleans. *)
Definition str_of (v : json Q) : string :=
  match v with
  | JInt z => DecimalString.NilZero.string_of_int (Z.to_int z)
  | JStr s => s
  | JNull => "None"
  | JBool true => "True"
  | JBool false => "False"
  | _ => ""
  end.

(** No file at all. *)
Definition no_files : filesystem Q := fun _ => FileError FileNotFoundError.

(** A finding of a Bandit report. *)
Definition finding (confidence severity : string) (cwe : Z) : json Q :=
  JDict [ ("issue_confidence", JStr confidence);
          ("issue_severity", JStr severity);
          ("issue_cwe", JDict [("id", JInt cwe); ("link", JStr "")]);
          ("issue_text", JStr "Use of assert detected.") ].

(** A report with three findings; the last one has its CWE in the text
    only and a severity that is no level. *)
Definition bandit_report : json Q :=
  JDict
    [ ("errors", JList []);
      ("results", JList
         [ finding "HIGH" "LOW" 703;
           finding "HIGH" "MEDIUM" 78;
           JDict [ ("issue_confidence", JStr "MEDIUM");
                   ("issue_severity", JStr "UNDEFINED");
                   ("issue_text", JStr "see CWE-703 and CWE-22") ] ]) ].

Definition bandit_files : filesystem Q :=
  fun path =>
    if String.eqb path "out/abc.json" then FileJson bandit_report
    else FileError FileNotFoundError.

(** Three commits; Bandit writes a report for the first and the third
    and cannot be run for the second. *)
Definition commit_of (h subject : string) : RunBanditAnalysis.commit :=
  {| RunBanditAnalysis.hash := h;
     RunBanditAnalysis.author := "dev";
     RunBanditAnalysis.timestamp := 1700000000;
     RunBanditAnalysis.date := "2023-11-14 22:13:20";
     RunBanditAnalysis.message := subject |}.

Definition commit_a : RunBanditAnalysis.commit := commit_of "aaa" "first".
Definition commit_b : RunBanditAnalysis.commit := commit_of "bbb" "second".
Definition commit_c : RunBanditAnalysis.commit := commit_of "ccc" "third".

Definition bandit_runs : string -> @RunBanditAnalysis.bandit_effect Q :=
  fun h =>
    if String.eqb h "bbb"
    then RunBanditAnalysis.RunRaises FileNotFoundError
    else RunBanditAnalysis.RunReturns (Some (FileJson bandit_report)).

Definition loop_start : @RunBanditAnalysis.loop_state Q :=
  {| RunBanditAnalysis.st_files := no_files;
     RunBanditAnalysis.st_rows := [];
     RunBanditAnalysis.st_printed := [] |}.

(** The local time of the samples is UTC, and only their timestamp is
    formatted. *)
Definition strftime_utc (t : Z) : result string :=
  if Z.eqb t 1700000000 then Ok "2023-11-14 22:13:20"
  else if Z.eqb t 0 then Ok "1970-01-01 00:00:00"
  else Raise OverflowError.

(** Output of [git log]: two commits, the subject of the first has
    commas, and a line with fewer fields. *)
Definition git_log : string :=
  text [ "aaa,dev,1700000000,fix a, b, and c";
         "";
         "not a commit line";
         "bbb,dev,0,initial" ].

(** The severity counts of four commits, oldest first. *)
Definition severity_frame : AnalyzeResults.dataframe :=
  [ ("high_severity", [Some 2; Some 5; Some 3; Some 3]%Z);
    ("medium_severity", [Some 0; Some 0; Some 1; Some 0]%Z);
    ("low_severity", [Some 7; Some 7; Some 7; Some 9]%Z) ].

End Samples.

(** * More samples *)

Module SamplesMore.
Import Py QArith ExactFloat Samples.
Local Open Scope string_scope.

(** The first ten runs of pytest are verbose: [test_x] passes in the
    runs of even number and fails in the others, [test_y] always
    fails; the later runs print no result line. The [k]-th run takes
    [k + 1] seconds. *)
Definition flaky_world : nat -> list string ->
  SequentialTestScript.pytest_run Q :=
  fun k _ =>
    {| SequentialTestScript.start_time := 100;
       SequentialTestScript.end_time := 100 + inject_Z (Z.of_nat (S k));
       SequentialTestScript.stdout :=
         if Nat.leb 10 k then "2 deselected in 0.10s"
         else if Nat.even k
         then text [ "tests/test_a.py::test_x PASSED [ 50%]";
                     "tests/test_a.py::test_y FAILED [100%]" ]
         else text [ "tests/test_a.py::test_x FAILED [ 50%]";
                     "tests/test_a.py::test_y FAILED [100%]" ] |}.

(** No file before the sequential script runs. *)
Definition no_script_files : @SequentialTestScriptMore.script_files Q :=
  {| SequentialTestScriptMore.text_files := fun _ => None;
     SequentialTestScriptMore.json_files := no_files |}.

(** The files after the sequential script. *)
Definition written_files : @SequentialTestScriptMore.script_files Q :=
  match SequentialTestScriptMore.main flaky_world no_script_files with
  | Ok files => files
  | Raise _ => no_script_files
  end.

(** [sequential_time.json] with two of the layouts at once. *)
Definition two_layouts : filesystem Q :=
  fun path =>
    if String.eqb path "sequential_time.json"
    then FileJson (JDict [ ("avg_time_simple", JFloat 7);
                           ("avg_time", JFloat 12) ])
    else FileError FileNotFoundError.

(** [sequential_time.json] with the nested mean only. *)
Definition nested_only : filesystem Q :=
  fun path =>
    if String.eqb path "sequential_time.json"
    then FileJson (JDict [ ("avg_time_nested", JFloat 9) ])
    else FileError FileNotFoundError.

(** [sequential_time.json] with the dict [d]. *)
Definition tseq_file (d : list (string * json Q)) : filesystem Q :=
  fun path =>
    if String.eqb path "sequential_time.json" then FileJson (JDict d)
    else FileError FileNotFoundError.

(** The configuration without workers and threads. *)
Definition plain_config : ParallelTestScript.config :=
  {| ParallelTestScript.worker_count := "1";
     ParallelTestScript.thread_count := "1";
     ParallelTestScript.dist_mode := "no" |}.

(** What [execute_all_configurations] returns in the flaky world. *)
Definition flaky_parallel_results
  : list (ParallelTestScript.recorded_result Q) :=
  Eval vm_compute in
    match ParallelTestScript.execute_all_configurations
            sequential_time_files flaky_world with
    | Ok results => results
    | Raise _ => []
    end.

(** Names of failing tests. *)
Definition failing_names : list string :=
  [ "tests/test_io.py::test_Global_State";
    "tests/test_io.py::test_wait_for_state";
    "tests/test_run.py::test_sleep";
    "tests/test_run.py::test_reorder";
    "tests/test_run.py::test_sum" ].

(** The CWEs of the rows of three repositories. *)
Definition sample_cwes : AnalyzeResultsMore.repositories_cwes :=
  [ ("bandit", [ ["78"; "703"]; ["703"]; [] ]);
    ("manim", [ []; [] ]);
    ("flask", [ ["22"; "703"] ]) ].

(** A second coverage report: [flatten.py] is covered better,
    [rotate.py] is gone and [search/binary.py] is new. *)
Definition coverage_report_b : json Q :=
  JDict
    [ ("files", JDict
         [ ("algorithms/arrays/flatten.py", file_summary 3 3);
           ("algorithms/pynguin_tests/test_flatten.py", file_summary 4 4);
           ("algorithms/search/binary.py", file_summary 1 2) ]) ].

(** The items of a report and of its [files]. *)
Definition items_of (report : json Q) : list (string * json Q) :=
  match report with
  | JDict d => d
  | _ => []
  end.

Definition files_of (report : json Q) : list (string * json Q) :=
  match lookup "files" (items_of report) with
  | Some files => items_of files
  | None => []
  end.

(** What [analyze_file_coverage] returns for the two reports. *)
Definition sample_file_metrics
  : list (string * CoverageComparisonMore.file_metric Q) :=
  Eval vm_compute in
    match CoverageComparisonMore.analyze_file_coverage
            coverage_report coverage_report_b with
    | Ok file_metrics => file_metrics
    | Raise _ => []
    end.

End SamplesMore.

(* ================================================================== *)
(** * Properties *)
(* ================================================================== *)

(** ** Dicts *)

Module DictFacts.
Import Py.

Lemma lookup_store_eq {V} (k : string) (v : V) (d : list (string * V)) :
  lookup k (store k v d) = Some v.
Proof.
  induction d as [|[k' v'] d IH]; simpl.
  - now rewrite String.eqb_refl.
  - destruct (String.eqb k k') eqn:E; simpl.
    + now rewrite String.eqb_refl.
    + now rewrite E.
Qed.

Lemma lookup_store_ne {V} (k k' : string) (v : V) (d : list (string * V)) :
  k <> k' -> lookup k' (store k v d) = lookup k' d.
Proof.
  intros Hne. induction d as [|[k0 v0] d IH]; simpl.
  - destruct (String.eqb k' k) eqn:E; trivial.
    apply String.eqb_eq in E. congruence.
  - destruct (String.eqb k k0) eqn:E; simpl.
    + apply String.eqb_eq in E; subst k0.
      destruct (String.eqb k' k) eqn:E'; trivial.
      apply String.eqb_eq in E'. congruence.
    + now rewrite IH.
Qed.

Lemma lookup_store {V} (k k' : string) (v : V) (d : list (string * V)) :
  lookup k' (store k v d) = if String.eqb k' k then Some v else lookup k' d.
Proof.
  destruct (String.eqb k' k) eqn:E.
  - apply String.eqb_eq in E; subst. apply lookup_store_eq.
  - apply lookup_store_ne. intros ->. now rewrite String.eqb_refl in E.
Qed.

Lemma keys_store {V} (k : string) (v : V) (d : list (string * V)) :
  map fst (store k v d) =
  match lookup k d with
  | Some _ => map fst d
  | None => map fst d ++ [k]
  end.
Proof.
  induction d as [|[k' v'] d IH]; simpl; trivial.
  destruct (String.eqb k k') eqn:E; simpl.
  - apply String.eqb_eq in E. now subst.
  - rewrite IH. now destruct (lookup k d).
Qed.

Lemma lookup_None_keys {V} (k : string) (d : list (string * V)) :
  lookup k d = None <-> ~ In k (map fst d).
Proof.
  induction d as [|[k' v'] d IH]; simpl.
  - tauto.
  - destruct (String.eqb k k') eqn:E.
    + apply String.eqb_eq in E. subst. split; [discriminate | tauto].
    + rewrite IH. apply String.eqb_neq in E. intuition congruence.
Qed.

Lemma NoDup_keys_store {V} (k : string) (v : V) (d : list (string * V)) :
  NoDup (map fst d) -> NoDup (map fst (store k v d)).
Proof.
  intros Hd. rewrite keys_store.
  destruct (lookup k d) eqn:E; trivial.
  apply lookup_None_keys in E.
  apply NoDup_rev in Hd. rewrite <- (rev_involutive (map fst d ++ [k])).
  apply NoDup_rev. rewrite rev_app_distr. simpl.
  constructor; trivial. now rewrite <- in_rev.
Qed.

Lemma lookup_In {V} (k : string) (v : V) (d : list (string * V)) :
  NoDup (map fst d) -> (lookup k d = Some v <-> In (k, v) d).
Proof.
  induction d as [|[k' v'] d IH]; simpl; intros Hd.
  - split; [discriminate | tauto].
  - inversion Hd as [|? ? Hnotin Hd']; subst.
    destruct (String.eqb k k') eqn:E.
    + apply String.eqb_eq in E; subst k'. split.
      * intros [= ->]. now left.
      * intros [[= ->]|Hin]; trivial.
        exfalso. apply Hnotin. now apply (in_map fst) in Hin.
    + apply String.eqb_neq in E. rewrite (IH Hd'). split.
      * now right.
      * intros [[= ? ?]|Hin]; [congruence | trivial].
Qed.

End DictFacts.

(** ** Failing and flaky tests of the sequential runs *)

Module SequentialFacts.
Import Py SequentialTestScript DictFacts.

Lemma NoDup_keys_append_status (t : string) (st : status) (tr : test_results) :
  NoDup (map fst tr) -> NoDup (map fst (append_status t st tr)).
Proof.
  intros Hd. unfold append_status.
  destruct (lookup t tr); now apply NoDup_keys_store.
Qed.

Lemma NoDup_keys_record_line (tr : test_results) (line : string) :
  NoDup (map fst tr) -> NoDup (map fst (record_line tr line)).
Proof.
  intros Hd. unfold record_line.
  destruct (_ || _); trivial. now apply NoDup_keys_append_status.
Qed.

Lemma NoDup_keys_record_output (out : string) (tr : test_results) :
  NoDup (map fst tr) -> NoDup (map fst (record_output tr out)).
Proof.
  unfold record_output. generalize (output_lines out) as lines.
  intros lines; revert tr.
  induction lines as [|l lines IH]; simpl; intros tr Hd; trivial.
  apply IH. now apply NoDup_keys_record_line.
Qed.

Lemma NoDup_keys_collect {F} (runs : list (pytest_run F)) :
  NoDup (map fst (collect runs)).
Proof.
  unfold collect.
  assert (G : forall tr, NoDup (map fst tr) ->
    NoDup (map fst (fold_left
      (fun tr r => record_output tr (stdout r)) runs tr))).
  { induction runs as [|r runs IH]; simpl; intros tr Hd; trivial.
    apply IH. now apply NoDup_keys_record_output. }
  apply G. constructor.
Qed.

Lemma all_failed_spec (results : list status) :
  forallb (fun r => status_eqb r FAILED) results = true <->
  (forall r, In r results -> r = FAILED).
Proof.
  rewrite forallb_forall. split; intros Hall r Hin.
  - specialize (Hall r Hin). now destruct r.
  - rewrite (Hall r Hin). reflexivity.
Qed.

Lemma has_status_spec (st : status) (results : list status) :
  existsb (status_eqb st) results = true <-> In st results.
Proof.
  rewrite existsb_exists. split.
  - intros [x [Hin Heq]]. destruct st, x; simpl in Heq; congruence.
  - intros Hin. exists st. split; trivial. now destruct st.
Qed.

(** The two lists, by the items of [test_results]. *)
Lemma classify_spec (tr : test_results) :
  forall t,
    (In t (fst (classify tr)) <->
     exists rs, In (t, rs) tr /\ (forall r, In r rs -> r = FAILED))
    /\
    (In t (snd (classify tr)) <->
     exists rs, In (t, rs) tr /\ In PASSED rs /\ In FAILED rs).
Proof.
  induction tr as [|[name results] rest IH]; intros t; cbn [classify].
  - simpl. split; split; try tauto; intros [rs [[] _]].
  - specialize (IH t). destruct IH as [IHf IHk].
    destruct (classify rest) as [failing flaky] eqn:Ec.
    cbn [fst snd] in IHf, IHk.
    destruct (forallb (fun r => status_eqb r FAILED) results) eqn:Eall.
    + pose proof (proj1 (all_failed_spec _) Eall) as Hall.
      cbn [fst snd In]. split.
      * rewrite IHf. split.
        -- intros [<-|[rs [Hin Hrs]]].
           ++ exists results. split; [now left | trivial].
           ++ exists rs. split; [now right | trivial].
        -- intros [rs [[[= <- <-]|Hin] Hrs]]; [now left | right].
           now exists rs.
      * rewrite IHk. split.
        -- intros [rs [Hin Hrs]]. exists rs. split; [now right | trivial].
        -- intros [rs [[[= <- <-]|Hin] [Hp Hf]]].
           ++ specialize (Hall _ Hp). discriminate.
           ++ now exists rs.
    + assert (Hnot : ~ (forall r, In r results -> r = FAILED)).
      { intros Hall. apply (proj2 (all_failed_spec _)) in Hall.
        congruence. }
      destruct (existsb (status_eqb PASSED) results
                && existsb (status_eqb FAILED) results) eqn:Eboth;
        cbn [fst snd In].
      * apply andb_true_iff in Eboth. destruct Eboth as [Hp Hf].
        apply has_status_spec in Hp. apply has_status_spec in Hf. split.
        -- rewrite IHf. split.
           ++ intros [rs [Hin Hrs]]. exists rs. split; [now right | trivial].
           ++ intros [rs [[[= <- <-]|Hin] Hrs]]; [tauto | now exists rs].
        -- rewrite IHk. split.
           ++ intros [<-|[rs [Hin Hrs]]].
              ** exists results. split; [now left | tauto].
              ** exists rs. split; [now right | trivial].
           ++ intros [rs [[[= <- <-]|Hin] Hrs]]; [now left | right].
              now exists rs.
      * assert (Hnb : ~ (In PASSED results /\ In FAILED results)).
        { intros [Hp Hf]. apply has_status_spec in Hp.
          apply has_status_spec in Hf. rewrite Hp, Hf in Eboth.
          discriminate. }
        split.
        -- rewrite IHf. split.
           ++ intros [rs [Hin Hrs]]. exists rs. split; [now right | trivial].
           ++ intros [rs [[[= <- <-]|Hin] Hrs]]; [tauto | now exists rs].
        -- rewrite IHk. split.
           ++ intros [rs [Hin Hrs]]. exists rs. split; [now right | trivial].
           ++ intros [rs [[[= <- <-]|Hin] Hrs]]; [tauto | now exists rs].
Qed.

Section Run.
Context {F : Type} `{PyFloat F}.

Lemma py_mean_nonempty (ts : list F) :
  ts <> [] -> exists t, py_mean ts = Ok t.
Proof.
  destruct ts as [|t ts]; [congruence | intros _].
  unfold py_mean, py_sum. eauto.
Qed.

(** C10. With at least one iteration [run_sequential_tests] returns its
    two lists, and for the statuses collected over the iterations: a
    test is in [failing_tests] iff it has statuses and all of them are
    FAILED; it is in [flaky_tests] iff its statuses contain PASSED and
    FAILED; no test is in both lists. *)
Theorem run_sequential_tests_failing_flaky (runs : list (pytest_run F)) :
  runs <> [] ->
  exists failing_tests flaky_tests,
    run_sequential_tests runs = Ok (failing_tests, flaky_tests) /\
    (forall t,
       In t failing_tests <->
       exists rs, lookup t (collect runs) = Some rs /\
                  (forall r, In r rs -> r = FAILED)) /\
    (forall t,
       In t flaky_tests <->
       exists rs, lookup t (collect runs) = Some rs /\
                  In PASSED rs /\ In FAILED rs) /\
    (forall t, In t failing_tests -> In t flaky_tests -> False).
Proof.
  intros Hruns.
  pose proof (classify_spec (collect runs)) as Hspec.
  pose proof (NoDup_keys_collect runs) as Hnd.
  unfold run_sequential_tests.
  destruct (classify (collect runs)) as [failing flaky] eqn:Ec.
  simpl in Hspec.
  destruct (py_mean_nonempty (execution_times runs)) as [avg Havg].
  { unfold execution_times. destruct runs; [congruence | discriminate]. }
  exists failing, flaky. rewrite Havg. simpl.
  assert (Hf : forall t, In t failing <->
            exists rs, lookup t (collect runs) = Some rs /\
                       (forall r, In r rs -> r = FAILED)).
  { intros t. rewrite (proj1 (Hspec t)).
    split; intros [rs [Hin Hrs]]; exists rs; split; trivial;
      now apply (lookup_In t rs (collect runs) Hnd). }
  assert (Hk : forall t, In t flaky <->
            exists rs, lookup t (collect runs) = Some rs /\
                       In PASSED rs /\ In FAILED rs).
  { intros t. rewrite (proj2 (Hspec t)).
    split; intros [rs [Hin Hrs]]; exists rs; split; trivial;
      now apply (lookup_In t rs (collect runs) Hnd). }
  repeat split; try apply Hf; try apply Hk; trivial.
  intros t Hin1 Hin2.
  apply Hf in Hin1. apply Hk in Hin2.
  destruct Hin1 as [rs [Hl Hall]]. destruct Hin2 as [rs' [Hl' [Hp _]]].
  rewrite Hl in Hl'. injection Hl' as <-.
  specialize (Hall _ Hp). discriminate.
Qed.

End Run.

End SequentialFacts.

Module SequentialExamples.
Import Py SequentialTestScript Samples ExactFloat.

Example two_runs_classified :
  run_sequential_tests two_runs =
  Ok (["tests/test_a.py::test_y"], ["tests/test_a.py::test_x"]).
Proof. vm_compute. reflexivity. Qed.

(** The statement of C10 on the two sample runs. *)
Lemma run_sequential_tests_failing_flaky_witness :
  exists failing_tests flaky_tests,
    run_sequential_tests two_runs = Ok (failing_tests, flaky_tests) /\
    (forall t,
       In t failing_tests <->
       exists rs, lookup t (collect two_runs) = Some rs /\
                  (forall r, In r rs -> r = FAILED)) /\
    (forall t,
       In t flaky_tests <->
       exists rs, lookup t (collect two_runs) = Some rs /\
                  In PASSED rs /\ In FAILED rs) /\
    (forall t, In t failing_tests -> In t flaky_tests -> False).
Proof.
  apply (SequentialFacts.run_sequential_tests_failing_flaky two_runs).
  discriminate.
Defined.

End SequentialExamples.

(** ** Python strings: splitting *)

Module PyStrFacts.
Import PyStr.

Lemma split_not_nil (c : ascii) (s : string) : split c s <> [].
Proof.
  destruct s as [|a r]; simpl; [discriminate|].
  destruct (Ascii.eqb a c); [discriminate|].
  destruct (split c r); discriminate.
Qed.

Lemma hd_cons_head (a : ascii) (l : list string) :
  l <> [] -> hd EmptyString (cons_head a l) = String a (hd EmptyString l).
Proof. destruct l; [congruence | reflexivity]. Qed.

Lemma first_field_cons (c a : ascii) (r : string) :
  first_field c (String a r) =
  if Ascii.eqb a c then EmptyString else String a (first_field c r).
Proof.
  unfold first_field; simpl.
  destruct (Ascii.eqb a c); trivial.
  apply hd_cons_head, split_not_nil.
Qed.

(** The separator does not occur in the first field. *)
Lemma first_field_no_sep (c : ascii) (s : string) :
  contains (String c EmptyString) (first_field c s) = false.
Proof.
  induction s as [|a r IH].
  - reflexivity.
  - rewrite first_field_cons.
    destruct (Ascii.eqb a c) eqn:E; [reflexivity|].
    simpl. rewrite IH.
    destruct (ascii_dec c a) as [->|Hne].
    + now rewrite Ascii.eqb_refl in E.
    + reflexivity.
Qed.

(** The first field is the whole string, or what stands before the
    first separator. *)
Lemma first_field_prefix (c : ascii) (s : string) :
  s = first_field c s \/
  exists rest, s = (first_field c s ++ String c rest)%string.
Proof.
  induction s as [|a r IH].
  - now left.
  - rewrite first_field_cons.
    destruct (Ascii.eqb a c) eqn:E.
    + apply Ascii.eqb_eq in E; subst. right. now exists r.
    + destruct IH as [IH|[rest IH]].
      * left. now rewrite <- IH.
      * right. exists rest. simpl. now rewrite <- IH.
Qed.

End PyStrFacts.

(** ** The lines of pytest that are recorded *)

Module PytestOutputFacts.
Import Py SequentialTestScript DictFacts.

(** The line has one of the three words between two spaces. *)
Definition is_result_line (line : string) : bool :=
  PyStr.contains " PASSED " line
  || PyStr.contains " FAILED " line
  || PyStr.contains " ERROR " line.

(** The line has FAILED or ERROR between two spaces. *)
Definition is_failure_line (line : string) : bool :=
  PyStr.contains " FAILED " line || PyStr.contains " ERROR " line.

(** PASSED as soon as the line has PASSED between two spaces. *)
Definition line_status (line : string) : status :=
  if PyStr.contains " PASSED " line then PASSED else FAILED.

(** The text of the line before its first space. *)
Definition line_name (line : string) : string := PyStr.first_field " " line.

(** The statuses that a list of lines gives to the test [t]. *)
Definition statuses_of (t : string) (lines : list string) : list status :=
  map line_status
    (filter (fun l => is_result_line l && String.eqb (line_name l) t) lines).

(** The statuses recorded for [t]; none if [t] is not a key. *)
Definition recorded (t : string) (tr : test_results) : list status :=
  match lookup t tr with
  | Some l => l
  | None => []
  end.

Lemma recorded_append_status (t name : string) (st : status)
  (tr : test_results) :
  recorded t (append_status name st tr) =
  recorded t tr ++ (if String.eqb name t then [st] else []).
Proof.
  unfold recorded, append_status.
  destruct (lookup name tr) as [l|] eqn:El;
    rewrite lookup_store;
    destruct (String.eqb t name) eqn:E.
  - apply String.eqb_eq in E; subst.
    now rewrite El, String.eqb_refl.
  - rewrite String.eqb_sym, E. now rewrite app_nil_r.
  - apply String.eqb_eq in E; subst.
    now rewrite El, String.eqb_refl.
  - rewrite String.eqb_sym, E. now rewrite app_nil_r.
Qed.

Lemma recorded_record_line (t : string) (tr : test_results) (line : string) :
  recorded t (record_line tr line) = recorded t tr ++ statuses_of t [line].
Proof.
  unfold record_line, statuses_of. simpl.
  fold (is_result_line line).
  destruct (is_result_line line); simpl.
  - rewrite recorded_append_status.
    fold (PyStr.first_field " " line). fold (line_name line).
    fold (line_status line).
    now destruct (String.eqb (line_name line) t).
  - now rewrite app_nil_r.
Qed.

Lemma statuses_of_app (t : string) (l1 l2 : list string) :
  statuses_of t (l1 ++ l2) = statuses_of t l1 ++ statuses_of t l2.
Proof. unfold statuses_of. now rewrite filter_app, map_app. Qed.

Lemma recorded_fold (t : string) (lines : list string) (tr : test_results) :
  recorded t (fold_left record_line lines tr) =
  recorded t tr ++ statuses_of t lines.
Proof.
  revert tr. induction lines as [|l lines IH]; intros tr; simpl.
  - unfold statuses_of. simpl. now rewrite app_nil_r.
  - rewrite IH, recorded_record_line, <- app_assoc.
    f_equal. now rewrite <- statuses_of_app.
Qed.

Lemma failing_fold (lines : list string) (acc : list string) :
  fold_left ParallelTestScript.record_failure lines acc =
  acc ++ map line_name (filter is_failure_line lines).
Proof.
  revert acc. induction lines as [|l lines IH]; intros acc; simpl.
  - now rewrite app_nil_r.
  - rewrite IH. unfold ParallelTestScript.record_failure.
    fold (is_failure_line l).
    destruct (is_failure_line l); simpl; trivial.
    now rewrite <- app_assoc.
Qed.

(** C6, as the code has it. For every output of pytest: the statuses
    that [run_sequential_tests] records for a test [t] are the statuses
    of the lines that contain PASSED, FAILED or ERROR between two
    spaces and whose text before the first space is [t], in the order of
    the lines, where a line has the status PASSED if it contains PASSED
    between two spaces and FAILED otherwise; [run_parallel_tests]
    records the names of the lines that contain FAILED or ERROR between
    two spaces, and no other; the name has no space in it and is the
    line or the part of the line before its first space. Lines that
    match nothing leave the records as they are. *)
Theorem pytest_lines_recorded (out : string) :
  (forall t tr,
     recorded t (record_output tr out) =
     recorded t tr ++ statuses_of t (output_lines out))
  /\ ParallelTestScript.failing_of_output out =
     map line_name (filter is_failure_line (output_lines out))
  /\ (forall tr line,
        record_line tr line =
        if is_result_line line
        then append_status (line_name line) (line_status line) tr
        else tr)
  /\ (forall failing line,
        ParallelTestScript.record_failure failing line =
        if is_failure_line line then failing ++ [line_name line]
        else failing)
  /\ (forall line,
        PyStr.contains " " (line_name line) = false /\
        (line = line_name line \/
         exists rest, line = line_name line ++ String " " rest)%string).
Proof.
  repeat split.
  - intros t tr. apply recorded_fold.
  - unfold ParallelTestScript.failing_of_output.
    now rewrite failing_fold.
  - apply PyStrFacts.first_field_no_sep.
  - apply PyStrFacts.first_field_prefix.
Qed.

(** C6 as it is stated does not hold. The first line contains FAILED,
    and [run_sequential_tests] records it as passed; the second line
    ends with the word PASSED and is not recorded; the name recorded for
    the third line is empty, where the first word of the line is
    [test_x]. *)
Lemma pytest_lines_as_stated_counterexample :
  (PyStr.contains " FAILED "
     "tests/test_a.py::test_x PASSED after a FAILED attempt" = true /\
   record_line [] "tests/test_a.py::test_x PASSED after a FAILED attempt" =
   [("tests/test_a.py::test_x", [PASSED])]) /\
  record_line [] "tests/test_a.py::test_x PASSED" = [] /\
  record_line [] " test_x PASSED [ 50%]" = [("", [PASSED])].
Proof. repeat split. Qed.

End PytestOutputFacts.

(** ** Tpar and the speedup of the parallel runs *)

Module ParallelFacts.
Import Py ParallelTestScript.

Section Run.
Context {F : Type} `{PyFloat F}.

(** The wall-clock time of one run. *)
Definition elapsed (r : pytest_run F) : F :=
  f_sub (end_time r) (start_time r).

(** The sum of the times, from the left, over their number. *)
Definition arithmetic_mean (ts : list F) : F :=
  f_div (fold_left f_add ts (f_of_int 0))
        (f_of_int (Z.of_nat (List.length ts))).

(** The float that a number is in a division by a float. *)
Definition float_value (a : pynum F) : F :=
  match a with
  | PInt z => f_of_int z
  | PFloat f => f
  end.

(** What is recorded for the configuration whose runs start with call
    number [k]. *)
Definition recorded_for (w : world) (tseq : pynum F) (k : nat)
  (r : recorded_result F) : Prop :=
  let runs := observe w (command (r_config (base r))) k 3 in
  times (base r) = map elapsed runs /\
  tpar (base r) = arithmetic_mean (times (base r)) /\
  avg_time (base r) = tpar (base r) /\
  calculate_speedup tseq (PFloat (tpar (base r))) = Ok (speedup r) /\
  speedup r = f_div (float_value tseq) (tpar (base r)) /\
  tseq_used r = tseq.

Lemma calculate_speedup_Ok (tseq : pynum F) (t s : F) :
  calculate_speedup tseq (PFloat t) = Ok s ->
  s = f_div (float_value tseq) t.
Proof.
  unfold calculate_speedup. destruct tseq as [z|f]; simpl.
  - unfold float_of_int. destruct (f_fits z); simpl; [|discriminate].
    destruct (f_is_zero t); [discriminate|]. now intros [= <-].
  - destruct (f_is_zero t); [discriminate|]. now intros [= <-].
Qed.

Lemma py_mean_Ok (ts : list F) (t : F) :
  py_mean ts = Ok t -> t = arithmetic_mean ts.
Proof.
  unfold py_mean, py_sum, arithmetic_mean.
  destruct ts; [discriminate|]. now intros [= <-].
Qed.

Lemma run_parallel_tests_Ok (w : world) (k : nat) (c : config)
  (iterations : nat) (res : parallel_result F) (k' : nat) :
  run_parallel_tests w k c iterations = Ok (res, k') ->
  k' = k + iterations /\
  r_config res = c /\
  times res = map elapsed (observe w (command c) k iterations) /\
  tpar res = arithmetic_mean (times res) /\
  avg_time res = tpar res.
Proof.
  unfold run_parallel_tests.
  destruct (py_mean _) as [t|e] eqn:Em; simpl; [|discriminate].
  intros [= <- <-]. simpl.
  apply py_mean_Ok in Em. repeat split; trivial.
Qed.

Lemma run_configurations_Ok (w : world) (tseq : pynum F) (cs : list config) :
  forall k acc results,
    run_configurations w tseq cs k acc = Ok results ->
    exists new,
      results = acc ++ new /\
      map (fun r => r_config (base r)) new = cs /\
      forall j r, nth_error new j = Some r ->
                  recorded_for w tseq (k + 3 * j) r.
Proof.
  induction cs as [|c cs IH]; intros k acc results;
    cbn [run_configurations].
  - intros [= <-]. exists []. rewrite app_nil_r.
    split; [trivial | split; [trivial|]].
    intros [|j] r0; discriminate.
  - destruct (run_parallel_tests w k c 3) as [[res k']|e] eqn:Er;
      cbn [bind]; [|discriminate].
    destruct (calculate_speedup tseq (PFloat (tpar res))) as [sp|e] eqn:Es;
      cbn [bind]; [|discriminate].
    intros Hrest. apply IH in Hrest.
    destruct Hrest as [new [-> [Hcfg Hnew]]].
    apply run_parallel_tests_Ok in Er.
    destruct Er as [-> [Hc [Ht [Hp Ha]]]].
    exists ({| base := res; speedup := sp; tseq_used := tseq |} :: new).
    rewrite <- app_assoc. simpl.
    split; [trivial | split].
    + now rewrite Hc, Hcfg.
    + intros [|j] r0; simpl.
      * intros [= <-]. unfold recorded_for; simpl.
        rewrite Nat.add_0_r, Hc. repeat split; trivial.
        now apply calculate_speedup_Ok.
      * intros Hj. apply Hnew in Hj.
        now replace (k + S (j + S (j + S (j + 0))))
          with (k + 3 + 3 * j) by lia.
Qed.

(** C2. When [execute_all_configurations] returns, it has one result
    per configuration, in the order of the list; the [i]-th result has
    the times of the three runs of its command (the calls [3 i] to
    [3 i + 2] of pytest), each the clock after minus the clock before;
    its Tpar is the sum of these times over their number; its speedup
    is what [calculate_speedup] returns for the Tseq that was loaded
    and this Tpar, which is Tseq divided by Tpar. *)
Theorem tpar_is_mean_and_speedup_is_ratio (fs : filesystem F) (w : world)
  (results : list (recorded_result F)) :
  execute_all_configurations fs w = Ok results ->
  exists tseq,
    load_tseq fs = Ok tseq /\
    map (fun r => r_config (base r)) results = configurations /\
    forall i r, nth_error results i = Some r ->
                recorded_for w tseq (3 * i) r.
Proof.
  unfold execute_all_configurations.
  destruct (load_tseq fs) as [tseq|e]; cbn [bind]; [|discriminate].
  intros Hrun. apply run_configurations_Ok in Hrun.
  destruct Hrun as [new [-> [Hcfg Hnew]]]. cbn [app].
  exists tseq. split; [trivial | split; trivial].
Qed.

(** The run goes through when Tseq is loaded and no Tpar is a divisor
    that [calculate_speedup] refuses. *)
Lemma run_configurations_total (w : world) (tseq : pynum F)
  (cs : list config) :
  (forall t, raises (calculate_speedup tseq (PFloat t)) = false) ->
  forall k acc, exists results, run_configurations w tseq cs k acc = Ok results.
Proof.
  intros Hsp. induction cs as [|c cs IH]; intros k acc;
    cbn [run_configurations].
  - eauto.
  - destruct (run_parallel_tests w k c 3) as [[res k']|e] eqn:Er;
      cbn [bind].
    + specialize (Hsp (tpar res)).
      destruct (calculate_speedup tseq (PFloat (tpar res))) as [sp|e];
        [|discriminate].
      cbn [bind]. apply IH.
    + unfold run_parallel_tests in Er. simpl in Er. discriminate.
Qed.

End Run.

End ParallelFacts.

Module ParallelExamples.
Import Py ParallelTestScript ParallelFacts Samples ExactFloat QArith.

(** The first configuration runs for 1, 2 and 3 seconds: Tpar is 2 and
    the speedup is 12 / 2. *)
Example first_configuration_speedup :
  match parallel_results with
  | r :: _ =>
      Forall2 Qeq (times (base r)) [1; 2; 3] /\
      tpar (base r) == 2 /\ speedup r == 6
  | [] => False
  end.
Proof.
  unfold parallel_results. cbn [base times tpar speedup].
  split; [|split]; [repeat constructor | |]; reflexivity.
Qed.

(** The statement of C2 on the sample runs. *)
Lemma tpar_is_mean_and_speedup_is_ratio_witness :
  exists tseq,
    load_tseq sequential_time_files = Ok tseq /\
    map (fun r => r_config (base r)) parallel_results = configurations /\
    forall i r, nth_error parallel_results i = Some r ->
                recorded_for slower_each_time tseq (3 * i) r.
Proof.
  apply (tpar_is_mean_and_speedup_is_ratio
           sequential_time_files slower_each_time parallel_results).
  vm_compute. reflexivity.
Defined.

End ParallelExamples.

(** ** Division in Python *)

Module PyNumFacts.
Import Py.

Section Facts.
Context {F : Type} `{PyFloat F}.

Lemma float_of_int_Ok (n : Z) (x : F) :
  float_of_int n = Ok x -> f_fits n = true /\ x = f_of_int n.
Proof.
  unfold float_of_int. destruct (f_fits n); [|discriminate].
  now intros [= <-].
Qed.

(** A divisor that is greater than zero is not refused. *)
Lemma num_truediv_positive (a b : pynum F) :
  num_gt0 b = true -> num_truediv a b <> Raise ZeroDivisionError.
Proof.
  intros Hpos. destruct a as [x|f], b as [y|g]; simpl in *.
  - apply Z.ltb_lt in Hpos.
    destruct (Z.eqb_spec y 0); [lia|].
    destruct (f_div_int x y); discriminate.
  - unfold float_of_int. destruct (f_fits x); simpl; [|discriminate].
    rewrite (f_pos_not_zero _ Hpos). discriminate.
  - apply Z.ltb_lt in Hpos.
    unfold float_of_int. destruct (f_fits y) eqn:Efit; simpl; [|discriminate].
    rewrite (f_of_int_is_zero _ Efit).
    destruct (Z.eqb_spec y 0); [lia | discriminate].
  - rewrite (f_pos_not_zero _ Hpos). discriminate.
Qed.

Lemma py_truediv_positive (a b : json F) :
  py_gt0 b = Ok true -> py_truediv a b <> Raise ZeroDivisionError.
Proof.
  unfold py_gt0, py_truediv.
  destruct (as_num b) as [y|]; [|discriminate].
  intros [= Hpos].
  destruct (as_num a) as [x|]; [|discriminate].
  now apply num_truediv_positive.
Qed.

(** Division by the int 100 is not refused. *)
Lemma py_truediv_100 (a : json F) :
  py_truediv a (JInt 100) <> Raise ZeroDivisionError.
Proof.
  unfold py_truediv. simpl.
  destruct (as_num a) as [x|]; [|discriminate].
  apply num_truediv_positive. reflexivity.
Qed.

Lemma py_get_no_zero_div (v : json F) (k : string) (dflt : json F) :
  py_get v k dflt <> Raise ZeroDivisionError.
Proof. destruct v; discriminate. Qed.

Lemma py_get_Ok (v : json F) (k : string) (dflt x : json F) :
  py_get v k dflt = Ok x ->
  exists d, v = JDict d /\
            x = match lookup k d with Some y => y | None => dflt end.
Proof.
  destruct v; try discriminate. simpl. intros [= <-]. eauto.
Qed.

Lemma py_gt0_no_zero_div (v : json F) : py_gt0 v <> Raise ZeroDivisionError.
Proof. unfold py_gt0. destruct (as_num v); discriminate. Qed.

Lemma py_in_no_zero_div (k : string) (v : json F) :
  py_in k v <> Raise ZeroDivisionError.
Proof. destruct v; discriminate. Qed.

Lemma py_index_no_zero_div (v : json F) (k : string) :
  py_index v k <> Raise ZeroDivisionError.
Proof. destruct v; try discriminate. simpl. destruct (lookup k d); discriminate. Qed.

Lemma num_add_no_zero_div (a b : pynum F) :
  num_add a b <> Raise ZeroDivisionError.
Proof.
  destruct a as [x|f], b as [y|g]; simpl; try discriminate;
    unfold float_of_int;
    match goal with |- context [f_fits ?n] => destruct (f_fits n) end;
    discriminate.
Qed.

Lemma py_add_no_zero_div (a : pynum F) (v : json F) :
  py_add a v <> Raise ZeroDivisionError.
Proof.
  unfold py_add. destruct (as_num v); [apply num_add_no_zero_div|discriminate].
Qed.

(** A bind raises what its first part raises, or what its second part
    raises after a value of the first. *)
Lemma bind_Raise {A B} (r : result A) (k : A -> result B) (e : exn) :
  bind r k = Raise e ->
  r = Raise e \/ exists a, r = Ok a /\ k a = Raise e.
Proof. destruct r as [a|e']; simpl; [eauto | intros [= ->]; now left]. Qed.

Lemma bind_Ok {A B} (r : result A) (k : A -> result B) (b : B) :
  bind r k = Ok b -> exists a, r = Ok a /\ k a = Ok b.
Proof. destruct r as [a|e']; simpl; [eauto | discriminate]. Qed.

End Facts.

End PyNumFacts.

(** ** The line coverage of a report and of its modules *)

Module CoverageFacts.
Import Py PyNumFacts DictFacts.
Import CoverageComparison ModuleLevelCoverage.

Section Facts.
Context {F : Type} `{PyFloat F}.
Local Open Scope py_scope.

(** The quotient that is reported for [covered] lines of [total]: the
    division when [total > 0], the int 0 otherwise. *)
Definition is_line_ratio (covered total : json F) (ratio : pynum F) : Prop :=
  exists positive,
    py_gt0 total = Ok positive /\
    if positive
    then exists q, py_truediv covered total = Ok q /\ ratio = PFloat q
    else ratio = PInt 0.

(** The same on two numbers. *)
Definition is_num_ratio (covered total : pynum F) (ratio : pynum F) : Prop :=
  if num_gt0 total
  then exists q, num_truediv covered total = Ok q /\ ratio = PFloat q
  else ratio = PInt 0.

(** The value of a key of a dict, or a default. *)
Definition field (d : list (string * json F)) (k : string) (dflt : json F)
  : json F :=
  match lookup k d with Some v => v | None => dflt end.

Lemma extract_coverage_metrics_no_zero_div (data : json F) :
  extract_coverage_metrics data <> Raise ZeroDivisionError.
Proof.
  unfold extract_coverage_metrics. intros Hc.
  apply bind_Raise in Hc. destruct Hc as [Hc|[no_totals [_ Hc]]].
  { destruct (negb (truthy data)); [discriminate|].
    apply bind_Raise in Hc. destruct Hc as [Hc|[b [_ Hc]]]; [|discriminate].
    now apply py_in_no_zero_div in Hc. }
  destruct no_totals; [discriminate|].
  apply bind_Raise in Hc. destruct Hc as [Hc|[totals [_ Hc]]].
  { now apply py_index_no_zero_div in Hc. }
  apply bind_Raise in Hc. destruct Hc as [Hc|[n0 [Hn0 Hc]]].
  { now apply py_get_no_zero_div in Hc. }
  apply bind_Raise in Hc. destruct Hc as [Hc|[positive [Hpos Hc]]].
  { now apply py_gt0_no_zero_div in Hc. }
  apply bind_Raise in Hc. destruct Hc as [Hc|[lc [_ Hc]]].
  { destruct positive; [|discriminate].
    apply bind_Raise in Hc. destruct Hc as [Hc|[c [_ Hc]]].
    { now apply py_get_no_zero_div in Hc. }
    apply bind_Raise in Hc. destruct Hc as [Hc|[n [Hn Hc]]].
    { now apply py_get_no_zero_div in Hc. }
    apply bind_Raise in Hc. destruct Hc as [Hc|[q [_ Hc]]]; [|discriminate].
    revert Hc. apply py_truediv_positive.
    (* the divisor is the value that was tested, or the default 1 *)
    destruct totals; try discriminate. simpl in Hn, Hn0.
    injection Hn as <-. injection Hn0 as <-.
    destruct (lookup "num_statements" d); trivial. }
  apply bind_Raise in Hc. destruct Hc as [Hc|[p [_ Hc]]].
  { now apply py_get_no_zero_div in Hc. }
  apply bind_Raise in Hc. destruct Hc as [Hc|[bc [_ Hc]]].
  { destruct (is_int_or_float p); [|discriminate].
    apply bind_Raise in Hc. destruct Hc as [Hc|[p0 [_ Hc]]].
    { now apply py_get_no_zero_div in Hc. }
    apply bind_Raise in Hc. destruct Hc as [Hc|[q [_ Hc]]]; [|discriminate].
    now apply py_truediv_100 in Hc. }
  apply bind_Raise in Hc. destruct Hc as [Hc|[ms [_ Hc]]].
  { now apply py_get_no_zero_div in Hc. }
  apply bind_Raise in Hc. destruct Hc as [Hc|[st [_ Hc]]]; [|discriminate].
  now apply py_get_no_zero_div in Hc.
Qed.

(** With a dict under [totals], the line coverage is the ratio of the
    two entries of that dict. *)
Lemma extract_coverage_metrics_ratio (d totals : list (string * json F))
  (m : coverage_metrics F) :
  lookup "totals" d = Some (JDict totals) ->
  extract_coverage_metrics (JDict d) = Ok m ->
  match lookup "num_statements" totals with
  | None => line_coverage m = PInt 0
  | Some n => is_line_ratio (field totals "covered_lines" (JInt 0)) n
                (line_coverage m)
  end.
Proof.
  intros Ht. unfold extract_coverage_metrics.
  assert (Hd : truthy (JDict d) = true) by (destruct d; [discriminate|reflexivity]).
  rewrite Hd. simpl. rewrite Ht. simpl.
  unfold is_line_ratio, field.
  destruct (lookup "num_statements" totals) as [n|] eqn:En.
  - intros Hm.
    apply bind_Ok in Hm. destruct Hm as [positive [Hpos Hm]].
    exists positive. split; trivial.
    apply bind_Ok in Hm. destruct Hm as [lc [Hlc Hm]].
    apply bind_Ok in Hm. destruct Hm as [bc [_ Hm]].
    injection Hm as <-. simpl.
    destruct positive.
    + apply bind_Ok in Hlc. destruct Hlc as [q [Hq Hlc]].
      injection Hlc as <-. eauto.
    + now injection Hlc as <-.
  - simpl. intros Hm.
    apply bind_Ok in Hm. destruct Hm as [bc [_ Hm]].
    now injection Hm as <-.
Qed.

(** Without [totals] all four entries are the int 0. *)
Lemma extract_coverage_metrics_default (data : json F)
  (m : coverage_metrics F) :
  (truthy data = false \/ py_in "totals" data = Ok false) ->
  extract_coverage_metrics data = Ok m ->
  line_coverage m = PInt 0.
Proof.
  unfold extract_coverage_metrics. intros [Hf|Hin].
  - rewrite Hf. simpl. now intros [= <-].
  - destruct (negb (truthy data)); simpl.
    + now intros [= <-].
    + rewrite Hin. simpl. now intros [= <-].
Qed.

End Facts.

End CoverageFacts.

Module ModuleCoverageFacts.
Import Py PyNumFacts DictFacts.
Import CoverageComparison ModuleLevelCoverage CoverageFacts.

Section Facts.
Context {F : Type} `{PyFloat F}.
Local Open Scope py_scope.

(** [file_data.get('summary', {}).get(fld, 0)]. *)
Definition summary_field (fld : string) (file_data : json F)
  : result (json F) :=
  summary <- py_get file_data "summary" (JDict []) ;;
  py_get summary fld (JInt 0).

(** The files of the report that are counted in the module [name]. *)
Definition module_files (name : string) (items : list (string * json F))
  : list (string * json F) :=
  filter (fun it => match counted_module (fst it) with
                    | Some n => String.eqb n name
                    | None => false
                    end) items.

(** The values of one summary field over a list of files. *)
Fixpoint summary_fields (fld : string) (fs : list (string * json F))
  : result (list (json F)) :=
  match fs with
  | [] => Ok []
  | it :: rest =>
      v <- summary_field fld (snd it) ;;
      vs <- summary_fields fld rest ;;
      Ok (v :: vs)
  end.

(** The sum of a list of values, from [acc], in Python's arithmetic. *)
Fixpoint py_total (acc : pynum F) (vs : list (json F)) : result (pynum F) :=
  match vs with
  | [] => Ok acc
  | v :: rest => a <- py_add acc v ;; py_total a rest
  end.

(** What the loop over the files adds to the entry of [name]. *)
Definition counted_from (name : string) (items : list (string * json F))
  (m0 m : module_count F) : Prop :=
  exists covs tots,
    summary_fields "covered_lines" (module_files name items) = Ok covs /\
    summary_fields "num_statements" (module_files name items) = Ok tots /\
    py_total (covered_lines m0) covs = Ok (covered_lines m) /\
    py_total (total_lines m0) tots = Ok (total_lines m) /\
    files m = files m0 + List.length (module_files name items).

Lemma module_files_cons (name path : string) (file_data : json F)
  (rest : list (string * json F)) :
  module_files name ((path, file_data) :: rest) =
  match counted_module path with
  | Some n =>
      if String.eqb n name then (path, file_data) :: module_files name rest
      else module_files name rest
  | None => module_files name rest
  end.
Proof.
  unfold module_files. cbn [filter fst].
  now destruct (counted_module path) as [n|].
Qed.

Lemma count_files_module (items : list (string * json F)) :
  forall mm0 mm,
    count_files mm0 items = Ok mm ->
    forall name,
      counted_from name items (entry name mm0) (entry name mm) /\
      (lookup name mm = None <->
       lookup name mm0 = None /\ module_files name items = []).
Proof.
  induction items as [|[path file_data] rest IH]; intros mm0 mm.
  - simpl. intros [= <-] name. split; [|tauto].
    exists [], []. simpl. repeat split; trivial; lia.
  - cbn [count_files]. intros Hrun name.
    apply bind_Ok in Hrun. destruct Hrun as [mm1 [Hstep Hrest]].
    specialize (IH _ _ Hrest name). destruct IH as [IHc IHn].
    unfold count_file in Hstep. unfold counted_from.
    rewrite module_files_cons.
    destruct (counted_module path) as [mname|] eqn:Ecm.
    + apply bind_Ok in Hstep. destruct Hstep as [summary [Hs Hstep]].
      apply bind_Ok in Hstep. destruct Hstep as [covered [Hc Hstep]].
      apply bind_Ok in Hstep. destruct Hstep as [total [Ht Hstep]].
      apply bind_Ok in Hstep. destruct Hstep as [c' [Hc' Hstep]].
      apply bind_Ok in Hstep. destruct Hstep as [t' [Ht' Hstep]].
      injection Hstep as <-.
      destruct (String.eqb mname name) eqn:En.
      * apply String.eqb_eq in En; subst mname.
        unfold counted_from in IHc.
        match type of IHc with
        | context [entry name (store name ?x mm0)] =>
            replace (entry name (store name x mm0)) with x in IHc
              by (unfold entry; now rewrite lookup_store_eq)
        end.
        rewrite lookup_store_eq in IHn.
        destruct IHc as [covs [tots [Hcs [Hts [Hpc [Hpt Hf]]]]]].
        cbn [covered_lines total_lines files] in Hpc, Hpt, Hf.
        split.
        -- exists (covered :: covs), (total :: tots).
           cbn [summary_fields snd py_total List.length].
           unfold summary_field. rewrite Hs. cbn [bind].
           rewrite Hc, Ht, Hcs, Hts. cbn [bind].
           rewrite Hc', Ht'. cbn [bind].
           repeat split; trivial. lia.
        -- split.
           ++ intros Hnone. apply IHn in Hnone. destruct Hnone; discriminate.
           ++ intros [_ Hnil]. discriminate.
      * assert (Hne : mname <> name).
        { intros ->. now rewrite String.eqb_refl in En. }
        match type of IHc with
        | context [entry name (store mname ?x mm0)] =>
            replace (entry name (store mname x mm0)) with (entry name mm0)
              in IHc
              by (unfold entry; now rewrite (lookup_store_ne _ _ _ _ Hne))
        end.
        rewrite (lookup_store_ne _ _ _ _ Hne) in IHn.
        split; trivial.
    + injection Hstep as <-. split; trivial.
Qed.

Lemma add_coverage_lookup (mm : list (string * module_count F)) :
  forall res,
    add_coverage mm = Ok res ->
    forall name,
      match lookup name res with
      | Some m =>
          lookup name mm = Some (counts m) /\
          is_num_ratio (covered_lines (counts m)) (total_lines (counts m))
            (coverage m)
      | None => lookup name mm = None
      end.
Proof.
  induction mm as [|[mname m0] rest IH]; intros res; cbn [add_coverage].
  - intros [= <-] name. reflexivity.
  - intros Hrun name.
    apply bind_Ok in Hrun. destruct Hrun as [cov [Hcov Hrun]].
    apply bind_Ok in Hrun. destruct Hrun as [rest' [Hrest Hrun]].
    injection Hrun as <-. cbn [lookup].
    destruct (String.eqb name mname).
    + cbn [counts coverage]. split; trivial.
      unfold module_coverage in Hcov. unfold is_num_ratio.
      destruct (num_gt0 (total_lines m0)).
      * apply bind_Ok in Hcov. destruct Hcov as [q [Hq Hcov]].
        injection Hcov as <-. eauto.
      * now injection Hcov as <-.
    + apply (IH _ Hrest name).
Qed.

Lemma count_file_no_zero_div (mm : list (string * module_count F))
  (item : string * json F) :
  count_file mm item <> Raise ZeroDivisionError.
Proof.
  destruct item as [path file_data]. unfold count_file.
  destruct (counted_module path); [|discriminate]. intros Hc.
  apply bind_Raise in Hc. destruct Hc as [Hc|[sm [_ Hc]]].
  { now apply py_get_no_zero_div in Hc. }
  apply bind_Raise in Hc. destruct Hc as [Hc|[c [_ Hc]]].
  { now apply py_get_no_zero_div in Hc. }
  apply bind_Raise in Hc. destruct Hc as [Hc|[t [_ Hc]]].
  { now apply py_get_no_zero_div in Hc. }
  apply bind_Raise in Hc. destruct Hc as [Hc|[c' [_ Hc]]].
  { now apply py_add_no_zero_div in Hc. }
  apply bind_Raise in Hc. destruct Hc as [Hc|[t' [_ Hc]]]; [|discriminate].
  now apply py_add_no_zero_div in Hc.
Qed.

Lemma count_files_no_zero_div (items : list (string * json F)) :
  forall mm, count_files mm items <> Raise ZeroDivisionError.
Proof.
  induction items as [|item rest IH]; intros mm; cbn [count_files].
  - discriminate.
  - intros Hc. apply bind_Raise in Hc. destruct Hc as [Hc|[mm' [_ Hc]]].
    + now apply count_file_no_zero_div in Hc.
    + now apply IH in Hc.
Qed.

Lemma add_coverage_no_zero_div (mm : list (string * module_count F)) :
  add_coverage mm <> Raise ZeroDivisionError.
Proof.
  induction mm as [|[name m] rest IH]; cbn [add_coverage].
  - discriminate.
  - intros Hc. apply bind_Raise in Hc. destruct Hc as [Hc|[cov [_ Hc]]].
    + unfold module_coverage in Hc.
      destruct (num_gt0 (total_lines m)) eqn:Epos; [|discriminate].
      apply bind_Raise in Hc. destruct Hc as [Hc|[q [_ Hc]]]; [|discriminate].
      now apply (num_truediv_positive _ _ Epos) in Hc.
    + apply bind_Raise in Hc. destruct Hc as [Hc|[r [_ Hc]]]; [|discriminate].
      now apply IH in Hc.
Qed.

Lemma extract_module_metrics_no_zero_div (coverage_data : json F) :
  extract_module_metrics coverage_data <> Raise ZeroDivisionError.
Proof.
  unfold extract_module_metrics. intros Hc.
  apply bind_Raise in Hc. destruct Hc as [Hc|[fv [_ Hc]]].
  { now apply py_get_no_zero_div in Hc. }
  apply bind_Raise in Hc. destruct Hc as [Hc|[items [_ Hc]]].
  { destruct fv; discriminate. }
  apply bind_Raise in Hc. destruct Hc as [Hc|[mm [_ Hc]]].
  { now apply count_files_no_zero_div in Hc. }
  now apply add_coverage_no_zero_div in Hc.
Qed.

End Facts.

End ModuleCoverageFacts.

Module LineCoverage.
Import Py PyNumFacts DictFacts.
Import CoverageComparison ModuleLevelCoverage CoverageFacts.
Import ModuleCoverageFacts.

Section Facts.
Context {F : Type} `{PyFloat F}.

(** The line coverage that [extract_coverage_metrics] reports for
    [data]: the ratio of [covered_lines] (0 if absent) to
    [num_statements] of [totals], and the int 0 without [totals] or
    without [num_statements]. *)
Definition report_line_coverage (data : json F) (m : coverage_metrics F)
  : Prop :=
  match data with
  | JDict d =>
      match lookup "totals" d with
      | Some (JDict totals) =>
          match lookup "num_statements" totals with
          | Some n =>
              is_line_ratio (field totals "covered_lines" (JInt 0)) n
                (line_coverage m)
          | None => line_coverage m = PInt 0
          end
      | _ => line_coverage m = PInt 0
      end
  | _ => line_coverage m = PInt 0
  end.

(** The entries that [extract_module_metrics] reports for
    [coverage_data]: one per module that has counted files; its two
    counts are the sums, from the int 0, of the summary values of these
    files, and its coverage is the ratio of the two sums. *)
Definition report_module_coverage (coverage_data : json F)
  (mm : list (string * module_metric F)) : Prop :=
  exists d items,
    coverage_data = JDict d /\
    field d "files" (JDict []) = JDict items /\
    forall name,
      match lookup name mm with
      | Some m =>
          module_files name items <> [] /\
          counted_from name items new_count (counts m) /\
          is_num_ratio (covered_lines (counts m)) (total_lines (counts m))
            (coverage m)
      | None => module_files name items = []
      end.

Lemma extract_coverage_metrics_report (data : json F)
  (m : coverage_metrics F) :
  extract_coverage_metrics data = Ok m -> report_line_coverage data m.
Proof.
  intros Hm. unfold report_line_coverage.
  destruct data as [| b | z | f | s | l | d].
  - apply (extract_coverage_metrics_default JNull m); auto.
  - unfold extract_coverage_metrics in Hm. destruct b; simpl in Hm.
    + discriminate.
    + now injection Hm as <-.
  - unfold extract_coverage_metrics in Hm. simpl in Hm.
    destruct (Z.eqb z 0); simpl in Hm; [|discriminate].
    now injection Hm as <-.
  - unfold extract_coverage_metrics in Hm. simpl in Hm.
    destruct (f_is_zero f); simpl in Hm; [|discriminate].
    now injection Hm as <-.
  - unfold extract_coverage_metrics in Hm. simpl in Hm.
    destruct (String.eqb s ""); simpl in Hm.
    + now injection Hm as <-.
    + destruct (PyStr.contains "totals" s); simpl in Hm; [discriminate|].
      now injection Hm as <-.
  - unfold extract_coverage_metrics in Hm. simpl in Hm.
    destruct l as [|x l]; simpl in Hm.
    + now injection Hm as <-.
    + destruct (eq_str x "totals" || existsb (fun x => eq_str x "totals") l);
        simpl in Hm; [discriminate|].
      now injection Hm as <-.
  - destruct (lookup "totals" d) as [t|] eqn:Et.
    + destruct t as [| b | z | f | s | l | totals];
        try (exfalso; unfold extract_coverage_metrics in Hm;
             assert (Hd : truthy (JDict d) = true)
               by (destruct d; [discriminate | reflexivity]);
             rewrite Hd in Hm; simpl in Hm; rewrite Et in Hm;
             simpl in Hm; discriminate).
      apply (extract_coverage_metrics_ratio d totals m Et Hm).
    + apply (extract_coverage_metrics_default (JDict d) m); trivial.
      right. simpl. now rewrite Et.
Qed.

Lemma extract_module_metrics_report (coverage_data : json F)
  (mm : list (string * module_metric F)) :
  extract_module_metrics coverage_data = Ok mm ->
  report_module_coverage coverage_data mm.
Proof.
  unfold extract_module_metrics. intros Hm.
  apply bind_Ok in Hm. destruct Hm as [fv [Hfv Hm]].
  apply bind_Ok in Hm. destruct Hm as [items [Hitems Hm]].
  apply bind_Ok in Hm. destruct Hm as [mc [Hmc Hm]].
  apply py_get_Ok in Hfv. destruct Hfv as [d [-> ->]].
  exists d, items. split; trivial. split.
  { unfold field. destruct (lookup "files" d) as [v|]; simpl in Hitems.
    - destruct v; try discriminate. now injection Hitems as <-.
    - now injection Hitems as <-. }
  intros name.
  pose proof (add_coverage_lookup mc mm Hm name) as Hadd.
  pose proof (count_files_module items [] mc Hmc name) as [Hcount Hnone].
  destruct (lookup name mm) as [m|].
  - destruct Hadd as [Hl Hratio].
    split; [|split]; trivial.
    + intros Hnil.
      assert (Hn : lookup name mc = None) by (apply Hnone; now split).
      congruence.
    + unfold entry in Hcount. rewrite Hl in Hcount. exact Hcount.
  - apply Hnone in Hadd. tauto.
Qed.

(** C5. For every decoded coverage report: neither function raises
    [ZeroDivisionError]; when [extract_coverage_metrics] returns, its
    line coverage is [covered_lines / num_statements] of [totals] if
    [num_statements > 0], and the int 0 if [num_statements] is not
    greater than zero or is absent; when [extract_module_metrics]
    returns, each module has the sums of [covered_lines] and
    [num_statements] over the summaries of its files, and its coverage
    is the first sum over the second if the second is greater than
    zero, and the int 0 otherwise. *)
Theorem line_coverage_is_ratio (data : json F) :
  extract_coverage_metrics data <> Raise ZeroDivisionError /\
  extract_module_metrics data <> Raise ZeroDivisionError /\
  (forall m, extract_coverage_metrics data = Ok m ->
             report_line_coverage data m) /\
  (forall mm, extract_module_metrics data = Ok mm ->
              report_module_coverage data mm).
Proof.
  split; [apply extract_coverage_metrics_no_zero_div|].
  split; [apply extract_module_metrics_no_zero_div|].
  split.
  - apply extract_coverage_metrics_report.
  - apply extract_module_metrics_report.
Qed.

End Facts.

End LineCoverage.

Module LineCoverageExamples.
Import Py Samples ExactFloat QArith.
Import CoverageComparison ModuleLevelCoverage LineCoverage.

(** 3 covered lines of 4 statements. *)
Example report_three_of_four :
  exists q, line_coverage coverage_report_metrics = PFloat q /\ q == 3 # 4.
Proof. eexists. split; reflexivity. Qed.

(** [arrays] has 2 + 1 covered lines of 3 + 1 statements in two files;
    [sort] has no statement and the coverage 0; there is no other
    module. *)
Example modules_of_report :
  map fst coverage_report_modules = ["arrays"; "sort"] /\
  (exists m q, lookup "arrays" coverage_report_modules = Some m /\
     covered_lines (counts m) = PInt 3 /\ total_lines (counts m) = PInt 4 /\
     files (counts m) = 2%nat /\ coverage m = PFloat q /\ q == 3 # 4) /\
  (exists m, lookup "sort" coverage_report_modules = Some m /\
     total_lines (counts m) = PInt 0 /\ coverage m = PInt 0).
Proof.
  split; [reflexivity|]. split.
  - do 2 eexists. repeat split; reflexivity.
  - eexists. repeat split; reflexivity.
Qed.

(** An empty report has the coverage 0 and no module. *)
Example empty_report :
  (exists m, extract_coverage_metrics (F:=Q) (JDict []) = Ok m /\
             line_coverage m = PInt 0) /\
  extract_module_metrics (F:=Q) (JDict []) = Ok [].
Proof. split; [eexists; split|]; reflexivity. Qed.

(** The statement of C5 on the sample report. *)
Lemma line_coverage_is_ratio_witness :
  report_line_coverage coverage_report coverage_report_metrics /\
  report_module_coverage coverage_report coverage_report_modules.
Proof.
  destruct (line_coverage_is_ratio coverage_report) as (_ & _ & Hm & Hmm).
  split; [apply Hm | apply Hmm]; vm_compute; reflexivity.
Defined.

End LineCoverageExamples.

(** ** The counts of a Bandit report *)

Module BanditFacts.
Import Py PyNumFacts DictFacts RunBanditAnalysis.
Import CoverageFacts.

Section Facts.
Context {F : Type} `{PyFloat F}.
Variable py_str : json F -> string.

(** The entries of [results] in a decoded report: the items of the
    list that the report has under [results]. *)
Definition results_entries (data : json F) : list (json F) :=
  match data with
  | JDict d =>
      match lookup "results" d with
      | Some (JList entries) => entries
      | _ => []
      end
  | _ => []
  end.

(** The entry is an object whose [key] is the string [level]. *)
Definition has_level (key level : string) (finding : json F) : bool :=
  match finding with
  | JDict d =>
      match lookup key d with
      | Some (JStr s) => String.eqb s level
      | _ => false
      end
  | _ => false
  end.

(** The number of entries with the level [level] under [key]. *)
Definition count_level (key level : string) (findings : list (json F)) : nat :=
  List.length (filter (has_level key level) findings).

Lemma has_level_field (key level : string) (d : list (string * json F)) :
  has_level key level (JDict d) = eq_str (field d key JNull) level.
Proof.
  unfold has_level, field, eq_str.
  destruct (lookup key d) as [v|]; reflexivity.
Qed.

(** The six counters of [m] are those of [m0] plus the counts of
    [findings]. *)
Definition counts_added (m0 m : metrics) (findings : list (json F)) : Prop :=
  high_confidence m =
    high_confidence m0 + count_level "issue_confidence" "HIGH" findings /\
  medium_confidence m =
    medium_confidence m0 + count_level "issue_confidence" "MEDIUM" findings /\
  low_confidence m =
    low_confidence m0 + count_level "issue_confidence" "LOW" findings /\
  high_severity m =
    high_severity m0 + count_level "issue_severity" "HIGH" findings /\
  medium_severity m =
    medium_severity m0 + count_level "issue_severity" "MEDIUM" findings /\
  low_severity m =
    low_severity m0 + count_level "issue_severity" "LOW" findings.

Definition bool_nat (b : bool) : nat := if b then 1 else 0.

Lemma count_level_cons (key level : string) (x : json F)
  (l : list (json F)) :
  count_level key level (x :: l) =
  bool_nat (has_level key level x) + count_level key level l.
Proof.
  unfold count_level. simpl. now destruct (has_level key level x).
Qed.

Lemma count_confidence_counts (m : metrics) (v : json F) :
  high_confidence (count_confidence m v) =
    high_confidence m + bool_nat (eq_str v "HIGH") /\
  medium_confidence (count_confidence m v) =
    medium_confidence m + bool_nat (eq_str v "MEDIUM") /\
  low_confidence (count_confidence m v) =
    low_confidence m + bool_nat (eq_str v "LOW") /\
  high_severity (count_confidence m v) = high_severity m /\
  medium_severity (count_confidence m v) = medium_severity m /\
  low_severity (count_confidence m v) = low_severity m.
Proof.
  unfold count_confidence.
  destruct (eq_str v "HIGH") eqn:Eh.
  { destruct v; try discriminate. simpl in Eh.
    apply String.eqb_eq in Eh; subst. simpl. repeat split; lia. }
  destruct (eq_str v "MEDIUM") eqn:Em.
  { destruct v; try discriminate. simpl in Em.
    apply String.eqb_eq in Em; subst. simpl. repeat split; lia. }
  destruct (eq_str v "LOW") eqn:El; simpl; repeat split; lia.
Qed.

Lemma count_severity_counts (m : metrics) (v : json F) :
  high_severity (count_severity m v) =
    high_severity m + bool_nat (eq_str v "HIGH") /\
  medium_severity (count_severity m v) =
    medium_severity m + bool_nat (eq_str v "MEDIUM") /\
  low_severity (count_severity m v) =
    low_severity m + bool_nat (eq_str v "LOW") /\
  high_confidence (count_severity m v) = high_confidence m /\
  medium_confidence (count_severity m v) = medium_confidence m /\
  low_confidence (count_severity m v) = low_confidence m.
Proof.
  unfold count_severity.
  destruct (eq_str v "HIGH") eqn:Eh.
  { destruct v; try discriminate. simpl in Eh.
    apply String.eqb_eq in Eh; subst. simpl. repeat split; lia. }
  destruct (eq_str v "MEDIUM") eqn:Em.
  { destruct v; try discriminate. simpl in Em.
    apply String.eqb_eq in Em; subst. simpl. repeat split; lia. }
  destruct (eq_str v "LOW") eqn:El; simpl; repeat split; lia.
Qed.

(** The CWE part leaves the six counters as they are. *)
Lemma count_cwe_counts (m m' : metrics) (finding : json F) :
  count_cwe py_str m finding = Ok m' ->
  high_confidence m' = high_confidence m /\
  medium_confidence m' = medium_confidence m /\
  low_confidence m' = low_confidence m /\
  high_severity m' = high_severity m /\
  medium_severity m' = medium_severity m /\
  low_severity m' = low_severity m.
Proof.
  unfold count_cwe. intros Hc.
  apply bind_Ok in Hc. destruct Hc as [has_id [_ Hc]].
  destruct has_id.
  - apply bind_Ok in Hc. destruct Hc as [cwe [_ Hc]].
    apply bind_Ok in Hc. destruct Hc as [id [_ Hc]].
    injection Hc as <-. simpl. tauto.
  - apply bind_Ok in Hc. destruct Hc as [text [_ Hc]].
    destruct text; try discriminate.
    injection Hc as <-. destruct (search_cwe s); simpl; tauto.
Qed.

Lemma count_result_counts (m m' : metrics) (finding : json F) :
  count_result py_str m finding = Ok m' ->
  counts_added m m' [finding].
Proof.
  unfold count_result. intros Hc.
  apply bind_Ok in Hc. destruct Hc as [conf [Hconf Hc]].
  apply bind_Ok in Hc. destruct Hc as [sev [Hsev Hc]].
  apply py_get_Ok in Hconf. destruct Hconf as [d [-> ->]].
  simpl in Hsev. injection Hsev as <-.
  apply count_cwe_counts in Hc.
  destruct Hc as (H1 & H2 & H3 & H4 & H5 & H6).
  pose proof (count_confidence_counts m (field d "issue_confidence" JNull))
    as (C1 & C2 & C3 & C4 & C5 & C6).
  pose proof (count_severity_counts
                (count_confidence m (field d "issue_confidence" JNull))
                (field d "issue_severity" JNull))
    as (S1 & S2 & S3 & S4 & S5 & S6).
  unfold counts_added. rewrite !count_level_cons, !has_level_field.
  unfold field in *. unfold count_level. cbn [filter List.length].
  repeat split; lia.
Qed.

Lemma count_results_counts (findings : list (json F)) :
  forall m0 m,
    count_results py_str m0 findings = Ok m -> counts_added m0 m findings.
Proof.
  induction findings as [|x rest IH]; intros m0 m; cbn [count_results].
  - intros [= <-]. unfold counts_added, count_level. simpl.
    repeat split; lia.
  - intros Hc. apply bind_Ok in Hc. destruct Hc as [m1 [Hstep Hrest]].
    apply count_result_counts in Hstep. apply IH in Hrest.
    unfold counts_added in *. rewrite !count_level_cons in *.
    unfold count_level in Hstep. simpl in Hstep. lia.
Qed.

(** A finding has at most one level under a key. *)
Lemma one_level (key : string) (x : json F) :
  bool_nat (has_level key "HIGH" x) + bool_nat (has_level key "MEDIUM" x)
  + bool_nat (has_level key "LOW" x) <= 1.
Proof.
  destruct x; try (simpl; lia). rewrite !has_level_field.
  destruct (field d key JNull); simpl; try lia.
  destruct (String.eqb s "HIGH") eqn:Eh.
  { apply String.eqb_eq in Eh; subst. simpl. lia. }
  destruct (String.eqb s "MEDIUM") eqn:Em.
  { apply String.eqb_eq in Em; subst. simpl. lia. }
  destruct (String.eqb s "LOW"); simpl; lia.
Qed.

Lemma levels_bounded (key : string) (findings : list (json F)) :
  count_level key "HIGH" findings + count_level key "MEDIUM" findings
  + count_level key "LOW" findings <= List.length findings.
Proof.
  induction findings as [|x rest IH].
  - unfold count_level. simpl. lia.
  - rewrite !count_level_cons. simpl.
    pose proof (one_level key x). lia.
Qed.

(** The CWE part does not raise on this finding: [issue_cwe] is absent
    or a dict, and when the text is searched, [issue_text] is absent or
    a string. *)
Definition finding_ok (finding : json F) : bool :=
  match finding with
  | JDict o =>
      let text_ok :=
        match field o "issue_text" (JStr "") with
        | JStr _ => true
        | _ => false
        end in
      match lookup "issue_cwe" o with
      | Some (JDict c) =>
          match lookup "id" c with Some _ => true | None => text_ok end
      | Some _ => false
      | None => text_ok
      end
  | _ => false
  end.

(** A report as Bandit writes it: a dict whose [results], if present,
    is a list of such findings. *)
Definition bandit_report (data : json F) : bool :=
  match data with
  | JDict d =>
      match field d "results" (JList []) with
      | JList findings => forallb finding_ok findings
      | _ => false
      end
  | _ => false
  end.

Lemma count_result_ok (m : metrics) (finding : json F) :
  finding_ok finding = true ->
  exists m', count_result py_str m finding = Ok m'.
Proof.
  destruct finding as [| | | | | |o]; try discriminate.
  unfold finding_ok, count_result, count_cwe, field. simpl.
  destruct (lookup "issue_cwe" o) as [c|] eqn:Ec; simpl.
  - destruct c as [| | | | | |c]; try discriminate. simpl.
    destruct (lookup "id" c) as [id|] eqn:Eid; simpl.
    + eauto.
    + destruct (lookup "issue_text" o) as [t|]; simpl.
      * destruct t; try discriminate. eauto.
      * eauto.
  - destruct (lookup "issue_text" o) as [t|]; simpl.
    + destruct t; try discriminate. eauto.
    + eauto.
Qed.

Lemma count_results_ok (findings : list (json F)) :
  forallb finding_ok findings = true ->
  forall m, exists m', count_results py_str m findings = Ok m'.
Proof.
  induction findings as [|x rest IH]; simpl; intros Hok m.
  - eauto.
  - apply andb_true_iff in Hok. destruct Hok as [Hx Hrest].
    destruct (count_result_ok m x Hx) as [m1 ->]. simpl.
    apply (IH Hrest).
Qed.

(** The loop does not come to its end over the keys of a dict or the
    characters of a string: none of them has [get]. *)
Lemma count_results_entries (data : json F) (findings : list (json F))
  (m0 m : metrics) :
  findings_of data = Ok findings ->
  count_results py_str m0 findings = Ok m ->
  findings = results_entries data.
Proof.
  unfold findings_of, results_entries.
  destruct data as [| | | | | |d]; try discriminate.
  cbn [py_get bind].
  destruct (lookup "results" d) as [results|]; cbn [py_iter].
  - destruct results as [| | | |s|l|o]; try discriminate.
    + destruct s as [|a s]; cbn [list_ascii_of_string map];
        intros [= <-]; [trivial | discriminate].
    + now intros [= <-].
    + destruct o as [|kv o]; cbn [map]; intros [= <-];
        [trivial | discriminate].
  - now intros [= <-].
Qed.

(** What the returned counters are, for the entries of [results]. *)
Definition counts_of_report (data : json F) (m : metrics) : Prop :=
  counts_added empty_metrics m (results_entries data) /\
  high_confidence m + medium_confidence m + low_confidence m
    <= List.length (results_entries data) /\
  high_severity m + medium_severity m + low_severity m
    <= List.length (results_entries data).

(** C4. When [parse_bandit_results] returns metrics for a decoded
    report, each confidence counter is the number of entries of
    [results] whose [issue_confidence] is that level, each severity
    counter the number of entries whose [issue_severity] is that level,
    and each of the two sums is at most the number of entries; and it
    does return metrics for every report as Bandit writes it. *)
Theorem parse_bandit_results_counts (fs : filesystem F)
  (output_file : string) (data : json F) :
  fs output_file = FileJson data ->
  (forall m, parse_bandit_results py_str fs output_file = Some m ->
             counts_of_report data m) /\
  (bandit_report data = true ->
   exists m, parse_bandit_results py_str fs output_file = Some m).
Proof.
  intros Hfile.
  unfold parse_bandit_results, parse_bandit_results_io, parse_bandit_data,
    load_json.
  rewrite Hfile. cbn [bind]. split.
  - intros m.
    destruct (findings_of data) as [findings|e] eqn:Ef; cbn [bind];
      [|discriminate].
    destruct (count_results py_str empty_metrics findings) as [m'|e] eqn:Ec;
      cbn [bind try_except fst]; [|discriminate].
    intros [= <-].
    unfold counts_of_report.
    rewrite <- (count_results_entries _ _ _ _ Ef Ec).
    pose proof (count_results_counts _ _ _ Ec) as Hadd.
    split; trivial.
    pose proof (levels_bounded "issue_confidence" findings).
    pose proof (levels_bounded "issue_severity" findings).
    unfold counts_added in Hadd. simpl in Hadd. lia.
  - intros Hrep. unfold bandit_report in Hrep.
    destruct data as [| | | | | |d]; try discriminate.
    unfold findings_of. simpl. unfold field in Hrep.
    destruct (match lookup "results" d with
              | Some v => v | None => JList [] end) as [| | | | |l|];
      try discriminate.
    simpl.
    destruct (count_results_ok l Hrep empty_metrics) as [m ->].
    simpl. eauto.
Qed.

(** For an output file that cannot be read, [parse_bandit_results]
    returns [None] and prints the error. *)
Lemma parse_bandit_results_unreadable (fs : filesystem F)
  (output_file : string) (e : exn) :
  fs output_file = FileError e ->
  parse_bandit_results_io py_str fs output_file =
    (None, [ErrorParsing output_file e]) /\
  parse_bandit_results py_str fs output_file = None.
Proof.
  intros Hfile.
  unfold parse_bandit_results, parse_bandit_results_io, parse_bandit_data,
    load_json.
  rewrite Hfile. simpl. split; reflexivity.
Qed.

End Facts.

End BanditFacts.

Module BanditExamples.
Import Py RunBanditAnalysis BanditFacts Samples ExactFloat.

Example sample_report_metrics :
  parse_bandit_results str_of bandit_files "out/abc.json" =
  Some {| high_confidence := 2; medium_confidence := 1; low_confidence := 0;
          high_severity := 0; medium_severity := 1; low_severity := 1;
          unique_cwes := ["703"; "78"] |}.
Proof. vm_compute. reflexivity. Qed.

(** The statement of C4 on the sample report. *)
Lemma parse_bandit_results_counts_witness :
  (forall m, parse_bandit_results str_of bandit_files "out/abc.json" = Some m ->
             counts_of_report bandit_report m) /\
  (exists m, parse_bandit_results str_of bandit_files "out/abc.json" = Some m).
Proof.
  destruct (parse_bandit_results_counts str_of bandit_files "out/abc.json"
              bandit_report eq_refl) as [Hcounts Hsome].
  split; [exact Hcounts | apply Hsome; reflexivity].
Defined.

End BanditExamples.

(** ** Files that are missing *)

Module MissingFileFacts.
Import Py RunBanditAnalysis BanditFacts.
Import CoverageComparison AnalysisScript.

Section Facts.
Context {F : Type} `{PyFloat F}.
Variable py_str : json F -> string.

Lemma load_or_empty_missing (fs : filesystem F) (path : string) :
  fs path = FileError FileNotFoundError ->
  load_or_empty fs path = Ok (JDict []).
Proof.
  intros Hfile. unfold load_or_empty, load_json. now rewrite Hfile.
Qed.

Lemma load_or_empty_present (fs : filesystem F) (path : string)
  (data : json F) :
  fs path = FileJson data -> load_or_empty fs path = Ok data.
Proof.
  intros Hfile. unfold load_or_empty, load_json. now rewrite Hfile.
Qed.

(** C3, as the code has it. A coverage file that is missing is replaced
    by the empty dict and [load_coverage_data] does not raise for it;
    [main] of the analysis script uses its default dict when
    [sequential_results.json] cannot be loaded; [parse_bandit_results]
    does not raise for an output file that cannot be read, prints the
    error and returns [None], not a dict of metrics. *)
Theorem missing_files_are_replaced (fs : filesystem F) :
  (forall a b,
     fs a = FileError FileNotFoundError ->
     fs b = FileError FileNotFoundError ->
     load_coverage_data fs a b = Ok (JDict [], JDict [])) /\
  (forall a b data,
     fs a = FileError FileNotFoundError ->
     fs b = FileJson data ->
     load_coverage_data fs a b = Ok (JDict [], data)) /\
  (forall a b data,
     fs a = FileJson data ->
     fs b = FileError FileNotFoundError ->
     load_coverage_data fs a b = Ok (data, JDict [])) /\
  (forall e,
     fs "sequential_results.json" = FileError e ->
     main_sequential_data fs = default_sequential_data) /\
  (forall output_file e,
     fs output_file = FileError e ->
     parse_bandit_results_io py_str fs output_file =
       (None, [ErrorParsing output_file e]) /\
     parse_bandit_results py_str fs output_file = None).
Proof.
  repeat apply conj.
  - intros a b Ha Hb. unfold load_coverage_data.
    now rewrite (load_or_empty_missing _ _ Ha), (load_or_empty_missing _ _ Hb).
  - intros a b data Ha Hb. unfold load_coverage_data.
    now rewrite (load_or_empty_missing _ _ Ha),
      (load_or_empty_present _ _ _ Hb).
  - intros a b data Ha Hb. unfold load_coverage_data.
    now rewrite (load_or_empty_present _ _ _ Ha),
      (load_or_empty_missing _ _ Hb).
  - intros e He. unfold main_sequential_data, load_json. now rewrite He.
  - intros output_file e He.
    now apply parse_bandit_results_unreadable.
Qed.

End Facts.

End MissingFileFacts.

Module MissingFileExamples.
Import Py RunBanditAnalysis Samples ExactFloat.
Import CoverageComparison AnalysisScript MissingFileFacts.

(** C3 as it is stated does not hold: for a Bandit output file that is
    missing, [parse_bandit_results] returns no dict of metrics. *)
Lemma parse_bandit_results_returns_no_default :
  parse_bandit_results str_of no_files "out/abc.json" = None /\
  ~ (exists m, parse_bandit_results str_of no_files "out/abc.json" = Some m).
Proof.
  split; [reflexivity|]. intros [m Hm]. discriminate Hm.
Qed.

(** The statement of C3, as the code has it, without any file. *)
Lemma missing_files_are_replaced_witness :
  load_coverage_data no_files
    "results/coverage.suite_a.json" "results/coverage.suite_b.json" =
    Ok (JDict [], JDict []) /\
  main_sequential_data no_files = default_sequential_data /\
  parse_bandit_results str_of no_files "out/abc.json" = None.
Proof.
  destruct (missing_files_are_replaced str_of no_files)
    as (Hboth & _ & _ & Hseq & Hbandit).
  split; [apply Hboth; reflexivity|].
  split; [apply (Hseq FileNotFoundError); reflexivity|].
  apply (Hbandit "out/abc.json" FileNotFoundError). reflexivity.
Defined.

End MissingFileExamples.

(** ** The rows of the commit loop *)

Module CommitLoopFacts.
Import Py RunBanditAnalysis.

Section Facts.
Context {F : Type} `{PyFloat F}.
Variable py_str : json F -> string.
Variable run_bandit : string -> @bandit_effect F.
Variable bandit_outputs_dir : string.

(** The output file of a commit. *)
Definition output_path (c : commit) : string :=
  os_path_join bandit_outputs_dir (hash c ++ ".json").

(** What [parse_bandit_results] returns for the commit in the loop, from
    the files [fs]; [None] also when an exception kept it from being
    called. *)
Definition metrics_of_commit (fs : filesystem F) (c : commit)
  : option metrics :=
  match run_bandit_on_commit run_bandit fs (hash c) (output_path c) with
  | Raise _ => None
  | Ok fs' => parse_bandit_results py_str fs' (output_path c)
  end.

(** The row that the commit adds. *)
Definition row_added (fs : filesystem F) (c : commit) : list csv_row :=
  match metrics_of_commit fs c with
  | Some m => [row_of c m]
  | None => []
  end.

Local Notation "'step'" :=
  (process_commit py_str run_bandit bandit_outputs_dir) (at level 0).
Local Notation "'loop'" :=
  (process_commits py_str run_bandit bandit_outputs_dir) (at level 0).

Lemma process_commit_rows (st : loop_state) (c : commit) :
  st_rows (step st c) = st_rows st ++ row_added (st_files st) c.
Proof.
  unfold process_commit, row_added, metrics_of_commit, output_path,
    parse_bandit_results.
  destruct (run_bandit_on_commit run_bandit (st_files st) (hash c) _)
    as [fs'|e]; simpl.
  - destruct (parse_bandit_results_io py_str fs' _) as [[m|] out]; simpl;
      trivial.
    now rewrite app_nil_r.
  - now rewrite app_nil_r.
Qed.

(** An exception inside [parse_bandit_results] is printed by it, and
    the rows stay as they are. *)
Lemma process_commit_parse_error (st : loop_state) (c : commit)
  (fs' : filesystem F) (e : exn) :
  run_bandit_on_commit run_bandit (st_files st) (hash c) (output_path c) =
    Ok fs' ->
  parse_bandit_data py_str fs' (output_path c) = Raise e ->
  step st c =
  {| st_files := fs';
     st_rows := st_rows st;
     st_printed := st_printed st ++ [ErrorParsing (output_path c) e] |}.
Proof.
  intros Hrun Hparse. unfold process_commit. fold (output_path c).
  rewrite Hrun. unfold parse_bandit_results_io. now rewrite Hparse.
Qed.

(** An exception of [run_bandit_on_commit] is printed, and the files
    and the rows stay as they are. *)
Lemma process_commit_raise (st : loop_state) (c : commit) (e : exn) :
  run_bandit (hash c) = RunRaises e ->
  step st c =
  {| st_files := st_files st;
     st_rows := st_rows st;
     st_printed := st_printed st ++ [ErrorProcessingCommit (hash c) e] |}.
Proof.
  intros Hrun. unfold process_commit, run_bandit_on_commit.
  now rewrite Hrun.
Qed.

(** The files after the body of the loop for the commit. *)
Definition files_after (fs : filesystem F) (c : commit) : filesystem F :=
  match run_bandit (hash c) with
  | RunReturns (Some f) => write_file fs (output_path c) f
  | _ => fs
  end.

Lemma process_commit_files (st : loop_state) (c : commit) :
  st_files (step st c) = files_after (st_files st) c.
Proof.
  unfold process_commit, run_bandit_on_commit, files_after.
  fold (output_path c).
  destruct (run_bandit (hash c)) as [e|[f|]]; simpl; trivial;
    now destruct (parse_bandit_results_io py_str _ _) as [[m|] out].
Qed.

(** The files change at the output file of the commit only. *)
Lemma files_after_other (fs : filesystem F) (c : commit) (p : string) :
  p <> output_path c -> files_after fs c p = fs p.
Proof.
  intros Hp. unfold files_after.
  destruct (run_bandit (hash c)) as [e|[f|]]; trivial.
  unfold write_file. destruct (String.eqb_spec p (output_path c)); congruence.
Qed.

Lemma files_after_ext (fs1 fs2 : filesystem F) (c : commit) (p : string) :
  fs1 p = fs2 p -> files_after fs1 c p = files_after fs2 c p.
Proof.
  intros Heq. unfold files_after.
  destruct (run_bandit (hash c)) as [e|[f|]]; trivial.
  unfold write_file. now rewrite Heq.
Qed.

Lemma parse_bandit_results_io_ext (fs1 fs2 : filesystem F) (p : string) :
  fs1 p = fs2 p ->
  parse_bandit_results_io py_str fs1 p = parse_bandit_results_io py_str fs2 p.
Proof.
  intros Heq. unfold parse_bandit_results_io, parse_bandit_data, load_json.
  now rewrite Heq.
Qed.

(** The row that a commit adds depends on its own output file only. *)
Lemma row_added_ext (fs1 fs2 : filesystem F) (c : commit) :
  fs1 (output_path c) = fs2 (output_path c) ->
  row_added fs1 c = row_added fs2 c.
Proof.
  intros Heq. unfold row_added, metrics_of_commit, run_bandit_on_commit,
    parse_bandit_results.
  destruct (run_bandit (hash c)) as [e|[f|]]; trivial.
  - rewrite (parse_bandit_results_io_ext
               (write_file fs1 (output_path c) f)
               (write_file fs2 (output_path c) f)); trivial.
    unfold write_file. now rewrite String.eqb_refl.
  - now rewrite (parse_bandit_results_io_ext fs1 fs2).
Qed.

(** The rows that the commits add in turn, from the files [fs]. *)
Fixpoint rows_added (fs : filesystem F) (commits : list commit)
  : list csv_row :=
  match commits with
  | [] => []
  | c :: rest => row_added fs c ++ rows_added (files_after fs c) rest
  end.

Lemma process_commits_rows (commits : list commit) :
  forall st,
    st_rows (loop commits st) = st_rows st ++ rows_added (st_files st) commits.
Proof.
  induction commits as [|c rest IH]; intros st; simpl.
  - now rewrite app_nil_r.
  - unfold process_commits in *. simpl.
    rewrite IH, process_commit_rows, process_commit_files.
    now rewrite <- app_assoc.
Qed.

(** Files that agree on the output files of the commits give the same
    rows. *)
Lemma rows_added_ext (commits : list commit) :
  forall fs1 fs2,
    (forall c, In c commits -> fs1 (output_path c) = fs2 (output_path c)) ->
    rows_added fs1 commits = rows_added fs2 commits.
Proof.
  induction commits as [|c rest IH]; intros fs1 fs2 Hagree; simpl; trivial.
  rewrite (row_added_ext fs1 fs2 c) by (apply Hagree; now left).
  f_equal. apply IH. intros c' Hin.
  apply files_after_ext. apply Hagree. now right.
Qed.

(** C8. In the loop over the commits: the body never raises; an
    exception of [run_bandit_on_commit] is printed and leaves rows and
    files as they are; an exception while the output is parsed is
    printed by [parse_bandit_results]; a commit adds its row iff
    [parse_bandit_results] returned metrics for it, and adds nothing
    otherwise; the rows after the loop are the rows before it followed
    by the rows added, in the order of the commits; and without a
    commit that adds no row, the rows of the loop are the same, as long
    as no later commit has the same output file. *)
Theorem failing_commit_adds_no_row (l1 l2 : list commit) (c : commit)
  (st : loop_state) :
  metrics_of_commit (st_files (loop l1 st)) c = None ->
  (forall c', In c' l2 -> output_path c' <> output_path c) ->
  st_rows (loop (l1 ++ c :: l2) st) = st_rows (loop (l1 ++ l2) st) /\
  st_rows (step (loop l1 st) c) = st_rows (loop l1 st) /\
  (forall e, run_bandit (hash c) = RunRaises e ->
     st_printed (step (loop l1 st) c) =
     st_printed (loop l1 st) ++ [ErrorProcessingCommit (hash c) e]) /\
  (forall fs' e,
     run_bandit_on_commit run_bandit (st_files (loop l1 st)) (hash c)
       (output_path c) = Ok fs' ->
     parse_bandit_data py_str fs' (output_path c) = Raise e ->
     st_printed (step (loop l1 st) c) =
     st_printed (loop l1 st) ++ [ErrorParsing (output_path c) e]) /\
  (forall commits st0,
     st_rows (loop commits st0) =
     st_rows st0 ++ rows_added (st_files st0) commits) /\
  (forall st0 c0,
     st_rows (step st0 c0) =
     st_rows st0 ++
     match metrics_of_commit (st_files st0) c0 with
     | Some m => [row_of c0 m]
     | None => []
     end).
Proof.
  intros Hnone Hpaths.
  assert (Hstep : st_rows (step (loop l1 st) c) = st_rows (loop l1 st)).
  { rewrite process_commit_rows. unfold row_added.
    rewrite Hnone. now rewrite app_nil_r. }
  split; [|split; [exact Hstep|split; [|split; [|split]]]].
  - unfold process_commits. rewrite !fold_left_app. simpl.
    fold (loop l1 st).
    change (st_rows (loop l2 (step (loop l1 st) c)) =
            st_rows (loop l2 (loop l1 st))).
    rewrite (process_commits_rows l2 (step (loop l1 st) c)).
    rewrite (process_commits_rows l2 (loop l1 st)).
    rewrite Hstep. f_equal.
    apply rows_added_ext. intros c' Hin.
    rewrite process_commit_files.
    apply files_after_other. now apply Hpaths.
  - intros e He. now rewrite (process_commit_raise _ _ _ He).
  - intros fs' e Hrun Hparse.
    now rewrite (process_commit_parse_error _ _ _ _ Hrun Hparse).
  - intros commits st0. apply process_commits_rows.
  - intros st0 c0. apply process_commit_rows.
Qed.

End Facts.

End CommitLoopFacts.

Module CommitLoopExamples.
Import Py RunBanditAnalysis CommitLoopFacts Samples ExactFloat.

(** The second commit fails: its error is printed and the CSV has the
    rows of the two others. *)
Example rows_of_three_commits :
  let st := process_commits str_of bandit_runs "out"
              [commit_a; commit_b; commit_c] loop_start in
  map row_commit_hash (st_rows st) = ["aaa"; "ccc"] /\
  map row_unique_cwes (st_rows st) = ["703,78"; "703,78"] /\
  st_printed st = [ErrorProcessingCommit "bbb" FileNotFoundError].
Proof. vm_compute. repeat split. Qed.

(** The statement of C8 on the three sample commits. *)
Lemma failing_commit_adds_no_row_witness :
  st_rows (process_commits str_of bandit_runs "out"
             ([commit_a] ++ commit_b :: [commit_c]) loop_start) =
  st_rows (process_commits str_of bandit_runs "out"
             ([commit_a] ++ [commit_c]) loop_start).
Proof.
  apply (failing_commit_adds_no_row str_of bandit_runs "out"
           [commit_a] [commit_c] commit_b loop_start).
  - reflexivity.
  - intros c' [<-|[]]. vm_compute. discriminate.
Defined.

End CommitLoopExamples.

(** ** The commits read from git log *)

Module GitLogFacts.
Import Py PyNumFacts RunBanditAnalysis.

Lemma contains_char_cons (c a : ascii) (r : string) :
  PyStr.contains (String c EmptyString) (String a r) =
  Ascii.eqb c a || PyStr.contains (String c EmptyString) r.
Proof.
  simpl. destruct (ascii_dec c a) as [->|Hne].
  - rewrite Ascii.eqb_refl. now destruct r.
  - apply Ascii.eqb_neq in Hne. now rewrite Hne.
Qed.

(** A field without the separator is cut off as it is. *)
Lemma split_max_field (c : ascii) (s rest : string) (n : nat) :
  PyStr.contains (String c EmptyString) s = false ->
  PyStr.split_max c (s ++ String c rest) (S n) =
  s :: PyStr.split_max c rest n.
Proof.
  induction s as [|a r IH]; intros Hno.
  - simpl. now rewrite Ascii.eqb_refl.
  - rewrite contains_char_cons in Hno.
    apply orb_false_iff in Hno. destruct Hno as [Hac Hr].
    cbn [append PyStr.split_max].
    rewrite Ascii.eqb_sym, Hac. now rewrite (IH Hr).
Qed.

Lemma split_max_zero (c : ascii) (s : string) : PyStr.split_max c s 0 = [s].
Proof. now destruct s. Qed.

(** A line of four fields, the first three without a comma: the fourth
    keeps its commas. *)
Lemma split_max_four (h a t m : string) :
  PyStr.contains "," h = false ->
  PyStr.contains "," a = false ->
  PyStr.contains "," t = false ->
  PyStr.split_max "," (h ++ "," ++ a ++ "," ++ t ++ "," ++ m) 3 =
  [h; a; t; m].
Proof.
  intros Hh Ha Ht.
  change ("," ++ a ++ "," ++ t ++ "," ++ m)%string
    with (String "," (a ++ "," ++ t ++ "," ++ m)).
  rewrite (split_max_field _ _ _ _ Hh).
  change ("," ++ t ++ "," ++ m)%string with (String "," (t ++ "," ++ m)).
  rewrite (split_max_field _ _ _ _ Ha).
  change ("," ++ m)%string with (String "," m).
  rewrite (split_max_field _ _ _ _ Ht).
  now rewrite split_max_zero.
Qed.

Section Facts.
Variable strftime_local : Z -> result string.

(** The line is not empty and has exactly four fields when it is cut at
    its first three commas. *)
Definition is_commit_line (line : string) : bool :=
  negb (String.eqb line "")
  && (List.length (PyStr.split_max "," line 3) =? 4).

(** The commit [c] is the record of [line]. *)
Definition commit_from (line : string) (c : commit) : Prop :=
  exists t,
    PyStr.split_max "," line 3 = [hash c; author c; t; message c] /\
    py_int t = Some (timestamp c) /\
    strftime_local (timestamp c) = Ok (date c).

(** The timestamp of a commit line is an int that can be formatted. *)
Definition timestamp_ok (line : string) : Prop :=
  is_commit_line line = true ->
  exists t d, nth_error (PyStr.split_max "," line 3) 2 = Some t /\
              bind (int_of_str t) strftime_local = Ok d.

Lemma commit_of_line_Ok (line : string) (o : option commit) :
  commit_of_line strftime_local line = Ok o ->
  match o with
  | Some c => is_commit_line line = true /\ commit_from line c
  | None => is_commit_line line = false
  end.
Proof.
  unfold commit_of_line, is_commit_line.
  destruct (String.eqb line "") eqn:Ee.
  { now intros [= <-]. }
  simpl.
  destruct (PyStr.split_max "," line 3) as [|h [|a [|t [|m [|x l]]]]] eqn:Es;
    try (now intros [= <-]).
  intros Hb.
  apply bind_Ok in Hb. destruct Hb as [z [Hz Hb]].
  apply bind_Ok in Hb. destruct Hb as [z' [Hz' Hb]].
  apply bind_Ok in Hb. destruct Hb as [d [Hd Hb]].
  injection Hb as <-. split; trivial.
  exists t. simpl. unfold int_of_str in Hz, Hz'.
  destruct (py_int t) as [v|]; [|discriminate].
  injection Hz as <-. injection Hz' as <-. auto.
Qed.

Lemma commits_of_lines_Ok (lines : list string) :
  forall commits,
    commits_of_lines strftime_local lines = Ok commits ->
    Forall2 commit_from (filter is_commit_line lines) commits.
Proof.
  induction lines as [|line rest IH]; intros commits; cbn [commits_of_lines].
  - intros [= <-]. constructor.
  - intros Hb.
    apply bind_Ok in Hb. destruct Hb as [o [Ho Hb]].
    apply bind_Ok in Hb. destruct Hb as [cs [Hcs Hb]].
    injection Hb as <-.
    apply commit_of_line_Ok in Ho. apply IH in Hcs. cbn [filter].
    destruct o as [c|].
    + destruct Ho as [-> Hc]. now constructor.
    + now rewrite Ho.
Qed.

Lemma commits_of_lines_total (lines : list string) :
  Forall timestamp_ok lines ->
  exists commits, commits_of_lines strftime_local lines = Ok commits.
Proof.
  induction 1 as [|line rest Hline _ IH]; cbn [commits_of_lines].
  - eauto.
  - destruct IH as [cs ->].
    unfold timestamp_ok, is_commit_line in Hline.
    unfold commit_of_line.
    destruct (String.eqb line ""); simpl in *; [eauto|].
    destruct (PyStr.split_max "," line 3) as [|h [|a [|t [|m [|x l]]]]];
      simpl; eauto.
    destruct (Hline eq_refl) as [t' [d [Ht Hd]]].
    simpl in Ht. injection Ht as <-.
    destruct (int_of_str t) as [z|]; simpl in *; [|discriminate].
    rewrite Hd. simpl. eauto.
Qed.

Lemma Forall2_firstn {A B} (R : A -> B -> Prop) (n : nat) :
  forall l1 l2, Forall2 R l1 l2 -> Forall2 R (firstn n l1) (firstn n l2).
Proof.
  induction n as [|n IH]; intros l1 l2 HR; simpl.
  - constructor.
  - destruct HR; constructor; auto.
Qed.

(** When [get_last_100_non_merge_commits] returns, it returns at
    most 100 commits, and they are the records of the first 100 lines
    of the output of [git log] that are not empty and have four fields
    when cut at their first three commas, in the order of the output:
    hash, author and message are the first, second and fourth field,
    the timestamp is the int that the third field denotes, and the date
    is this timestamp formatted. The fourth field keeps its commas. The
    function returns when the third field of each such line is an int
    that can be formatted. *)
Theorem get_last_100_non_merge_commits_records (git_stdout : string) :
  let lines := PyStr.split "010" (PyStr.strip git_stdout) in
  (forall commits,
     get_last_100_non_merge_commits strftime_local git_stdout = Ok commits ->
     List.length commits <= 100 /\
     Forall2 commit_from (firstn 100 (filter is_commit_line lines)) commits)
  /\ (Forall timestamp_ok lines ->
      exists commits,
        get_last_100_non_merge_commits strftime_local git_stdout = Ok commits)
  /\ (forall h a t m,
        PyStr.contains "," h = false ->
        PyStr.contains "," a = false ->
        PyStr.contains "," t = false ->
        PyStr.split_max "," (h ++ "," ++ a ++ "," ++ t ++ "," ++ m) 3 =
        [h; a; t; m]).
Proof.
  intros lines. unfold get_last_100_non_merge_commits. fold lines.
  split; [|split].
  - intros commits Hb.
    apply bind_Ok in Hb. destruct Hb as [cs [Hcs Hb]].
    assert (Hcm : commits = firstn 100 cs) by congruence.
    rewrite Hcm. split.
    + rewrite length_firstn. lia.
    + apply Forall2_firstn. now apply commits_of_lines_Ok.
  - intros Hok. destruct (commits_of_lines_total lines Hok) as [cs ->].
    simpl. eauto.
  - apply split_max_four.
Qed.

(** C9 does not hold on the code: for the output of [git log] for one
    commit of the author [Doe, J] the function returns no record. The
    cut at the first three commas cuts the name of the author in two
    and takes [ J] for the timestamp, and [int] raises ValueError,
    which nothing catches, whatever the time zone of the dates is. *)
Theorem author_with_comma_raises :
  PyStr.split_max "," "aaa,Doe, J,1700000000,fix" 3 =
    ["aaa"; "Doe"; " J"; "1700000000,fix"] /\
  py_int " J" = None /\
  get_last_100_non_merge_commits strftime_local "aaa,Doe, J,1700000000,fix" =
    Raise ValueError.
Proof. repeat split. Qed.

End Facts.

End GitLogFacts.

Module GitLogExamples.
Import Py RunBanditAnalysis GitLogFacts Samples.

Example commits_of_git_log :
  get_last_100_non_merge_commits strftime_utc git_log =
  Ok [ {| hash := "aaa"; author := "dev"; timestamp := 1700000000;
          date := "2023-11-14 22:13:20"; message := "fix a, b, and c" |};
       {| hash := "bbb"; author := "dev"; timestamp := 0;
          date := "1970-01-01 00:00:00"; message := "initial" |} ].
Proof. vm_compute. reflexivity. Qed.

(** An author with a comma moves the fields: when the third one is an
    int, the record has a part of the name as author, this int as
    timestamp, and the timestamp in its message. *)
Example author_with_comma_and_digits :
  get_last_100_non_merge_commits strftime_utc "aaa,Doe,0,1700000000,fix" =
  Ok [ {| hash := "aaa"; author := "Doe"; timestamp := 0;
          date := "1970-01-01 00:00:00"; message := "1700000000,fix" |} ].
Proof. vm_compute. reflexivity. Qed.

(** The records of the sample output of [git log]. *)
Lemma get_last_100_non_merge_commits_records_witness :
  exists commits,
    get_last_100_non_merge_commits strftime_utc git_log = Ok commits /\
    List.length commits <= 100 /\
    Forall2 (commit_from strftime_utc)
      (firstn 100 (filter is_commit_line
                     (PyStr.split "010" (PyStr.strip git_log)))) commits.
Proof.
  destruct (get_last_100_non_merge_commits_records strftime_utc git_log)
    as (Hrec & Htotal & _).
  destruct Htotal as [commits Hc].
  - assert (Hlines : PyStr.split "010" (PyStr.strip git_log) =
                     [ "aaa,dev,1700000000,fix a, b, and c"; "";
                       "not a commit line"; "bbb,dev,0,initial" ])
      by (vm_compute; reflexivity).
    rewrite Hlines.
    constructor; [|constructor; [|constructor; [|constructor; [|constructor]]]];
      unfold timestamp_ok; intros Hline.
    + exists "1700000000", "2023-11-14 22:13:20". split; reflexivity.
    + vm_compute in Hline. discriminate Hline.
    + vm_compute in Hline. discriminate Hline.
    + exists "0", "1970-01-01 00:00:00". split; reflexivity.
  - exists commits. split; [exact Hc | exact (Hrec commits Hc)].
Defined.

End GitLogExamples.

(** ** Introduced and fixed issues between commits *)

Module SeverityChangeFacts.
Import Py PyNumFacts DictFacts AnalyzeResults.
Local Open Scope Z_scope.

(** The columns that the three assignments for [level] leave in the
    frame, for the column [counts] of the level. *)
Definition changes_of (level : string) (counts : series) (df : dataframe)
  : Prop :=
  lookup (level ++ "_severity_change") df = Some (diff counts) /\
  lookup (level ++ "_severity_introduced") df =
    Some (map max0 (diff counts)) /\
  lookup (level ++ "_severity_fixed") df =
    Some (map (fun x => max0 (neg x)) (diff counts)).

(** The difference of row [i] to the row before it, as the code
    computes it; the first row has none. *)
Definition change_at (counts : series) (i : nat) (cur : option Z)
  : option Z :=
  match i with
  | O => None
  | S j => cell_sub (is_int64 counts) cur (nth j counts None)
  end.

(** A count that is a number is between 0 and 2^53. *)
Definition count_in_range (c : option Z) : Prop :=
  match c with
  | Some z => 0 <= z <= 2 ^ 53
  | None => True
  end.

(** The three values of a row whose count is [cur], after a row whose
    count is [prev] ([None] for a count that is NaN and for the row
    before the first row): the change is the difference of the two
    counts, the introduced issues are [max(0, d)] and the fixed issues
    [max(0, -d)] of this difference [d]. *)
Definition row_of_counts (prev cur change introduced fixed : option Z)
  : Prop :=
  exists a b,
    introduced = Some a /\ fixed = Some b /\
    0 <= a /\ 0 <= b /\ (a = 0 \/ b = 0) /\
    match prev, cur with
    | Some p, Some c =>
        change = Some (c - p) /\
        a = Z.max 0 (c - p) /\ b = Z.max 0 (- (c - p)) /\
        a - b = c - p
    | _, _ => change = None /\ a = 0 /\ b = 0
    end.

(** The three columns that the frame has for [level], row by row, for
    the column [counts] of the level. *)
Definition changes_in (level : string) (counts : series) (df : dataframe)
  : Prop :=
  exists change introduced fixed,
    lookup (level ++ "_severity_change") df = Some change /\
    lookup (level ++ "_severity_introduced") df = Some introduced /\
    lookup (level ++ "_severity_fixed") df = Some fixed /\
    List.length change = List.length counts /\
    List.length introduced = List.length counts /\
    List.length fixed = List.length counts /\
    forall i cur,
      nth_error counts i = Some cur ->
      exists ch x y,
        nth_error change i = Some ch /\
        nth_error introduced i = Some x /\
        nth_error fixed i = Some y /\
        row_of_counts
          (match i with O => None | S j => nth j counts None end)
          cur ch x y.

Lemma diff_from_nth (int64 : bool) (s : series) :
  forall prev i cur,
    nth_error s i = Some cur ->
    nth_error (diff_from int64 prev s) i =
    Some (cell_sub int64 cur (match i with
                              | O => prev
                              | S j => nth j s None
                              end)).
Proof.
  induction s as [|x t IH]; intros prev [|i] cur; simpl; try discriminate.
  - now intros [= ->].
  - intros Hn. rewrite (IH x i cur Hn). now destruct i.
Qed.

Lemma diff_nth (counts : series) (i : nat) (cur : option Z) :
  nth_error counts i = Some cur ->
  nth_error (diff counts) i = Some (change_at counts i cur).
Proof.
  unfold change_at.
  destruct counts as [|x t]; destruct i as [|i]; cbn [nth_error diff];
    try discriminate; trivial.
  intros Hn. rewrite (diff_from_nth _ t x i cur Hn). now destruct i.
Qed.

Lemma length_diff (s : series) : List.length (diff s) = List.length s.
Proof.
  destruct s as [|x t]; cbn [diff List.length]; trivial. f_equal.
  generalize (is_int64 (x :: t)). intros b.
  revert x. induction t as [|y t IH]; intros x; simpl; auto.
Qed.

Lemma wrap64_small (z : Z) : - 2 ^ 63 <= z < 2 ^ 63 -> wrap64 z = z.
Proof.
  unfold wrap64.
  change (2 ^ 63) with 9223372036854775808.
  change (2 ^ 64) with 18446744073709551616.
  intros Hz. rewrite Z.mod_small; lia.
Qed.

Lemma to_float64_small (z : Z) : Z.abs z <= 2 ^ 53 -> to_float64 z = z.
Proof.
  intros Hz.
  destruct (Z.eq_dec (Z.abs z) (2 ^ 53)) as [Etop|Ntop].
  { destruct (Z.abs_spec z) as [[_ Ez]|[_ Ez]]; rewrite Ez in Etop.
    - rewrite Etop. vm_compute. reflexivity.
    - assert (Hneg : z = - 2 ^ 53) by lia. rewrite Hneg.
      vm_compute. reflexivity. }
  unfold to_float64.
  destruct (Z.ltb_spec (Z.log2 (Z.abs z)) 53) as [Hl|Hl]; trivial.
  exfalso.
  destruct (Z.eq_dec (Z.abs z) 0) as [E|E].
  - rewrite E in Hl. simpl in Hl. lia.
  - assert (Hpos : 0 < Z.abs z) by lia.
    assert (Hlt : Z.abs z < 2 ^ 53) by lia.
    apply (Z.log2_lt_pow2 (Z.abs z) 53 Hpos) in Hlt. lia.
Qed.

(** Within the range the subtraction of the code is exact. *)
Lemma cell_sub_in_range (int64 : bool) (p c : Z) :
  0 <= p <= 2 ^ 53 -> 0 <= c <= 2 ^ 53 ->
  cell_sub int64 (Some c) (Some p) = Some (c - p).
Proof.
  intros Hp Hc. unfold cell_sub. f_equal.
  change (2 ^ 53) with 9007199254740992 in Hp, Hc.
  assert (Hw : wrap64 (c - p) = c - p).
  { apply wrap64_small. change (2 ^ 63) with 9223372036854775808. lia. }
  destruct int64; rewrite ?Hw; apply to_float64_small;
    change (2 ^ 53) with 9007199254740992; lia.
Qed.

Lemma max0_row (int64 : bool) (prev cur : option Z) :
  count_in_range prev -> count_in_range cur ->
  row_of_counts prev cur (cell_sub int64 cur prev)
    (max0 (cell_sub int64 cur prev))
    (max0 (neg (cell_sub int64 cur prev))).
Proof.
  intros Hp Hc. unfold row_of_counts.
  destruct prev as [p|], cur as [c|]; cbn [count_in_range] in Hp, Hc.
  - rewrite (cell_sub_in_range int64 p c Hp Hc). cbn [max0 neg option_map].
    exists (Z.max 0 (c - p)), (Z.max 0 (- (c - p))). clear Hp Hc.
    destruct (Z.ltb_spec 0 (c - p)), (Z.ltb_spec 0 (- (c - p)));
      repeat apply conj; try reflexivity; try (f_equal; lia); lia.
  - exists 0, 0. cbn. repeat split; auto; lia.
  - exists 0, 0. cbn. repeat split; auto; lia.
  - exists 0, 0. cbn. repeat split; auto; lia.
Qed.

Lemma first_row (cur : option Z) :
  row_of_counts None cur None (max0 None) (max0 (neg None)).
Proof. exists 0, 0. cbn. repeat split; auto; lia. Qed.

Lemma nth_in_range (counts : series) (j : nat) :
  Forall count_in_range counts -> count_in_range (nth j counts None).
Proof.
  intros Hall. destruct (nth_in_or_default j counts None) as [Hin | E].
  - rewrite Forall_forall in Hall. now apply Hall.
  - rewrite E. exact I.
Qed.

(** The rows of the three columns, for counts within the range. *)
Lemma changes_of_in (level : string) (counts : series) (df : dataframe) :
  Forall count_in_range counts ->
  changes_of level counts df -> changes_in level counts df.
Proof.
  intros Hall (Hc & Hi & Hf).
  exists (diff counts), (map max0 (diff counts)),
    (map (fun x => max0 (neg x)) (diff counts)).
  rewrite !length_map, length_diff. repeat split; trivial.
  intros i cur Hn.
  pose proof (diff_nth counts i cur Hn) as Hd.
  exists (change_at counts i cur), (max0 (change_at counts i cur)),
    (max0 (neg (change_at counts i cur))).
  rewrite !nth_error_map, Hd. repeat split.
  assert (Hcur : count_in_range cur).
  { rewrite Forall_forall in Hall. apply Hall.
    now apply nth_error_In in Hn. }
  destruct i as [|j]; cbn [change_at].
  - apply first_row.
  - apply max0_row; [now apply nth_in_range | exact Hcur].
Qed.

(** Decides the comparisons of two column names that are written out. *)
Ltac decide_names :=
  repeat match goal with
  | |- context [String.eqb ?a ?b] =>
      let v := eval vm_compute in (String.eqb a b) in
      match v with
      | true => change (String.eqb a b) with true
      | false => change (String.eqb a b) with false
      end
  end;
  cbv iota.

(** The three assignments, one after the other, on the columns. *)
Ltac add_changes_columns Hc :=
  unfold add_changes, column, changes_of; cbn [append];
  rewrite Hc, lookup_store_eq, lookup_store; decide_names;
  rewrite lookup_store_eq;
  eexists; split; [reflexivity|];
  split; [split; [|split]|];
  [ rewrite !lookup_store; decide_names; reflexivity
  | rewrite !lookup_store; decide_names; reflexivity
  | rewrite !lookup_store; decide_names; reflexivity
  | let k := fresh "k" in
    let H1 := fresh in let H2 := fresh in let H3 := fresh in
    intros k H1 H2 H3; rewrite !lookup_store; now rewrite H1, H2, H3 ].

Lemma add_changes_high (df : dataframe) (counts : series) :
  lookup "high_severity" df = Some counts ->
  exists df', add_changes "high" df = Ok df' /\
              changes_of "high" counts df' /\
              (forall k, String.eqb k "high_severity_change" = false ->
                         String.eqb k "high_severity_introduced" = false ->
                         String.eqb k "high_severity_fixed" = false ->
                         lookup k df' = lookup k df).
Proof. intros Hc. add_changes_columns Hc. Qed.

Lemma add_changes_medium (df : dataframe) (counts : series) :
  lookup "medium_severity" df = Some counts ->
  exists df', add_changes "medium" df = Ok df' /\
              changes_of "medium" counts df' /\
              (forall k, String.eqb k "medium_severity_change" = false ->
                         String.eqb k "medium_severity_introduced" = false ->
                         String.eqb k "medium_severity_fixed" = false ->
                         lookup k df' = lookup k df).
Proof. intros Hc. add_changes_columns Hc. Qed.

Lemma add_changes_low (df : dataframe) (counts : series) :
  lookup "low_severity" df = Some counts ->
  exists df', add_changes "low" df = Ok df' /\
              changes_of "low" counts df' /\
              (forall k, String.eqb k "low_severity_change" = false ->
                         String.eqb k "low_severity_introduced" = false ->
                         String.eqb k "low_severity_fixed" = false ->
                         lookup k df' = lookup k df).
Proof. intros Hc. add_changes_columns Hc. Qed.

(** The loop over the repositories changes each frame by itself. *)
Lemma for_each_repository_Ok (f : dataframe -> result dataframe)
  (repositories_data : list (string * dataframe)) :
  forall changed,
    for_each_repository f repositories_data = Ok changed ->
    Forall2 (fun before after =>
               fst after = fst before /\ f (snd before) = Ok (snd after))
      repositories_data changed.
Proof.
  induction repositories_data as [|[name df] rest IH]; intros changed;
    cbn [for_each_repository].
  - intros [= <-]. constructor.
  - intros Hb.
    apply bind_Ok in Hb. destruct Hb as [df' [Hdf Hb]].
    apply bind_Ok in Hb. destruct Hb as [rest' [Hrest Hb]].
    injection Hb as <-. constructor; auto.
Qed.

(** C1, as the code has it. For a frame with the three severity columns
    whose counts are between 0 and 2^53 (or NaN), the first loop of
    [answer_rq1] and of [answer_rq2] returns a frame in which, for each
    level it handles and every row, the change is the difference [d]
    between the count of the row and the count of the row before it,
    the introduced issues are [max(0, d)] and the fixed issues
    [max(0, -d)]; both are at least zero, one of them is zero, and
    introduced minus fixed is [d]. In the first row, and where one of
    the two counts is NaN, the change is NaN and both values are
    zero. *)
Theorem introduced_and_fixed (df : dataframe) (high medium low : series) :
  lookup "high_severity" df = Some high ->
  lookup "medium_severity" df = Some medium ->
  lookup "low_severity" df = Some low ->
  Forall count_in_range high ->
  Forall count_in_range medium ->
  Forall count_in_range low ->
  exists df1 df2,
    answer_rq1_changes df = Ok df1 /\
    answer_rq2_changes df = Ok df2 /\
    changes_in "high" high df1 /\
    changes_in "high" high df2 /\
    changes_in "medium" medium df2 /\
    changes_in "low" low df2.
Proof.
  intros Hh Hm Hl Rh Rm Rl.
  destruct (add_changes_high df high Hh) as [d1 [E1 [C1 K1]]].
  assert (Hm1 : lookup "medium_severity" d1 = Some medium)
    by (rewrite K1; trivial).
  destruct (add_changes_medium d1 medium Hm1) as [d2 [E2 [C2 K2]]].
  assert (Hl2 : lookup "low_severity" d2 = Some low)
    by (rewrite K2, K1; trivial).
  destruct (add_changes_low d2 low Hl2) as [d3 [E3 [C3 K3]]].
  exists d1, d3. unfold answer_rq1_changes, answer_rq2_changes.
  rewrite E1. cbn [bind]. rewrite E2. cbn [bind]. rewrite E3.
  assert (H1 : changes_of "high" high d3).
  { destruct C1 as (A & B & C). unfold changes_of in *.
    cbn [append] in *. rewrite !K3, !K2 by reflexivity. auto. }
  assert (H2 : changes_of "medium" medium d3).
  { destruct C2 as (A & B & C). unfold changes_of in *.
    cbn [append] in *. rewrite !K3 by reflexivity. auto. }
  repeat split; trivial; now apply changes_of_in.
Qed.

End SeverityChangeFacts.

Module SeverityChangeExamples.
Import Py AnalyzeResults SeverityChangeFacts Samples.
Local Open Scope Z_scope.

(** From 2 to 5 three issues are introduced, from 5 to 3 two are
    fixed; the first row and a row without change have 0 and 0. *)
Example high_severity_changes :
  exists df,
    answer_rq1_changes severity_frame = Ok df /\
    lookup "high_severity_change" df =
      Some [None; Some 3; Some (-2); Some 0] /\
    lookup "high_severity_introduced" df =
      Some [Some 0; Some 3; Some 0; Some 0] /\
    lookup "high_severity_fixed" df =
      Some [Some 0; Some 0; Some 2; Some 0].
Proof. eexists. repeat split. Qed.

(** The statement of C1, as the code has it, on the sample frame. *)
Lemma introduced_and_fixed_witness :
  exists df1 df2,
    answer_rq1_changes severity_frame = Ok df1 /\
    answer_rq2_changes severity_frame = Ok df2 /\
    changes_in "high" [Some 2; Some 5; Some 3; Some 3] df1 /\
    changes_in "high" [Some 2; Some 5; Some 3; Some 3] df2 /\
    changes_in "medium" [Some 0; Some 0; Some 1; Some 0] df2 /\
    changes_in "low" [Some 7; Some 7; Some 7; Some 9] df2.
Proof.
  apply (introduced_and_fixed severity_frame
           [Some 2; Some 5; Some 3; Some 3]
           [Some 0; Some 0; Some 1; Some 0]
           [Some 7; Some 7; Some 7; Some 9]);
    try reflexivity;
    repeat constructor; cbn; lia.
Defined.

(** C1 as it is stated, for every series of counts, does not hold.
    From 0 to 2^53 + 1 issues the difference is 2^53 + 1, and the
    introduced value is 2^53: the change is stored as a float64. From
    -2^63 to 2^63 - 1 the difference is positive, and the introduced
    value is 0 and the fixed value 1: the subtraction wraps around in
    int64. *)
Lemma difference_as_stated_counterexample :
  (exists df,
     answer_rq1_changes [("high_severity", [Some 0; Some (2 ^ 53 + 1)])]
       = Ok df /\
     lookup "high_severity_introduced" df = Some [Some 0; Some (2 ^ 53)] /\
     Z.max 0 (2 ^ 53 + 1 - 0) <> 2 ^ 53) /\
  (exists df,
     answer_rq1_changes
       [("high_severity", [Some (- 2 ^ 63); Some (2 ^ 63 - 1)])] = Ok df /\
     lookup "high_severity_introduced" df = Some [Some 0; Some 0] /\
     lookup "high_severity_fixed" df = Some [Some 0; Some 1] /\
     Z.max 0 (2 ^ 63 - 1 - - 2 ^ 63) <> 0).
Proof.
  split; eexists; repeat split; try (vm_compute; reflexivity);
    vm_compute; discriminate.
Qed.

End SeverityChangeExamples.

(** ** The field of unique CWEs, written and read back *)

Module UniqueCwesFacts.
Import Py AnalyzeResults RunBanditAnalysis GitLogFacts.

Lemma split_no_sep (c : ascii) (s : string) :
  PyStr.contains (String c EmptyString) s = false -> PyStr.split c s = [s].
Proof.
  induction s as [|a r IH]; intros Hno; trivial.
  rewrite contains_char_cons in Hno.
  apply orb_false_iff in Hno. destruct Hno as [Hac Hr].
  simpl. rewrite Ascii.eqb_sym, Hac. now rewrite (IH Hr).
Qed.

Lemma split_field (c : ascii) (s rest : string) :
  PyStr.contains (String c EmptyString) s = false ->
  PyStr.split c (s ++ String c rest) = s :: PyStr.split c rest.
Proof.
  induction s as [|a r IH]; intros Hno.
  - simpl. now rewrite Ascii.eqb_refl.
  - rewrite contains_char_cons in Hno.
    apply orb_false_iff in Hno. destruct Hno as [Hac Hr].
    cbn [append PyStr.split].
    rewrite Ascii.eqb_sym, Hac. now rewrite (IH Hr).
Qed.

Lemma join_cons (sep x y : string) (t : list string) :
  PyStr.join sep (x :: y :: t) =
  (x ++ sep ++ PyStr.join sep (y :: t))%string.
Proof. reflexivity. Qed.

(** Splitting at the commas undoes the join of strings without comma. *)
Lemma split_join (l : list string) :
  l <> [] ->
  Forall (fun s => PyStr.contains "," s = false) l ->
  PyStr.split "," (PyStr.join "," l) = l.
Proof.
  intros Hne Hall. induction Hall as [|x t Hx Ht IH]; [congruence|].
  destruct t as [|y t].
  - simpl. now apply split_no_sep.
  - rewrite join_cons.
    change ("," ++ PyStr.join "," (y :: t))%string
      with (String "," (PyStr.join "," (y :: t))).
    rewrite (split_field _ _ _ Hx). f_equal. apply IH. discriminate.
Qed.

Lemma join_not_empty (l : list string) :
  l <> [] -> Forall (fun s => s <> EmptyString) l ->
  PyStr.join "," l <> EmptyString.
Proof.
  intros Hne Hall. destruct Hall as [|x t Hx Ht]; [congruence|].
  destruct t as [|y t]; simpl; trivial.
  destruct x; [congruence | discriminate].
Qed.

(** On a cell that arrives as the text that was written, or as NaN for
    the empty text, the lambda gives back the list of ids. *)
Lemma split_cwes_of_text (l : list string) :
  Forall (fun s => s <> EmptyString) l ->
  Forall (fun s => PyStr.contains "," s = false) l ->
  split_cwes (match l with
              | [] => NaN
              | _ => Text (PyStr.join "," l)
              end) = Ok l.
Proof.
  intros Hne Hnc. destruct l as [|x t]; trivial.
  unfold split_cwes.
  destruct (String.eqb_spec (PyStr.join "," (x :: t)) "") as [He|_].
  - exfalso. revert He. now apply join_not_empty.
  - now rewrite split_join.
Qed.

(** C7 does not hold on the code: in a CSV whose only data row has the
    single CWE id 78, the field is written as [78], the column is read
    as numbers, and the lambda of [load_repository_results] raises
    [AttributeError] where the claim has the list [["78"]]. *)
Theorem single_numeric_cwe_is_not_read_back :
  row_unique_cwes
    (row_of Samples.commit_a
       {| high_confidence := 1; medium_confidence := 0; low_confidence := 0;
          high_severity := 0; medium_severity := 0; low_severity := 1;
          unique_cwes := ["78"] |}) = "78" /\
  read_csv_column ["78"] = [Num 78] /\
  load_unique_cwes ["78"] = Raise AttributeError.
Proof. repeat split. Qed.

(** With a row of two ids in the same column the texts are kept, and
    every row is read back. *)
Example text_column_is_read_back :
  load_unique_cwes
    [PyStr.join "," ["78"]; PyStr.join "," []; PyStr.join "," ["78"; "259"]] =
  Ok [["78"]; []; ["78"; "259"]].
Proof. reflexivity. Qed.

End UniqueCwesFacts.

(* ================================================================== *)
(** * Further properties *)
(* ================================================================== *)

(** ** Splitting at a separator of several characters *)

Module PyStrMoreFacts.
Import PyStr PyStrMore PyStrFacts.

Lemma split_sep_not_nil (sep s : string) (k : nat) : split_sep sep s k <> [].
Proof.
  revert k. induction s as [|a r IH]; intros k; cbn [split_sep];
    [discriminate|].
  destruct k as [|k]; [|apply IH].
  destruct (String.prefix sep (String a r)); [discriminate|].
  specialize (IH 0). destruct (split_sep sep r 0); [congruence|discriminate].
Qed.

Lemma last_cons_head (a : ascii) (l : list string) (p q : string) :
  last (cons_head a (p :: q :: l)) EmptyString =
  last (p :: q :: l) EmptyString.
Proof. reflexivity. Qed.

(** A string that is not cut is its own single piece. *)
Lemma split_sep_single (sep s p : string) :
  split_sep sep s 0 = [p] -> p = s.
Proof.
  revert p. induction s as [|a r IH]; intros p; cbn [split_sep].
  - now intros [= <-].
  - destruct (String.prefix sep (String a r)).
    + intros Hs. injection Hs as _ Hs.
      now apply split_sep_not_nil in Hs.
    + destruct (split_sep sep r 0) as [|x [|y t]] eqn:Er; simpl;
        intros [= <-].
      * now apply split_sep_not_nil in Er.
      * now rewrite (IH x eq_refl).
Qed.

Lemma prefix_nil_r (sep : string) :
  sep <> EmptyString -> String.prefix sep EmptyString = false.
Proof. destruct sep; [congruence | reflexivity]. Qed.

(** The last piece of a split does not contain the separator. *)
Lemma last_split_sep_no_sep (sep : string) :
  sep <> EmptyString ->
  forall s k, contains sep (last (split_sep sep s k) EmptyString) = false.
Proof.
  intros Hsep. induction s as [|a r IH]; intros k.
  - cbn [split_sep last contains]. now rewrite (prefix_nil_r sep Hsep).
  - cbn [split_sep]. destruct k as [|k]; [|apply IH].
    destruct (String.prefix sep (String a r)) eqn:Ep.
    + pose proof (split_sep_not_nil sep r (String.length sep - 1)) as Hne.
      specialize (IH (String.length sep - 1)).
      destruct (split_sep sep r (String.length sep - 1)); [congruence|].
      exact IH.
    + destruct (split_sep sep r 0) as [|x [|y t]] eqn:Er.
      * now apply split_sep_not_nil in Er.
      * pose proof (split_sep_single sep r x Er) as ->.
        specialize (IH 0). rewrite Er in IH. simpl in IH.
        cbn [cons_head last contains]. rewrite Ep, IH. reflexivity.
      * rewrite last_cons_head. specialize (IH 0). now rewrite Er in IH.
Qed.

Lemma prefix_app (p s : string) :
  String.prefix p s = true <-> exists r, s = (p ++ r)%string.
Proof.
  revert s. induction p as [|a p IH]; intros s.
  - destruct s; simpl; split; eauto.
  - destruct s as [|b s]; simpl.
    + split; [discriminate | intros [r Hr]; discriminate].
    + destruct (ascii_dec a b) as [->|Hne].
      * rewrite IH. split; intros [r Hr]; exists r;
          [now rewrite Hr | now injection Hr].
      * split; [discriminate | intros [r Hr]; injection Hr; congruence].
Qed.

Lemma drop_app (p r : string) :
  drop (String.length p) (p ++ r) = r.
Proof. induction p as [|a p IH]; simpl; trivial. Qed.

Lemma contains_app (sub s : string) :
  contains sub s = true <->
  exists pre post, s = (pre ++ sub ++ post)%string.
Proof.
  induction s as [|a r IH]; cbn [contains];
    rewrite orb_true_iff, prefix_app.
  - split.
    + intros [[post Hp]|Hf]; [|discriminate]. now exists ""%string, post.
    + intros (pre & post & Hs). left. exists post.
      destruct pre; [trivial | discriminate].
  - rewrite IH. split.
    + intros [[post Hp]|(pre & post & Hr)].
      * now exists ""%string, post.
      * exists (String a pre), post. simpl. now rewrite Hr.
    + intros (pre & post & Hs). destruct pre as [|b pre].
      * left. now exists post.
      * right. exists pre, post. simpl in Hs. now injection Hs.
Qed.

(** [sub] occurs in [s]. *)
Definition occurs (sub s : string) : Prop :=
  exists pre post, s = (pre ++ sub ++ post)%string.

Lemma contains_occurs (sub s : string) :
  contains sub s = false <-> ~ occurs sub s.
Proof.
  unfold occurs. rewrite <- contains_app.
  destruct (contains sub s); split; try congruence; intros Hn; trivial;
    now contradiction Hn.
Qed.

Lemma concat_cons_head (sep : string) (a : ascii) (l : list string) :
  l <> [] ->
  String.concat sep (cons_head a l) = String a (String.concat sep l).
Proof. destruct l as [|h [|x t]]; [congruence | reflexivity | reflexivity]. Qed.

(** The pieces of a split, with the separator between them, are the
    string that was split. *)
Lemma concat_split_sep (sep : string) :
  sep <> EmptyString ->
  forall s k, String.concat sep (split_sep sep s k) = drop k s.
Proof.
  intros Hsep. induction s as [|a r IH]; intros k.
  - now destruct k.
  - cbn [split_sep]. destruct k as [|k]; [|apply IH].
    cbn [drop].
    destruct (String.prefix sep (String a r)) eqn:Ep.
    + pose proof (split_sep_not_nil sep r (String.length sep - 1)) as Hne.
      specialize (IH (String.length sep - 1)).
      destruct (split_sep sep r (String.length sep - 1)) as [|h t] eqn:Es;
        [congruence|].
      change (String.concat sep (EmptyString :: h :: t))
        with (sep ++ String.concat sep (h :: t))%string.
      rewrite IH. apply prefix_app in Ep. destruct Ep as [rest Hr].
      destruct sep as [|b sep']; [congruence|].
      simpl in Hr. injection Hr as -> ->.
      replace (String.length (String b sep') - 1) with (String.length sep')
        by (simpl; lia).
      rewrite drop_app. reflexivity.
    + rewrite concat_cons_head by apply split_sep_not_nil.
      now rewrite (IH 0).
Qed.

(** No piece before the last one has a separator that begins in it:
    every cut is at the leftmost separator. *)
Lemma split_sep_leftmost :
  forall s k,
    Forall (fun p => contains "::" (p ++ ":") = false)
      (removelast (split_sep "::" s k)).
Proof.
  induction s as [|a r IH]; intros k.
  - constructor.
  - cbn [split_sep]. destruct k as [|k]; [|apply IH].
    destruct (String.prefix "::" (String a r)) eqn:Ep.
    + cbn [String.length Nat.sub].
      pose proof (split_sep_not_nil "::" r 1) as Hne.
      specialize (IH 1).
      destruct (split_sep "::" r 1) as [|h t]; [congruence|].
      change (removelast (EmptyString :: h :: t))
        with (EmptyString :: removelast (h :: t)).
      constructor; [reflexivity | exact IH].
    + pose proof (concat_split_sep "::" ltac:(discriminate) r 0) as Hr.
      cbn [drop] in Hr. specialize (IH 0).
      destruct (split_sep "::" r 0) as [|h [|x t]] eqn:Es.
      * now apply split_sep_not_nil in Es.
      * constructor.
      * change (removelast (cons_head a (h :: x :: t)))
          with (String a h :: removelast (x :: t)).
        change (removelast (h :: x :: t))
          with (h :: removelast (x :: t)) in IH.
        apply Forall_cons_iff in IH. destruct IH as [Hh Hrest].
        constructor; trivial.
        change (String a h ++ ":")%string with (String a (h ++ ":")).
        cbn [contains]. rewrite Hh, orb_false_r.
        apply not_true_is_false. intros Hp.
        apply prefix_app in Hp. destruct Hp as [y Hy].
        assert (Hp : String.prefix "::" (String a r) = true).
        { apply prefix_app. simpl in Hy. injection Hy as -> Hy.
          change (String.concat "::" (h :: x :: t))
            with (h ++ "::" ++ String.concat "::" (x :: t))%string in Hr.
          rewrite <- Hr. destruct h as [|c h].
          - eexists. reflexivity.
          - simpl in Hy. injection Hy as -> _. eexists. reflexivity. }
        congruence.
Qed.

Lemma endswith_refl (s : string) : endswith s s = true.
Proof. destruct s; cbn [endswith]; now rewrite String.eqb_refl. Qed.

Lemma endswith_cons (suf : string) (a : ascii) (s : string) :
  endswith suf s = true -> endswith suf (String a s) = true.
Proof. intros Hs. simpl. rewrite Hs. apply orb_true_r. Qed.

(** The last piece of a split is an end of the string. *)
Lemma last_split_sep_suffix (sep : string) :
  forall s k, endswith (last (split_sep sep s k) EmptyString) s = true.
Proof.
  induction s as [|a r IH]; intros k.
  - reflexivity.
  - cbn [split_sep]. destruct k as [|k]; [|apply endswith_cons, IH].
    destruct (String.prefix sep (String a r)) eqn:Ep.
    + pose proof (split_sep_not_nil sep r (String.length sep - 1)) as Hne.
      specialize (IH (String.length sep - 1)).
      destruct (split_sep sep r (String.length sep - 1)); [congruence|].
      now apply endswith_cons.
    + destruct (split_sep sep r 0) as [|x [|y t]] eqn:Er.
      * now apply split_sep_not_nil in Er.
      * pose proof (split_sep_single sep r x Er) as ->.
        cbn [cons_head last]. apply endswith_refl.
      * rewrite last_cons_head. apply endswith_cons.
        specialize (IH 0). now rewrite Er in IH.
Qed.

Lemma append_assoc (x y z : string) :
  ((x ++ y) ++ z = x ++ (y ++ z))%string.
Proof. induction x as [|a x IH]; simpl; [trivial | now rewrite IH]. Qed.

Lemma append_nil_r (x : string) : (x ++ "")%string = x.
Proof. induction x as [|a x IH]; simpl; [trivial | now rewrite IH]. Qed.

Lemma write_all_concat (l : list string) :
  write_all l = String.concat "" l.
Proof.
  induction l as [|x [|y t] IH]; cbn [write_all String.concat]; trivial.
  - apply append_nil_r.
  - cbn [write_all] in IH. now rewrite IH.
Qed.

Lemma write_all_app (l1 l2 : list string) :
  write_all (l1 ++ l2) = (write_all l1 ++ write_all l2)%string.
Proof.
  induction l1 as [|x l1 IH]; cbn [write_all app]; trivial.
  now rewrite IH, append_assoc.
Qed.

End PyStrMoreFacts.

(** ** pytest.ini *)

Module PytestIniFacts.
Import Py PyStr PyStrMore PyStrMoreFacts SequentialTestScriptMore.
Import PytestOutputFacts.

Lemma sort_patterns_filter (tests special regular : list string) :
  sort_patterns tests special regular =
  (special ++ filter is_special tests,
   regular ++ filter (fun t => negb (is_special t)) tests).
Proof.
  revert special regular.
  induction tests as [|t rest IH]; intros special regular; simpl.
  - now rewrite !app_nil_r.
  - destruct (is_special t); simpl; rewrite IH, <- app_assoc; reflexivity.
Qed.

(** [n] underscores. *)
Fixpoint underscores (n : nat) : string :=
  match n with
  | O => EmptyString
  | S k => String "_" (underscores k)
  end.

(** The pieces of [test] when it is cut at every [::], from the left: no
    [::] begins in a piece. *)
Definition pieces_of (test : string) (pieces : list string) : Prop :=
  test = String.concat "::" pieces /\
  pieces <> [] /\
  Forall (fun p => ~ occurs "::" (p ++ ":")) (removelast pieces) /\
  ~ occurs "::" (last pieces EmptyString).

Lemma append_eq_split (x y a b : string) :
  (x ++ a = y ++ b)%string ->
  exists d, (y = x ++ d /\ a = d ++ b)%string \/
            (x = y ++ d /\ b = d ++ a)%string.
Proof.
  revert y. induction x as [|c x IH]; intros y Heq.
  - exists y. left. now split.
  - destruct y as [|c' y].
    + exists (String c x). right. now split.
    + simpl in Heq. injection Heq as -> Heq.
      destruct (IH y Heq) as [d [[-> ->]|[-> ->]]]; exists d;
        [left | right]; now split.
Qed.

Lemma length_append (x y : string) :
  String.length (x ++ y) = String.length x + String.length y.
Proof. induction x as [|a x IH]; simpl; [trivial | now rewrite IH]. Qed.

(** A cut at a leftmost [::] is not behind another cut. *)
Lemma leftmost_cut (x y r r' : string) :
  ~ occurs "::" (y ++ ":") ->
  (x ++ "::" ++ r = y ++ "::" ++ r')%string ->
  exists d, (x = y ++ d)%string /\ (d = EmptyString -> r = r').
Proof.
  intros Hy Heq.
  destruct (append_eq_split _ _ _ _ Heq) as [d [[-> Hr]|[-> Hr]]].
  - destruct d as [|c [|c' d]].
    + exists EmptyString. rewrite !append_nil_r. split; trivial.
      intros _. simpl in Hr. now injection Hr.
    + exfalso. apply Hy. simpl in Hr. injection Hr as <- _.
      exists x, EmptyString. rewrite append_assoc. reflexivity.
    + exfalso. apply Hy. simpl in Hr. injection Hr as <- <- _.
      exists x, (d ++ ":")%string. rewrite append_assoc. reflexivity.
  - exists d. split; trivial. intros ->. simpl in Hr. now injection Hr.
Qed.

(** Two cuts at the leftmost [::] are the same cut. *)
Lemma leftmost_cut_same (x y r r' : string) :
  ~ occurs "::" (x ++ ":") -> ~ occurs "::" (y ++ ":") ->
  (x ++ "::" ++ r = y ++ "::" ++ r')%string ->
  x = y /\ r = r'.
Proof.
  intros Hx Hy Heq.
  destruct (leftmost_cut x y r r' Hy Heq) as [d [Hd Hr]].
  destruct (leftmost_cut y x r' r Hx (eq_sym Heq)) as [d' [Hd' Hr']].
  assert (Hlen : String.length d = 0).
  { apply (f_equal String.length) in Hd, Hd'.
    rewrite length_append in Hd, Hd'. lia. }
  destruct d; [|discriminate].
  rewrite append_nil_r in Hd. auto.
Qed.

(** A test has one list of pieces. *)
Lemma pieces_of_unique (pieces : list string) :
  forall test others,
    pieces_of test pieces -> pieces_of test others -> pieces = others.
Proof.
  unfold pieces_of.
  induction pieces as [|x p IH]; intros test q (Ht & Hne & Hall & Hlast)
    (Ht' & Hne' & Hall' & Hlast'); [congruence|].
  destruct q as [|y q]; [congruence|].
  destruct p as [|x2 p], q as [|y2 q].
  - simpl in Ht, Ht'. congruence.
  - exfalso. apply Hlast. cbn [last].
    change (String.concat "::" (y :: y2 :: q))
      with (y ++ "::" ++ String.concat "::" (y2 :: q))%string in Ht'.
    simpl in Ht. rewrite <- Ht, Ht'. eexists _, _. reflexivity.
  - exfalso. apply Hlast'. cbn [last].
    change (String.concat "::" (x :: x2 :: p))
      with (x ++ "::" ++ String.concat "::" (x2 :: p))%string in Ht.
    simpl in Ht'. rewrite <- Ht', Ht. eexists _, _. reflexivity.
  - change (String.concat "::" (x :: x2 :: p))
      with (x ++ "::" ++ String.concat "::" (x2 :: p))%string in Ht.
    change (String.concat "::" (y :: y2 :: q))
      with (y ++ "::" ++ String.concat "::" (y2 :: q))%string in Ht'.
    change (removelast (x :: x2 :: p))
      with (x :: removelast (x2 :: p)) in Hall.
    change (removelast (y :: y2 :: q))
      with (y :: removelast (y2 :: q)) in Hall'.
    apply Forall_cons_iff in Hall. destruct Hall as [Hx Hall].
    apply Forall_cons_iff in Hall'. destruct Hall' as [Hy Hall'].
    change (last (x :: x2 :: p) EmptyString)
      with (last (x2 :: p) EmptyString) in Hlast.
    change (last (y :: y2 :: q) EmptyString)
      with (last (y2 :: q) EmptyString) in Hlast'.
    rewrite Ht in Ht'.
    destruct (leftmost_cut_same _ _ _ _ Hx Hy Ht') as [-> Hrest].
    f_equal.
    apply (IH (String.concat "::" (x2 :: p)) (y2 :: q)).
    + repeat split; trivial. discriminate.
    + repeat split; trivial. discriminate.
Qed.

Lemma underscores_to_end_spec (s : string) :
  underscores_to_end s = true <->
  exists n, s = underscores n \/ s = (underscores n ++ newline)%string.
Proof.
  split.
  - induction s as [|a r IH]; cbn [underscores_to_end].
    + intros _. exists 0. now left.
    + destruct (Ascii.eqb a "_") eqn:Ea.
      * apply Ascii.eqb_eq in Ea. subst a. intros Hr.
        destruct (IH Hr) as [n [-> | ->]]; exists (S n); [now left | now right].
      * intros Hn. apply andb_true_iff in Hn. destruct Hn as [Hn Hr].
        apply Ascii.eqb_eq in Hn. apply String.eqb_eq in Hr. subst.
        exists 0. now right.
  - intros [n Hn]. revert s Hn. induction n as [|n IH]; intros s Hn.
    + destruct Hn as [-> | ->]; reflexivity.
    + destruct Hn as [-> | ->]; cbn [underscores append underscores_to_end];
        rewrite Ascii.eqb_refl; apply IH; auto.
Qed.

Lemma is_special_spec (test : string) :
  is_special test = true <->
  exists n, 0 < n /\
            (test = underscores n \/
             test = (underscores n ++ newline)%string).
Proof.
  unfold is_special, match_underscores. split.
  - intros Hs. apply orb_true_iff in Hs. destruct Hs as [Hs|Hs].
    + apply String.eqb_eq in Hs. exists 21. split; [lia | now left].
    + destruct test as [|a r]; [discriminate|].
      apply andb_true_iff in Hs. destruct Hs as [Ha Hr].
      apply Ascii.eqb_eq in Ha. subst a.
      apply underscores_to_end_spec in Hr.
      destruct Hr as [n [-> | ->]]; exists (S n);
        (split; [lia|]); [now left | now right].
  - intros [n [Hn Ht]]. destruct n as [|n]; [lia|].
    apply orb_true_iff. right.
    assert (Hr : forall r, r = underscores n \/
                           r = (underscores n ++ newline)%string ->
                           underscores_to_end r = true).
    { intros r Hr. apply underscores_to_end_spec. now exists n. }
    destruct Ht as [-> | ->]; cbn [underscores append];
      rewrite Ascii.eqb_refl; apply Hr; auto.
Qed.

Lemma excluded_name_pieces (test : string) :
  exists pieces,
    pieces_of test pieces /\ excluded_name test = last pieces EmptyString.
Proof.
  unfold excluded_name, pieces_of.
  destruct (contains "::" test) eqn:Ec.
  - exists (split_sep "::" test 0). split; [|reflexivity].
    split; [|split; [|split]].
    + now rewrite concat_split_sep.
    + apply split_sep_not_nil.
    + eapply Forall_impl; [|apply split_sep_leftmost].
      intros p. apply contains_occurs.
    + apply contains_occurs, last_split_sep_no_sep. discriminate.
  - exists [test]. split; [|reflexivity].
    split; [reflexivity | split; [discriminate | split]].
    + constructor.
    + now apply contains_occurs.
Qed.

(** X1. The options of [pytest.ini]. Every failing or flaky test gives one
    option, with one space after it: first the tests that consist of
    underscores, each as [--ignore-glob="*test*"], then the other tests
    in their order, each as [-k "not name"]. A test consists of
    underscores when it is one underscore or more, with or without one
    newline behind them. The name is the last of the pieces of the
    test when it is cut at every [::] from the left, and a test has one
    list of such pieces; the name is the whole test when the test has
    no [::]. *)
Theorem pytest_ini_options (failing_tests flaky_tests : list string) :
  let tests := failing_tests ++ flaky_tests in
  pytest_ini_text failing_tests flaky_tests =
    ("[pytest]" ++ newline ++ "addopts = "
     ++ String.concat ""
          (map (fun test =>
                  "--ignore-glob=" ++ dquote ++ "*" ++ test ++ "*"
                  ++ dquote ++ " ")
             (filter is_special tests))
     ++ String.concat ""
          (map (fun test =>
                  "-k " ++ dquote ++ "not " ++ excluded_name test
                  ++ dquote ++ " ")
             (filter (fun test => negb (is_special test)) tests))
     ++ newline)%string
  /\ (forall test,
        is_special test = true <->
        exists n, 0 < n /\
                  (test = underscores n \/
                   test = (underscores n ++ newline)%string))
  /\ (forall test,
        exists pieces,
          pieces_of test pieces /\
          excluded_name test = last pieces EmptyString /\
          forall others, pieces_of test others -> others = pieces)
  /\ (forall test, ~ occurs "::" test -> excluded_name test = test).
Proof.
  intros tests. split; [|split; [|split]].
  - unfold pytest_ini_text. fold tests.
    rewrite sort_patterns_filter. cbn [app].
    cbn [write_all]. rewrite !write_all_app. cbn [write_all].
    rewrite append_nil_r, !append_assoc, !write_all_concat.
    reflexivity.
  - apply is_special_spec.
  - intros test. destruct (excluded_name_pieces test) as [pieces [Hp Hn]].
    exists pieces. repeat split; trivial.
    + apply Hp.
    + apply Hp.
    + apply Hp.
    + apply Hp.
    + intros others Ho. symmetry.
      exact (pieces_of_unique pieces test others Hp Ho).
  - intros test Hno. apply contains_occurs in Hno.
    unfold excluded_name. now rewrite Hno.
Qed.

Section Verify.
Context {F : Type} `{PyFloat F}.

(** The text that [verify_clean_test_suite] leaves in [pytest.ini] when
    it finds a failure. *)
Definition exclude_all_text : string :=
  ("[pytest]" ++ newline ++ "addopts = -k " ++ dquote ++ "not test"
   ++ dquote ++ newline)%string.

(** The lines of the output of the first run of pytest in
    [verify_clean_test_suite]. *)
Definition verified_lines (w : @world F) (k : nat) : list string :=
  SequentialTestScript.output_lines (stdout (w k ["pytest"])).

(** No line has FAILED or ERROR between two spaces. *)
Definition clean_lines (lines : list string) : bool :=
  forallb (fun l => negb (is_failure_line l)) lines.

(** The text that [verify_clean_test_suite] writes first. *)
Definition collect_only_text : string :=
  ("[pytest]" ++ newline ++ "addopts = --collect-only" ++ newline)%string.

Lemma verify_clean_test_suite_cases (w : @world F) (k : nat)
  (files : textfiles) :
  verify_clean_test_suite w k files =
  if clean_lines (verified_lines w k) then (true, files, S k)
  else (false,
        write_text (write_text files "pytest.ini" collect_only_text)
          "pytest.ini" exclude_all_text,
        S (S k)).
Proof.
  unfold verify_clean_test_suite, ParallelTestScript.failing_of_output.
  rewrite failing_fold. cbn [app].
  fold (SequentialTestScript.output_lines (stdout (w k ["pytest"]))).
  fold (verified_lines w k).
  assert (Hc : clean_lines (verified_lines w k) =
               match filter is_failure_line (verified_lines w k) with
               | [] => true | _ => false end).
  { unfold clean_lines. generalize (verified_lines w k). intros lines.
    induction lines as [|l ls IH]; simpl; trivial.
    destruct (is_failure_line l); simpl; trivial. }
  rewrite Hc.
  destruct (filter is_failure_line (verified_lines w k)) as [|x t];
    cbn [map]; trivial.
Qed.

(** X2. [verify_clean_test_suite] returns [True] iff no line of the output
    of its first run of pytest contains FAILED or ERROR between two
    spaces; then it has run pytest once and the files are as they were.
    Otherwise it has run pytest twice and [pytest.ini] holds the one
    option [-k "not test"], whatever was there, and no other file is
    changed. *)
Theorem verify_clean_test_suite_outcome (w : @world F) (k : nat)
  (files : textfiles) :
  let lines := SequentialTestScript.output_lines (stdout (w k ["pytest"])) in
  let clean := forallb (fun l => negb (is_failure_line l)) lines in
  let '(is_clean, files', k') := verify_clean_test_suite w k files in
  is_clean = clean /\
  k' = (if clean then S k else S (S k)) /\
  forall p,
    files' p =
    if clean then files p
    else if String.eqb p "pytest.ini" then Some exclude_all_text
    else files p.
Proof.
  cbv zeta. rewrite verify_clean_test_suite_cases.
  unfold clean_lines, verified_lines.
  destruct (forallb _ _); [auto|].
  split; [trivial | split; [trivial|]]. intros p.
  unfold write_text. now destruct (String.eqb p "pytest.ini").
Qed.

End Verify.

End PytestIniFacts.

(** ** The measurements of Tseq *)

Module SequentialTimeFacts.
Import Py PyNumFacts SequentialTestScriptMore ParallelFacts.

Section Facts.
Context {F : Type} `{PyFloat F}.

Lemma observe_app (w : @world F) (cmd : list string) (a b : nat) :
  forall k,
    ParallelTestScript.observe w cmd k (a + b) =
    ParallelTestScript.observe w cmd k a
    ++ ParallelTestScript.observe w cmd (k + a) b.
Proof.
  induction a as [|a IH]; intros k; simpl.
  - now rewrite Nat.add_0_r.
  - rewrite IH. now replace (S k + a) with (k + S a) by lia.
Qed.

Lemma run_times_app (w : @world F) (k a b : nat) :
  run_times w k (a + b) = run_times w k a ++ run_times w (k + a) b.
Proof. unfold run_times. now rewrite observe_app, map_app. Qed.

Lemma length_run_times (w : @world F) (k n : nat) :
  List.length (run_times w k n) = n.
Proof.
  unfold run_times. rewrite length_map. revert k.
  induction n as [|n IH]; intros k; simpl; [trivial | now rewrite IH].
Qed.

Lemma py_mean_cons (t : F) (ts : list F) :
  py_mean (t :: ts) = Ok (arithmetic_mean (t :: ts)).
Proof. reflexivity. Qed.

Lemma py_mean_run_times (w : @world F) (k n : nat) :
  0 < n -> py_mean (run_times w k n) = Ok (arithmetic_mean (run_times w k n)).
Proof.
  intros Hn. destruct n as [|n]; [lia|].
  unfold run_times. simpl. apply py_mean_cons.
Qed.

(** The averages of the [outer] groups of [inner] runs from call [k]. *)
Definition group_means (w : @world F) (k outer inner : nat) : list F :=
  map (fun i => arithmetic_mean (run_times w (k + i * inner) inner))
    (seq 0 outer).

Lemma group_means_S (w : @world F) (k outer inner : nat) :
  group_means w k (S outer) inner =
  arithmetic_mean (run_times w k inner)
  :: group_means w (k + inner) outer inner.
Proof.
  unfold group_means. cbn [seq map].
  rewrite Nat.mul_0_l, Nat.add_0_r. f_equal.
  rewrite <- seq_shift, map_map. apply map_ext. intros i.
  now replace (k + S i * inner) with (k + inner + i * inner) by lia.
Qed.

Lemma measure_runs_Ok (w : @world F) (inner : nat) :
  0 < inner ->
  forall outer k avgs all,
    measure_runs w k outer inner avgs all =
    Ok (avgs ++ group_means w k outer inner,
        all ++ run_times w k (outer * inner),
        k + outer * inner).
Proof.
  intros Hin. induction outer as [|outer IH]; intros k avgs all.
  - simpl. unfold group_means, run_times. simpl.
    now rewrite !app_nil_r, Nat.add_0_r.
  - cbn [measure_runs]. rewrite (py_mean_run_times w k inner Hin).
    cbn [bind]. rewrite IH, group_means_S, <- !app_assoc. cbn [app].
    replace (S outer * inner) with (inner + outer * inner) by lia.
    rewrite run_times_app. do 2 f_equal. lia.
Qed.

Lemma measure_sequential_time_Ok (w : @world F) (k outer inner : nat) :
  0 < outer -> 0 < inner ->
  measure_sequential_time w k outer inner =
  Ok (arithmetic_mean (group_means w k outer inner),
      group_means w k outer inner,
      run_times w k (outer * inner),
      k + outer * inner).
Proof.
  intros Hout Hin. unfold measure_sequential_time.
  rewrite (measure_runs_Ok w inner Hin). cbn [bind app].
  destruct outer as [|outer]; [lia|].
  rewrite group_means_S. reflexivity.
Qed.

(** X3. [measure_sequential_time] divides by zero when it is asked for no
    outer or no inner iteration. Otherwise it runs pytest
    [outer * inner] times and returns the times of these runs in the
    order of the runs, the mean of each group of [inner] runs, one per
    outer iteration, and the mean of these means. *)
Theorem measure_sequential_time_groups (w : @world F) (k outer inner : nat) :
  (outer = 0 \/ inner = 0 ->
   measure_sequential_time w k outer inner = Raise ZeroDivisionError) /\
  (0 < outer -> 0 < inner ->
   measure_sequential_time w k outer inner =
   Ok (arithmetic_mean (group_means w k outer inner),
       group_means w k outer inner,
       run_times w k (outer * inner),
       k + outer * inner)
   /\ List.length (group_means w k outer inner) = outer
   /\ List.length (run_times w k (outer * inner)) = outer * inner).
Proof.
  split.
  - intros [-> | ->]; unfold measure_sequential_time.
    + reflexivity.
    + destruct outer as [|outer]; reflexivity.
  - intros Hout Hin. split; [|split].
    + now apply measure_sequential_time_Ok.
    + unfold group_means. now rewrite length_map, length_seq.
    + apply length_run_times.
Qed.

End Facts.

End SequentialTimeFacts.

(** ** From the sequential script to the scripts that read its files *)

Module SequentialFilesFacts.
Import Py PyNumFacts SequentialTestScriptMore ParallelFacts.
Import SequentialTimeFacts PytestIniFacts.

Section Facts.
Context {F : Type} `{PyFloat F}.

Lemma load_json_dump_same (fs : filesystem F) (path : string) (j : json F) :
  load_json (dump_json fs path j) path = Ok j.
Proof. unfold load_json, dump_json. now rewrite String.eqb_refl. Qed.

Lemma load_json_dump_other (fs : filesystem F) (path q : string)
  (j : json F) :
  String.eqb q path = false ->
  load_json (dump_json fs path j) q = load_json fs q.
Proof. intros Hq. unfold load_json, dump_json. now rewrite Hq. Qed.

(** The Tseq that the sequential script measures last. *)
Definition simple_tseq (w : @world F) (k : nat) : F :=
  arithmetic_mean (run_times w k 5).

(** [sequential_data] of the analysis for the files of the sequential
    script. *)
Definition analysed_sequential_data (w : @world F)
  (failing_tests flaky_tests : list string) (tseq : F) : json F :=
  JDict [ ("failing_tests", json_strings failing_tests);
          ("flaky_tests", json_strings flaky_tests);
          ("execution_times", json_floats (run_times w 0 10));
          ("avg_time", JFloat tseq) ].

(** X4. When the sequential script has run to its end, the two scripts that
    read its files agree: the Tseq that [execute_all_configurations]
    loads for the speedups and the [avg_time] that [main] of the
    analysis puts into [sequential_data] are both the mean of the five
    runs of [measure_simple_sequential_time] (the calls 26 to 30 of
    pytest, or 27 to 31 after a verification that failed), not the
    nested mean; and the analysis reads back the two lists of tests
    that [run_sequential_tests] returned. *)
Theorem tseq_written_is_tseq_read (w : @world F)
  (files files' : @script_files F) :
  main w files = Ok files' ->
  exists failing_tests flaky_tests k,
    SequentialTestScript.run_sequential_tests
      (ParallelTestScript.observe w ["pytest"] 0 10) =
      Ok (failing_tests, flaky_tests) /\
    (k = 26 \/ k = 27) /\
    ParallelTestScript.load_tseq (json_files files') =
      Ok (PFloat (simple_tseq w k)) /\
    AnalysisScriptMore.main_sequential (json_files files') =
      Ok (analysed_sequential_data w failing_tests flaky_tests
            (simple_tseq w k)).
Proof.
  unfold main. intros Hmain.
  apply bind_Ok in Hmain. destruct Hmain as [[failing flaky] [Hrun Hmain]].
  rewrite verify_clean_test_suite_cases in Hmain.
  assert (Hk : exists is_clean text2 k,
             (if clean_lines (verified_lines w 10)
              then (true, create_pytest_ini failing flaky (text_files files),
                    11)
              else (false,
                    write_text
                      (write_text
                         (create_pytest_ini failing flaky (text_files files))
                         "pytest.ini" collect_only_text)
                      "pytest.ini" exclude_all_text, 12)) =
             (is_clean, text2, k) /\ (k = 11 \/ k = 12)).
  { destruct (clean_lines _); eauto 6. }
  destruct Hk as [is_clean [text2 [k [Ev Hk']]]].
  rewrite Ev in Hmain.
  rewrite (measure_sequential_time_Ok w k 3 5) in Hmain by lia.
  cbn [bind] in Hmain.
  unfold measure_simple_sequential_time in Hmain.
  rewrite (py_mean_run_times w (k + 3 * 5) 5) in Hmain by lia.
  cbn [bind] in Hmain. injection Hmain as <-.
  exists failing, flaky, (k + 3 * 5).
  split; [exact Hrun|]. split; [lia|]. cbn [json_files]. split.
  - unfold ParallelTestScript.load_tseq.
    rewrite load_json_dump_same. reflexivity.
  - unfold AnalysisScriptMore.main_sequential,
      AnalysisScript.main_sequential_data,
      AnalysisScriptMore.main_avg_time.
    rewrite load_json_dump_same.
    rewrite load_json_dump_other by reflexivity.
    rewrite load_json_dump_same. reflexivity.
Qed.

End Facts.

End SequentialFilesFacts.

(** ** Flaky tests of a parallel configuration *)

Module ParallelFlakyFacts.
Import Py PyNumFacts ParallelTestScript.

Lemma existsb_eqb_In (x : string) (l : list string) :
  existsb (String.eqb x) l = true <-> In x l.
Proof.
  rewrite existsb_exists. split.
  - intros [y [Hin Heq]]. apply String.eqb_eq in Heq. now subst.
  - intros Hin. exists x. split; [trivial | apply String.eqb_refl].
Qed.

Lemma set_update_spec (l : list string) :
  forall seen,
    NoDup seen ->
    NoDup (set_update seen l) /\
    (forall x, In x (set_update seen l) <-> In x seen \/ In x l).
Proof.
  induction l as [|y l IH]; intros seen Hnd; simpl.
  - split; [trivial | tauto].
  - destruct (existsb (String.eqb y) seen) eqn:Ey.
    + apply existsb_eqb_In in Ey.
      destruct (IH seen Hnd) as [Hn Hin]. split; trivial.
      intros x. rewrite Hin. intuition (subst; auto).
    + assert (Hy : ~ In y seen).
      { intros Hin. apply existsb_eqb_In in Hin. congruence. }
      assert (Hnd' : NoDup (seen ++ [y])).
      { apply NoDup_rev in Hnd.
        rewrite <- (rev_involutive (seen ++ [y])).
        apply NoDup_rev. rewrite rev_app_distr. simpl.
        constructor; trivial. now rewrite <- in_rev. }
      destruct (IH (seen ++ [y]) Hnd') as [Hn Hin]. split; trivial.
      intros x. rewrite Hin, in_app_iff. simpl. tauto.
Qed.

Lemma fold_set_update_spec (lists : list (list string)) :
  forall seen,
    NoDup seen ->
    NoDup (fold_left set_update lists seen) /\
    (forall x, In x (fold_left set_update lists seen) <->
               In x seen \/ exists l, In l lists /\ In x l).
Proof.
  induction lists as [|l lists IH]; intros seen Hnd; simpl.
  - split; trivial. intros x. split; [tauto|].
    intros [Hin|[l [[] _]]]; trivial.
  - destruct (set_update_spec l seen Hnd) as [Hn Hin].
    destruct (IH _ Hn) as [Hn' Hin']. split; trivial.
    intros x. rewrite Hin', Hin. split.
    + intros [[Hs|Hl]|[l' [Hl' Hx]]]; eauto.
    + intros [Hs|[l' [[<-|Hl'] Hx]]]; eauto.
Qed.

(** The number of iterations in which the test [t] failed. *)
Definition failed_in (t : string) (all_failing_tests : list (list string))
  : nat :=
  List.length (filter (fun tests => existsb (String.eqb t) tests)
                 all_failing_tests).

Lemma failed_in_positive (t : string) (lists : list (list string)) :
  0 < failed_in t lists <-> exists l, In l lists /\ In t l.
Proof.
  unfold failed_in. induction lists as [|l lists IH]; simpl.
  - split; [lia | intros [l [[] _]]].
  - destruct (existsb (String.eqb t) l) eqn:Et; simpl.
    + apply existsb_eqb_In in Et. split; [eauto | lia].
    + rewrite IH. split.
      * intros [l' [Hl' Ht]]. eauto.
      * intros [l' [[<-|Hl'] Ht]]; [|eauto].
        apply existsb_eqb_In in Ht. congruence.
Qed.

Section Facts.
Context {F : Type} `{PyFloat F}.
Local Open Scope py_scope.

(** X5. [run_parallel_tests] divides by zero when it is asked for no
    iteration. Otherwise it returns after [iterations] runs of pytest;
    [failing_tests] has one list per iteration, [failures] has their
    lengths, and [flaky_tests] holds each test once that failed in at
    least one iteration and not in all of them, and no other test. *)
Theorem flaky_tests_fail_sometimes (w : world) (k : nat) (c : config)
  (iterations : nat) :
  (iterations = 0 ->
   run_parallel_tests w k c iterations = Raise ZeroDivisionError) /\
  (0 < iterations ->
   exists res,
     run_parallel_tests w k c iterations = Ok (res, k + iterations) /\
     List.length (failing_tests res) = iterations /\
     failures res = map (@List.length string) (failing_tests res) /\
     NoDup (flaky_tests res) /\
     forall t,
       In t (flaky_tests res) <->
       0 < failed_in t (failing_tests res) < iterations).
Proof.
  split.
  - intros ->. reflexivity.
  - intros Hpos. unfold run_parallel_tests.
    destruct (SequentialFacts.py_mean_nonempty
                (map (fun r => f_sub (end_time r) (start_time r))
                   (observe w (command c) k iterations))) as [t ->].
    { destruct iterations; [lia | discriminate]. }
    cbn [bind]. eexists. split; [reflexivity|].
    cbn [failing_tests flaky_tests failures].
    set (lists := map (fun r => failing_of_output (stdout r))
                    (observe w (command c) k iterations)).
    destruct (fold_set_update_spec lists [] (NoDup_nil _)) as [Hnd Hin].
    split; [|split; [reflexivity|split]].
    + unfold lists. rewrite length_map. clear.
      revert k. induction iterations as [|n IH]; intros k; simpl;
        [trivial | now rewrite IH].
    + now apply NoDup_filter.
    + intros x. rewrite filter_In. fold (failed_in x lists).
      rewrite andb_true_iff, Nat.ltb_lt, Nat.ltb_lt. split; [tauto|].
      intros [Hp Hlt]. split; [|tauto].
      apply Hin. right. now apply failed_in_positive.
Qed.

(** The five layouts of [sequential_time.json]: a key of the dict, or
    the [value] of the dict under a key. *)
Inductive layout : Type :=
| Plain (k : string)
| Nested (k : string).

(** The layouts in the order in which Tseq is looked for. *)
Definition layouts : list layout :=
  [ Plain "avg_time"; Plain "avg_time_simple"; Plain "avg_time_nested";
    Nested "tseq_simple"; Nested "tseq_nested" ].

(** The value that a dict has in a layout, if it has the layout. *)
Definition layout_value (d : list (string * json F)) (l : layout)
  : option (json F) :=
  match l with
  | Plain k => lookup k d
  | Nested k =>
      match lookup k d with
      | Some (JDict t) => lookup "value" t
      | _ => None
      end
  end.

(** The value of the first of the layouts [ls] that the dict has. *)
Fixpoint first_value (d : list (string * json F)) (ls : list layout)
  : option (json F) :=
  match ls with
  | [] => None
  | l :: rest =>
      match layout_value d l with
      | Some x => Some x
      | None => first_value d rest
      end
  end.

(** What the dict has under [tseq_simple] and [tseq_nested] is a
    dict. *)
Definition nested_are_dicts (d : list (string * json F)) : Prop :=
  forall k v, In (Nested k) layouts -> lookup k d = Some v ->
              exists t, v = JDict t.

(** [None] or a number: a value that [in] cannot be asked of. *)
Definition no_container (v : json F) : bool :=
  match v with
  | JNull | JBool _ | JInt _ | JFloat _ => true
  | _ => false
  end.

(** The two steps of the code for a nested layout. *)
Lemma nested_lookup (d : list (string * json F)) (k : string) :
  (forall v, lookup k d = Some v -> exists t, v = JDict t) ->
  (present <- py_in k (JDict d) ;;
   if present then x <- py_index (JDict d) k ;; py_in "value" x
   else Ok false) =
  Ok (match layout_value d (Nested k) with
      | Some _ => true
      | None => false
      end) /\
  (forall x,
     layout_value d (Nested k) = Some x ->
     (v <- py_index (JDict d) k ;; py_index v "value") = Ok x).
Proof.
  intros Hdict. cbn [py_in py_index bind layout_value].
  destruct (lookup k d) as [v|] eqn:Ek; cbn [bind].
  - destruct (Hdict v eq_refl) as [t ->]. cbn [py_in py_index].
    destruct (lookup "value" t) as [y|]; split; trivial.
    + now intros x [= <-].
    + discriminate.
  - split; [trivial | discriminate].
Qed.

Lemma format_2f_errors (x : json F) (e : exn) :
  format_2f x = Raise e -> e <> FileNotFoundError /\ e <> JSONDecodeError.
Proof.
  unfold format_2f.
  destruct x; simpl; try (intros [= <-]; split; discriminate).
  destruct (Z.eqb z 0 || f_fits z); intros [= <-]; split; discriminate.
Qed.

(** A format error has no handler in the [try] that loads Tseq. *)
Ltac format_unhandled :=
  match goal with
  | |- context [format_2f ?x] =>
      let E := fresh "E" in
      destruct (format_2f x) as [?|[]] eqn:E; try reflexivity;
      destruct (format_2f_errors _ _ E); congruence
  end.

(** X6. The Tseq of [execute_all_configurations]. It is 10.0 when
    [sequential_time.json] is missing or is no JSON; any other error
    of the file is raised. For a file that holds a dict with one of
    the keys [avg_time], [avg_time_simple], [avg_time_nested], it is
    the value of the first of them, whatever else the dict has. For a
    file that holds a dict in which [tseq_simple] and [tseq_nested],
    where present, are dicts, it is the value of the first layout
    that the dict has, in the order
    [avg_time], [avg_time_simple], [avg_time_nested], [value] of
    [tseq_simple], [value] of [tseq_nested], formatted as a number, and
    10.0 when the dict has none of them (also when [tseq_simple] is
    there without [value]). Without the first three keys, a
    [tseq_simple] that is [None] or a number raises [TypeError]. The
    format gives a float and an int as they are, and raises for an int
    too large for a float, for a string and for every other value;
    none of these errors is caught. *)
Theorem load_tseq_default (fs : filesystem F) :
  (fs "sequential_time.json" = FileError FileNotFoundError \/
   fs "sequential_time.json" = FileError JSONDecodeError ->
   load_tseq fs = Ok (PFloat (f_of_int 10))) /\
  (forall e,
     fs "sequential_time.json" = FileError e ->
     e <> FileNotFoundError -> e <> JSONDecodeError ->
     load_tseq fs = Raise e) /\
  (forall d x,
     fs "sequential_time.json" = FileJson (JDict d) ->
     first_value d [ Plain "avg_time"; Plain "avg_time_simple";
                     Plain "avg_time_nested" ] = Some x ->
     load_tseq fs = format_2f x) /\
  (forall d,
     fs "sequential_time.json" = FileJson (JDict d) ->
     nested_are_dicts d ->
     load_tseq fs =
     match first_value d layouts with
     | Some x => format_2f x
     | None => Ok (PFloat (f_of_int 10))
     end) /\
  (forall d v,
     fs "sequential_time.json" = FileJson (JDict d) ->
     lookup "avg_time" d = None ->
     lookup "avg_time_simple" d = None ->
     lookup "avg_time_nested" d = None ->
     lookup "tseq_simple" d = Some v ->
     no_container v = true ->
     load_tseq fs = Raise TypeError) /\
  (forall x,
     format_2f x =
     match x with
     | JFloat f => Ok (PFloat f)
     | JInt z =>
         if Z.eqb z 0 || f_fits z then Ok (PInt z) else Raise OverflowError
     | JBool b => Ok (PInt (if b then 1 else 0)%Z)
     | JStr _ => Raise ValueError
     | JNull | JList _ | JDict _ => Raise TypeError
     end).
Proof.
  unfold load_tseq, load_json. repeat apply conj.
  - intros [-> | ->]; reflexivity.
  - intros e -> Hf Hj. cbn [bind]. destruct e; congruence.
  - intros d x -> Hx. cbn [bind].
    unfold tseq_of_data. cbn [py_in bind].
    cbn [first_value layout_value] in Hx.
    destruct (lookup "avg_time" d) as [x1|] eqn:E1.
    { injection Hx as ->. cbn [py_index bind]. rewrite E1. cbn [bind].
      format_unhandled. }
    destruct (lookup "avg_time_simple" d) as [x2|] eqn:E2.
    { injection Hx as ->. cbn [py_index bind]. rewrite E2. cbn [bind].
      format_unhandled. }
    destruct (lookup "avg_time_nested" d) as [x3|] eqn:E3;
      [|discriminate].
    injection Hx as ->. cbn [py_index bind]. rewrite E3. cbn [bind].
    format_unhandled.
  - intros d -> Hdicts. cbn [bind].
    unfold tseq_of_data.
    destruct (nested_lookup d "tseq_simple") as [Rs Vs].
    { intros v. apply Hdicts. unfold layouts. simpl. tauto. }
    destruct (nested_lookup d "tseq_nested") as [Rn Vn].
    { intros v. apply Hdicts. unfold layouts. simpl. tauto. }
    rewrite Rs, Rn. cbn [first_value layouts].
    generalize dependent (layout_value d (Nested "tseq_simple")).
    generalize dependent (layout_value d (Nested "tseq_nested")).
    intros nested Rn Vn simple Rs Vs.
    cbn [py_in bind layout_value].
    destruct (lookup "avg_time" d) as [x|] eqn:E1.
    { cbn [py_index bind]. rewrite E1. cbn [bind]. format_unhandled. }
    destruct (lookup "avg_time_simple" d) as [x|] eqn:E2.
    { cbn [py_index bind]. rewrite E2. cbn [bind]. format_unhandled. }
    destruct (lookup "avg_time_nested" d) as [x|] eqn:E3.
    { cbn [py_index bind]. rewrite E3. cbn [bind]. format_unhandled. }
    cbn [bind].
    destruct simple as [x|]; cbn [bind].
    { rewrite (Vs x eq_refl). cbn [bind]. format_unhandled. }
    destruct nested as [x|]; cbn [bind].
    { rewrite (Vn x eq_refl). cbn [bind]. format_unhandled. }
    reflexivity.
  - intros d v -> H1 H2 H3 H4 Hv. cbn [bind].
    unfold tseq_of_data. cbn [py_in bind]. rewrite H1, H2, H3, H4.
    cbn [bind py_index]. rewrite H4. cbn [bind].
    destruct v; try discriminate; reflexivity.
  - intros x. unfold format_2f. destruct x; reflexivity.
Qed.

End Facts.

End ParallelFlakyFacts.

(** ** The analysis of the parallel failures *)

Module CounterFacts.
Import Py PyCounter DictFacts Sorted Permutation.

(** [c[t]]: a missing key counts 0. *)
Definition count_of (c : counter) (t : string) : nat :=
  match lookup t c with
  | Some n => n
  | None => 0
  end.

(** The counts that a counter holds are positive and its keys differ. *)
Definition well_formed (c : counter) : Prop :=
  NoDup (map fst c) /\ forall t n, In (t, n) c -> 0 < n.

Lemma well_formed_nil : well_formed [].
Proof. split; [constructor | intros t n []]. Qed.

Lemma In_store {V} (k : string) (v : V) (d : list (string * V))
  (x : string * V) :
  In x (store k v d) -> x = (k, v) \/ In x d.
Proof.
  induction d as [|[k' v'] d IH]; simpl.
  - intros [<-|[]]. now left.
  - destruct (String.eqb k k'); simpl.
    + intros [<-|Hin]; auto.
    + intros [<-|Hin]; auto. destruct (IH Hin); auto.
Qed.

Lemma count_of_add (c : counter) (x t : string) :
  count_of (counter_add c x) t =
  count_of c t + (if String.eqb t x then 1 else 0).
Proof.
  unfold count_of, counter_add.
  destruct (lookup x c) as [n|] eqn:Ex; rewrite lookup_store;
    destruct (String.eqb t x) eqn:Et;
    try (apply String.eqb_eq in Et; subst; rewrite Ex);
    try destruct (lookup t c); lia.
Qed.

Lemma well_formed_add (c : counter) (x : string) :
  well_formed c -> well_formed (counter_add c x).
Proof.
  intros [Hnd Hpos]. unfold counter_add.
  destruct (lookup x c) as [n|]; (split; [now apply NoDup_keys_store|]);
    intros t m Hin; apply In_store in Hin;
    destruct Hin as [[= -> ->]|Hin]; try lia; eauto.
Qed.

Lemma count_occ_string (l : list string) (x t : string) :
  count_occ string_dec (x :: l) t =
  count_occ string_dec l t + (if String.eqb t x then 1 else 0).
Proof.
  cbn [count_occ]. destruct (string_dec x t) as [->|Hne].
  - rewrite String.eqb_refl. lia.
  - destruct (String.eqb t x) eqn:E; [|lia].
    apply String.eqb_eq in E. congruence.
Qed.

Lemma counter_update_spec (l : list string) :
  forall c,
    well_formed c ->
    well_formed (counter_update c l) /\
    forall t, count_of (counter_update c l) t =
              count_of c t + count_occ string_dec l t.
Proof.
  unfold counter_update.
  induction l as [|x l IH]; intros c Hc.
  - split; [trivial|]. intros t. simpl. lia.
  - cbn [fold_left].
    destruct (IH _ (well_formed_add c x Hc)) as [Hwf Hcount].
    split; trivial. intros t.
    rewrite Hcount, count_of_add, count_occ_string. lia.
Qed.

Lemma fold_counter_update_spec (lists : list (list string)) :
  forall c,
    well_formed c ->
    well_formed (fold_left counter_update lists c) /\
    forall t, count_of (fold_left counter_update lists c) t =
              count_of c t + count_occ string_dec (concat lists) t.
Proof.
  induction lists as [|l lists IH]; intros c Hc.
  - split; [trivial|]. intros t. simpl. lia.
  - cbn [fold_left concat].
    destruct (counter_update_spec l c Hc) as [Hwf Hcount].
    destruct (IH _ Hwf) as [Hwf' Hcount'].
    split; trivial. intros t.
    rewrite Hcount', Hcount, count_occ_app. lia.
Qed.

Lemma keys_positive (c : counter) (t : string) :
  well_formed c -> (In t (map fst c) <-> 0 < count_of c t).
Proof.
  intros [Hnd Hpos]. unfold count_of.
  destruct (lookup t c) as [n|] eqn:Et.
  - pose proof (proj1 (lookup_In t n c Hnd) Et) as Hin.
    split; [eauto|]. intros _. now apply (in_map fst) in Hin.
  - apply lookup_None_keys in Et. split; [tauto | lia].
Qed.

(** Largest count first. *)
Definition desc (x y : string * nat) : Prop := snd y <= snd x.

Lemma insert_desc_perm (x : string * nat) (l : counter) :
  Permutation (insert_desc x l) (x :: l).
Proof.
  induction l as [|y l IH]; simpl; trivial.
  destruct (snd y <? snd x); trivial.
  rewrite IH. apply perm_swap.
Qed.

Lemma sort_desc_perm (c : counter) : Permutation (sort_desc c) c.
Proof.
  unfold sort_desc.
  assert (Hgen : forall acc,
             Permutation (fold_left (fun a x => insert_desc x a) c acc)
               (acc ++ c)).
  { induction c as [|x c IH]; intros acc; simpl.
    - now rewrite app_nil_r.
    - rewrite IH, insert_desc_perm. apply Permutation_middle. }
  apply (Hgen []).
Qed.

Lemma insert_desc_sorted (x : string * nat) (l : counter) :
  StronglySorted desc l -> StronglySorted desc (insert_desc x l).
Proof.
  induction l as [|y l IH]; simpl; intros Hs.
  - repeat constructor.
  - inversion Hs as [|? ? Hs' Hall]; subst.
    destruct (snd y <? snd x) eqn:E.
    + apply Nat.ltb_lt in E. constructor; trivial.
      constructor; [unfold desc; lia|].
      revert Hall. apply Forall_impl. unfold desc. lia.
    + apply Nat.ltb_ge in E. constructor; [auto|].
      apply (Permutation_Forall (Permutation_sym (insert_desc_perm x l))).
      constructor; trivial.
Qed.

Lemma sort_desc_sorted (c : counter) : StronglySorted desc (sort_desc c).
Proof.
  unfold sort_desc.
  assert (Hgen : forall acc,
             StronglySorted desc acc ->
             StronglySorted desc
               (fold_left (fun a x => insert_desc x a) c acc)).
  { induction c as [|x c IH]; intros acc Hacc; simpl; trivial.
    apply IH. now apply insert_desc_sorted. }
  apply Hgen. constructor.
Qed.

Lemma StronglySorted_app_inv {A} (R : A -> A -> Prop) (l1 l2 : list A) :
  StronglySorted R (l1 ++ l2) ->
  StronglySorted R l1 /\
  forall x y, In x l1 -> In y l2 -> R x y.
Proof.
  induction l1 as [|a l1 IH]; simpl; intros Hs.
  - split; [constructor | intros x y []].
  - inversion Hs as [|? ? Hs' Hall]; subst.
    destruct (IH Hs') as [Hs1 Hcross]. split.
    + constructor; trivial.
      apply Forall_app in Hall. tauto.
    + intros x y [<-|Hx] Hy; [|auto].
      rewrite Forall_forall in Hall. apply Hall, in_or_app. now right.
Qed.

Lemma NoDup_app_l {A} (l1 l2 : list A) : NoDup (l1 ++ l2) -> NoDup l1.
Proof.
  induction l1 as [|a l1 IH]; simpl; intros Hnd; [constructor|].
  inversion Hnd as [|? ? Hnotin Hnd']; subst.
  constructor; [|auto]. intros Hin. apply Hnotin, in_or_app. now left.
Qed.

(** [most_common n] of a counter: at most [n] items of the counter,
    keys all different, largest count first, and no item left out has
    a larger count than one taken; fewer than [n] only when nothing is
    left out. *)
Lemma most_common_spec (n : nat) (c : counter) :
  well_formed c ->
  List.length (most_common n c) = Nat.min n (List.length c) /\
  NoDup (map fst (most_common n c)) /\
  StronglySorted desc (most_common n c) /\
  (forall t m, In (t, m) (most_common n c) -> count_of c t = m /\ 0 < m) /\
  (forall t, 0 < count_of c t -> ~ In t (map fst (most_common n c)) ->
     forall x, In x (most_common n c) -> count_of c t <= snd x).
Proof.
  intros [Hnd Hpos]. unfold most_common.
  pose proof (sort_desc_perm c) as Hperm.
  pose proof (sort_desc_sorted c) as Hsorted.
  rewrite <- (firstn_skipn n (sort_desc c)) in Hsorted.
  apply StronglySorted_app_inv in Hsorted.
  destruct Hsorted as [Hs Hcross].
  assert (Hnd' : NoDup (map fst (sort_desc c))).
  { apply (Permutation_NoDup
             (Permutation_map fst (Permutation_sym Hperm)) Hnd). }
  assert (Hin : forall x, In x (firstn n (sort_desc c)) -> In x c).
  { intros x Hx. apply (Permutation_in _ Hperm).
    rewrite <- (firstn_skipn n (sort_desc c)). apply in_or_app. now left. }
  repeat apply conj.
  - rewrite length_firstn. now rewrite (Permutation_length Hperm).
  - rewrite <- (firstn_skipn n (sort_desc c)), map_app in Hnd'.
    now apply NoDup_app_l in Hnd'.
  - exact Hs.
  - intros t m Htm. apply Hin in Htm. split; [|eauto].
    unfold count_of. apply (lookup_In t m c Hnd) in Htm. now rewrite Htm.
  - intros t Ht Hnot x Hx. unfold count_of in *.
    destruct (lookup t c) as [m|] eqn:Et; [|lia].
    apply (lookup_In t m c Hnd) in Et.
    apply (Permutation_in _ (Permutation_sym Hperm)) in Et.
    rewrite <- (firstn_skipn n (sort_desc c)) in Et.
    apply in_app_or in Et. destruct Et as [Et|Et].
    + exfalso. apply Hnot. now apply (in_map fst) in Et.
    + apply (Hcross x (t, m) Hx Et).
Qed.

(** A key that [most_common n] leaves out shows that it took [n]
    items. *)
Lemma most_common_left_out (n : nat) (c : counter) (t : string) :
  well_formed c ->
  0 < count_of c t ->
  ~ In t (map fst (most_common n c)) ->
  List.length (most_common n c) = n.
Proof.
  intros Hwf Ht Hnot.
  destruct (most_common_spec n c Hwf) as [Hlen _]. rewrite Hlen.
  destruct (Nat.le_gt_cases n (List.length c)) as [Hle|Hgt]; [lia|].
  exfalso. apply Hnot. unfold most_common.
  rewrite firstn_all2
    by (rewrite (Permutation_length (sort_desc_perm c)); lia).
  apply (Permutation_in _
           (Permutation_map fst (Permutation_sym (sort_desc_perm c)))).
  now apply keys_positive.
Qed.

End CounterFacts.

Module AnalysisFacts.
Import Py PyCounter PyNumFacts CounterFacts AnalysisScriptMore.
Import Sorted.

(** Equality of two branches. *)
Definition category_eqb (a b : category) : bool :=
  match a, b with
  | SharedResource, SharedResource
  | TimingIssue, TimingIssue
  | OrderDependency, OrderDependency
  | OtherIssue, OtherIssue => true
  | _, _ => false
  end.

(** The tests of a list that take the branch [c]. *)
Definition of_category (c : category) (tests : list string) : list string :=
  filter (fun t => category_eqb (category_of t) c) tests.

Lemma categorize_fold (tests : list string) :
  forall c,
    let c' := fold_left categorize_test tests c in
    shared_resources c' =
      shared_resources c ++ of_category SharedResource tests /\
    timing_issues c' = timing_issues c ++ of_category TimingIssue tests /\
    order_dependencies c' =
      order_dependencies c ++ of_category OrderDependency tests /\
    other_issues c' = other_issues c ++ of_category OtherIssue tests.
Proof.
  unfold of_category.
  induction tests as [|t tests IH]; intros c; cbn [fold_left filter].
  - now rewrite !app_nil_r.
  - destruct (IH (categorize_test c t)) as [H1 [H2 [H3 H4]]].
    cbv zeta in *. rewrite H1, H2, H3, H4. clear.
    unfold categorize_test.
    destruct (category_of t);
      cbn [category_eqb shared_resources timing_issues order_dependencies
           other_issues];
      rewrite <- ?app_assoc; repeat split.
Qed.

(** X7. [categorize_test_failures] puts every test in one of its four lists
    and keeps the order of the tests in each: a name with [global],
    [state] or [resource] in it, in upper or lower case, is a shared
    resource whatever else it has; then [time], [wait], [sleep] make a
    timing issue; then [order], [sequence], [depend] an order
    dependency. *)
Theorem categorize_test_failures_partition (tests : list string) :
  let c := categorize_test_failures tests in
  shared_resources c = of_category SharedResource tests /\
  timing_issues c = of_category TimingIssue tests /\
  order_dependencies c = of_category OrderDependency tests /\
  other_issues c = of_category OtherIssue tests /\
  List.length (shared_resources c) + List.length (timing_issues c)
  + List.length (order_dependencies c) + List.length (other_issues c)
  = List.length tests /\
  forall t,
    In t tests ->
    (In t (shared_resources c) <->
       PyStr.contains "global" (PyStrMore.lower t)
       || PyStr.contains "state" (PyStrMore.lower t)
       || PyStr.contains "resource" (PyStrMore.lower t) = true) /\
    (In t (timing_issues c) <->
       ~ In t (shared_resources c) /\
       PyStr.contains "time" (PyStrMore.lower t)
       || PyStr.contains "wait" (PyStrMore.lower t)
       || PyStr.contains "sleep" (PyStrMore.lower t) = true) /\
    (In t (order_dependencies c) <->
       ~ In t (shared_resources c) /\ ~ In t (timing_issues c) /\
       PyStr.contains "order" (PyStrMore.lower t)
       || PyStr.contains "sequence" (PyStrMore.lower t)
       || PyStr.contains "depend" (PyStrMore.lower t) = true) /\
    (In t (other_issues c) <->
       ~ In t (shared_resources c) /\ ~ In t (timing_issues c) /\
       ~ In t (order_dependencies c)).
Proof.
  cbv zeta. unfold categorize_test_failures.
  destruct (categorize_fold tests
              {| shared_resources := []; timing_issues := [];
                 order_dependencies := []; other_issues := [] |})
    as [H1 [H2 [H3 H4]]].
  cbv zeta in *. cbn [shared_resources timing_issues order_dependencies
                       other_issues app] in *.
  rewrite H1, H2, H3, H4. clear.
  repeat apply conj; trivial.
  - unfold of_category. induction tests as [|t tests IH]; trivial.
    cbn [filter List.length].
    destruct (category_of t); cbn [category_eqb List.length]; lia.
  - intros t Hin. unfold of_category. rewrite !filter_In.
    unfold category_of.
    destruct (PyStr.contains "global" (PyStrMore.lower t)
              || PyStr.contains "state" (PyStrMore.lower t)
              || PyStr.contains "resource" (PyStrMore.lower t));
      [cbn [category_eqb]; intuition congruence|].
    destruct (PyStr.contains "time" (PyStrMore.lower t)
              || PyStr.contains "wait" (PyStrMore.lower t)
              || PyStr.contains "sleep" (PyStrMore.lower t));
      [cbn [category_eqb]; intuition congruence|].
    destruct (PyStr.contains "order" (PyStrMore.lower t)
              || PyStr.contains "sequence" (PyStrMore.lower t)
              || PyStr.contains "depend" (PyStrMore.lower t));
      cbn [category_eqb]; intuition congruence.
Qed.

Section Facts.
Context {F : Type} `{PyFloat F}.
Variable sort_by_rate : list (string * F) -> list (string * F).

(** How often the test [t] is in the failure lists of the results. *)
Definition occurrences (t : string) (results : @parallel_results F) : nat :=
  count_occ string_dec (concat (failure_lists results)) t.

Lemma failure_rates_empty (results : @parallel_results F) :
  (forall n m, (0 <= n <= m)%Z -> (0 < m)%Z -> f_div_int n m <> None) ->
  (Exists (fun r => ParallelTestScript.failures
                      (ParallelTestScript.base r) = []) results ->
   failure_rates results = Raise ZeroDivisionError) /\
  (Forall (fun r => ParallelTestScript.failures
                      (ParallelTestScript.base r) <> []) results ->
   exists rates,
     failure_rates results = Ok rates /\
     map fst rates =
     map (fun r => config_str (ParallelTestScript.r_config
                                 (ParallelTestScript.base r))) results).
Proof.
  intros Hdiv.
  assert (Hrate : forall l : list nat,
             l <> [] -> exists q, failure_rate l = Ok q).
  { intros l Hl. unfold failure_rate, num_truediv.
    destruct (Z.eqb_spec (Z.of_nat (List.length l)) 0) as [E|E].
    - destruct l; [congruence | simpl in E; lia].
    - destruct (f_div_int _ _) as [q|] eqn:Eq; [eauto|].
      exfalso. revert Eq. apply Hdiv; [|lia].
      pose proof (filter_length_le (fun x => 0 <? x) l). lia. }
  induction results as [|r results [IHe IHf]]; split.
  - intros Hex. inversion Hex.
  - intros _. exists []. split; reflexivity.
  - intros Hex. cbn [failure_rates].
    destruct (ParallelTestScript.failures (ParallelTestScript.base r))
      as [|x l] eqn:Er; [reflexivity|].
    destruct (Hrate (x :: l)) as [q ->]; [discriminate|]. cbn [bind].
    inversion Hex as [? ? Hr|? ? Hex']; subst; [congruence|].
    now rewrite (IHe Hex').
  - intros Hall. inversion Hall as [|? ? Hr Hall']; subst.
    cbn [failure_rates].
    destruct (Hrate _ Hr) as [q ->]. cbn [bind].
    destruct (IHf Hall') as [rates [-> Hkeys]]. cbn [bind].
    eexists. split; [reflexivity|]. cbn [map fst]. now rewrite Hkeys.
Qed.

(** X8. [analyze_parallel_failures]: a result whose [failures] list is
    empty makes it divide by zero. Otherwise it returns;
    [all_failing_tests] has each test of the failure lists once, and
    [most_common_failures] has at most ten of them, each with the
    number of times it is in the failure lists, the largest number
    first, and a test that is left out has no larger number than one
    that is listed. *)
Theorem analyze_parallel_failures_counts (results : @parallel_results F) :
  (forall n m, (0 <= n <= m)%Z -> (0 < m)%Z -> f_div_int n m <> None) ->
  (Exists (fun r => ParallelTestScript.failures
                      (ParallelTestScript.base r) = []) results ->
   analyze_parallel_failures sort_by_rate results =
   Raise ZeroDivisionError) /\
  (Forall (fun r => ParallelTestScript.failures
                      (ParallelTestScript.base r) <> []) results ->
   exists fa,
     analyze_parallel_failures sort_by_rate results = Ok fa /\
     NoDup (all_failing_tests fa) /\
     (forall t, In t (all_failing_tests fa) <-> 0 < occurrences t results) /\
     List.length (most_common_failures fa) =
       Nat.min 10 (List.length (all_failing_tests fa)) /\
     NoDup (map fst (most_common_failures fa)) /\
     StronglySorted desc (most_common_failures fa) /\
     (forall t n, In (t, n) (most_common_failures fa) ->
                  n = occurrences t results /\ 0 < n) /\
     (forall t x, 0 < occurrences t results ->
                  ~ In t (map fst (most_common_failures fa)) ->
                  In x (most_common_failures fa) ->
                  occurrences t results <= snd x)).
Proof.
  intros Hdiv. destruct (failure_rates_empty results Hdiv) as [He Hf].
  unfold analyze_parallel_failures. split.
  - intros Hex. now rewrite (He Hex).
  - intros Hall. destruct (Hf Hall) as [rates [-> _]]. cbn [bind].
    eexists. split; [reflexivity|].
    cbn [all_failing_tests most_common_failures].
    set (lists := failure_lists results).
    destruct (ParallelFlakyFacts.fold_set_update_spec lists []
                (NoDup_nil _)) as [Hnd Hin].
    destruct (fold_counter_update_spec lists [] well_formed_nil)
      as [Hwf Hcount].
    destruct (most_common_spec 10 _ Hwf) as [Hlen [Hk [Hs [Hitems Hrest]]]].
    assert (Hocc : forall t,
               count_of (fold_left counter_update lists []) t =
               occurrences t results).
    { intros t. rewrite Hcount. reflexivity. }
    assert (Hmem : forall t,
               In t (fold_left ParallelTestScript.set_update lists []) <->
               0 < occurrences t results).
    { intros t. rewrite Hin. unfold occurrences. fold lists.
      pose proof (count_occ_In string_dec (concat lists) t) as Hc.
      unfold gt in Hc. rewrite <- Hc, in_concat.
      split; [intros [[]|[l [Hl Ht]]]; eauto | intros [l [Hl Ht]]; eauto]. }
    repeat apply conj; trivial.
    + rewrite Hlen. f_equal.
      (* the counter and the set have the same keys *)
      rewrite <- (length_map fst).
      apply Permutation.Permutation_length,
        Permutation.NoDup_Permutation; [apply Hwf | trivial |].
      intros t. now rewrite (keys_positive _ t Hwf), Hocc, Hmem.
    + intros t n Htn. destruct (Hitems t n Htn) as [<- Hpos].
      split; [apply Hocc | trivial].
    + intros t x Ht Hnot Hx. rewrite <- Hocc. apply Hrest; trivial.
      now rewrite Hocc.
Qed.

End Facts.

End AnalysisFacts.

(** ** The most frequent CWEs *)

Module FrequentCwesFacts.
Import Py PyCounter DictFacts CounterFacts AnalyzeResultsMore.

Lemma store_fresh {V} (k : string) (v : V) (d : list (string * V)) :
  lookup k d = None -> store k v d = d ++ [(k, v)].
Proof.
  induction d as [|[k' v'] d IH]; simpl; trivial.
  destruct (String.eqb k k'); [discriminate|].
  intros Hk. now rewrite IH.
Qed.

Lemma lookup_app_None {V} (k : string) (d1 d2 : list (string * V)) :
  lookup k (d1 ++ d2) = None <-> lookup k d1 = None /\ lookup k d2 = None.
Proof.
  rewrite !lookup_None_keys, map_app, in_app_iff. tauto.
Qed.

(** A loop of assignments to keys that are new and all different
    appends one item for each. *)
Lemma fold_store_fresh {A V} (key : A -> string) (val : A -> V)
  (l : list A) :
  forall d,
    NoDup (map key l) ->
    (forall x, In x l -> lookup (key x) d = None) ->
    fold_left (fun d x => store (key x) (val x) d) l d =
    d ++ map (fun x => (key x, val x)) l.
Proof.
  induction l as [|x l IH]; intros d Hnd Hnew; cbn [fold_left map].
  - now rewrite app_nil_r.
  - inversion Hnd as [|? ? Hx Hnd']; subst.
    rewrite (store_fresh (key x) (val x) d) by (apply Hnew; now left).
    rewrite IH; trivial.
    + now rewrite <- app_assoc.
    + intros y Hy. apply lookup_app_None. split; [apply Hnew; now right|].
      cbn [lookup]. destruct (String.eqb_spec (key y) (key x)) as [E|E];
        trivial.
      exfalso. apply Hx. rewrite <- E. now apply in_map.
Qed.

Lemma fold_left_pointwise {A B} (f g : A -> B -> A) (l : list B) :
  (forall a x, f a x = g a x) ->
  forall a, fold_left f l a = fold_left g l a.
Proof.
  intros Hfg. induction l as [|x l IH]; intros a; simpl; trivial.
  now rewrite Hfg, IH.
Qed.

Lemma extend_all_concat (column : list (list string)) :
  forall l, extend_all l column = l ++ concat column.
Proof.
  unfold extend_all.
  induction column as [|cwes column IH]; intros l; simpl.
  - now rewrite app_nil_r.
  - now rewrite IH, app_assoc.
Qed.

(** The CWEs of the rows of one repository, and of all of them. *)
Definition cwes_of (item : string * list (list string)) : list string :=
  concat (snd item).

Definition all_cwes (repositories_data : repositories_cwes) : list string :=
  concat (map cwes_of repositories_data).

Lemma collect_cwes_lists (repositories_data : repositories_cwes) :
  NoDup (map fst repositories_data) ->
  collect_cwes repositories_data =
  (map (fun item => (fst item, cwes_of item)) repositories_data,
   all_cwes repositories_data).
Proof.
  unfold collect_cwes, all_cwes.
  assert (Hgen : forall data d acc,
             NoDup (map fst data) ->
             (forall x : string * list (list string),
                 In x data -> lookup (fst x) d = None) ->
             fold_left
               (fun st (item : string * list (list string)) =>
                  (store (fst item) (extend_all [] (snd item)) (fst st),
                   extend_all (snd st) (snd item)))
               data (d, acc) =
             (d ++ map (fun item => (fst item, cwes_of item)) data,
              acc ++ concat (map cwes_of data))).
  { induction data as [|x data IH]; intros d acc Hnd Hnew;
      cbn [fold_left map concat fst snd].
    - now rewrite !app_nil_r.
    - inversion Hnd as [|? ? Hx Hnd']; subst.
      rewrite (store_fresh (fst x)) by (apply Hnew; now left).
      rewrite !extend_all_concat. cbn [app].
      rewrite IH; trivial.
      + unfold cwes_of. now rewrite <- !app_assoc.
      + intros y Hy. apply lookup_app_None.
        split; [apply Hnew; now right|].
        cbn [lookup]. destruct (String.eqb_spec (fst y) (fst x)) as [E|E];
          trivial.
        exfalso. apply Hx. rewrite <- E. now apply in_map. }
  intros Hnd. apply (Hgen repositories_data [] [] Hnd). reflexivity.
Qed.

(** The key of a CWE in the summary. *)
Definition cwe_key (item : string * nat) : string * nat :=
  ("CWE-" ++ fst item, snd item)%string.

Lemma append_inj (p a b : string) : (p ++ a = p ++ b)%string -> a = b.
Proof.
  induction p as [|c p IH]; simpl; trivial.
  intros [= Heq]. auto.
Qed.

Lemma cwe_dict_map (top : counter) :
  NoDup (map fst top) -> cwe_dict top = map cwe_key top.
Proof.
  intros Hnd. unfold cwe_dict.
  rewrite (fold_store_fresh (fun item => ("CWE-" ++ fst item)%string) snd);
    trivial.
  clear - Hnd. induction top as [|x top IH]; cbn [map]; [constructor|].
  inversion Hnd as [|? ? Hx Hnd']; subst.
  constructor; [|auto].
  rewrite in_map_iff. intros [y [Hy Hin]].
  apply append_inj in Hy. apply Hx. rewrite <- Hy. now apply in_map.
Qed.

Lemma firstn_min_length {A} (l : list A) :
  forall n, firstn (Nat.min n (List.length l)) l = firstn n l.
Proof.
  induction l as [|x l IH]; intros [|n]; cbn [List.length Nat.min firstn];
    trivial.
  now rewrite IH.
Qed.

(** [c.most_common(min(n, len(c)))] is [c.most_common(n)]. *)
Lemma most_common_min (n : nat) (c : counter) :
  most_common (Nat.min n (List.length c)) c = most_common n c.
Proof.
  unfold most_common.
  rewrite <- (Permutation.Permutation_length (sort_desc_perm c)).
  apply firstn_min_length.
Qed.

(** The dict of one repository in the summary. *)
Definition top_of (cwes : list string) : list (string * nat) :=
  match cwes with
  | [] => []
  | _ => map cwe_key (most_common 5 (counter_update [] cwes))
  end.

Lemma counter_of_list (l : list string) :
  well_formed (counter_update [] l) /\
  forall t, count_of (counter_update [] l) t = count_occ string_dec l t.
Proof.
  destruct (counter_update_spec l [] well_formed_nil) as [Hwf Hcount].
  split; trivial.
Qed.

Lemma repository_tops_map (repo_cwes : list (string * list string)) :
  NoDup (map fst repo_cwes) ->
  repository_tops repo_cwes =
  map (fun item => (fst item, top_of (snd item))) repo_cwes.
Proof.
  intros Hnd. unfold repository_tops.
  rewrite (fold_left_pointwise _
             (fun d item => store (fst item) (top_of (snd item)) d)).
  - now rewrite (fold_store_fresh fst (fun item => top_of (snd item))).
  - intros d [name cwes]. cbn [fst snd]. unfold top_of.
    destruct cwes as [|c cwes]; trivial.
    rewrite cwe_dict_map; trivial.
    apply most_common_spec, counter_of_list.
Qed.

(** The summary, for repositories of different names. *)
Lemma answer_rq3_maps (repositories_data : repositories_cwes) :
  NoDup (map fst repositories_data) ->
  answer_rq3 repositories_data =
  {| overall_top_cwes :=
       map cwe_key
         (most_common 10 (counter_update [] (all_cwes repositories_data)));
     repository_top_cwes :=
       map (fun item => (fst item, top_of (cwes_of item)))
         repositories_data |}.
Proof.
  intros Hnd. unfold answer_rq3.
  rewrite (collect_cwes_lists _ Hnd).
  destruct (all_cwes repositories_data) as [|c l] eqn:Eall.
  - f_equal.
    rewrite (fold_store_fresh (fun name : string => name)
               (fun _ => @nil (string * nat)));
      [|now rewrite map_id|reflexivity].
    cbn [app]. rewrite map_map. apply map_ext_in.
    intros item Hin. f_equal.
    (* no repository has a CWE *)
    assert (Hnil : cwes_of item = []).
    { unfold all_cwes in Eall.
      destruct (cwes_of item) as [|x r] eqn:Ec; trivial.
      assert (Hx : In x (concat (map cwes_of repositories_data))).
      { apply in_concat. exists (cwes_of item). split.
        - now apply in_map.
        - rewrite Ec. now left. }
      now rewrite Eall in Hx. }
    now rewrite Hnil.
  - destruct (counter_of_list (c :: l)) as [Hwf _].
    f_equal.
    + rewrite cwe_dict_map by (apply most_common_spec, Hwf).
      f_equal. apply most_common_min.
    + rewrite repository_tops_map.
      * now rewrite map_map.
      * now rewrite map_map, (map_ext _ fst) by reflexivity.
Qed.

Lemma In_cwe_keys (top : counter) (key : string) (n : nat) :
  In (key, n) (map cwe_key top) ->
  exists cwe, key = ("CWE-" ++ cwe)%string /\ In (cwe, n) top.
Proof.
  rewrite in_map_iff. intros [[cwe m] [[= <- <-] Hin]].
  exists cwe. split; [reflexivity | exact Hin].
Qed.

Lemma keys_cwe_keys (top : counter) :
  map fst (map cwe_key top) =
  map (fun cwe => ("CWE-" ++ cwe)%string) (map fst top).
Proof. now rewrite !map_map. Qed.

Lemma NoDup_cwe_keys (top : counter) :
  NoDup (map fst top) -> NoDup (map fst (map cwe_key top)).
Proof.
  rewrite keys_cwe_keys. generalize (map fst top). intros l Hnd.
  induction l as [|x l IH]; cbn [map]; [constructor|].
  inversion Hnd as [|? ? Hx Hnd']; subst.
  constructor; [|auto].
  rewrite in_map_iff. intros [y [Hy Hin]].
  apply append_inj in Hy. now subst.
Qed.

Lemma lookup_cwe_keys_None (top : counter) (cwe : string) :
  lookup ("CWE-" ++ cwe)%string (map cwe_key top) = None ->
  ~ In cwe (map fst top).
Proof.
  rewrite lookup_None_keys, keys_cwe_keys. intros Hnot Hin.
  apply Hnot. now apply in_map.
Qed.

Lemma count_occ_segment (l : list string) (ls : list (list string))
  (t : string) :
  In l ls ->
  count_occ string_dec l t <= count_occ string_dec (concat ls) t.
Proof.
  intros Hin. apply in_split in Hin. destruct Hin as [l1 [l2 ->]].
  rewrite concat_app. cbn [concat]. rewrite !count_occ_app. lia.
Qed.

(** The entries of the dict that is made from [most_common n] of the
    counter of a list. *)
Lemma top_entries (n : nat) (l : list string) :
  let top := map cwe_key (most_common n (counter_update [] l)) in
  List.length top <= n /\
  NoDup (map fst top) /\
  (forall key m,
     In (key, m) top ->
     exists cwe, key = ("CWE-" ++ cwe)%string /\
                 m = count_occ string_dec l cwe /\ 0 < m) /\
  (forall cwe,
     In cwe l ->
     lookup ("CWE-" ++ cwe)%string top = None ->
     List.length top = n /\
     forall key m, In (key, m) top -> count_occ string_dec l cwe <= m).
Proof.
  cbv zeta. destruct (counter_of_list l) as [Hwf Hcount].
  destruct (most_common_spec n _ Hwf) as [Hlen [Hk [_ [Hitems Hrest]]]].
  repeat apply conj.
  - rewrite length_map, Hlen. lia.
  - now apply NoDup_cwe_keys.
  - intros key m Hin. apply In_cwe_keys in Hin.
    destruct Hin as [cwe [-> Hin]]. exists cwe. split; trivial.
    destruct (Hitems cwe m Hin) as [<- Hpos]. now rewrite <- Hcount.
  - intros cwe Hin Hnone. apply lookup_cwe_keys_None in Hnone.
    assert (Hpos : 0 < count_of (counter_update [] l) cwe).
    { rewrite Hcount. now apply (count_occ_In string_dec). }
    split.
    + rewrite length_map. now apply (most_common_left_out n _ cwe).
    + intros key m Hkm. apply In_cwe_keys in Hkm.
      destruct Hkm as [cwe' [-> Hkm]]. rewrite <- Hcount.
      apply (Hrest cwe Hpos Hnone (cwe', m) Hkm).
Qed.

(** X9. [answer_rq3], for repositories of different names: every
    repository has its dict in [repository_top_cwes], in the order of
    the repositories. [overall_top_cwes] has at most ten keys, each
    [CWE-] and a CWE with the number of times that the CWE is in the
    rows of all repositories; a CWE that is left out is never more
    frequent than one that is listed, and then ten are listed. The dict
    of a repository has at most five keys, with the numbers in the rows
    of that repository, which are at most the overall numbers; it is
    empty for a repository without a CWE. *)
Theorem answer_rq3_top_cwes (repositories_data : repositories_cwes) :
  NoDup (map fst repositories_data) ->
  let summary := answer_rq3 repositories_data in
  let all := all_cwes repositories_data in
  map fst (repository_top_cwes summary) = map fst repositories_data /\
  List.length (overall_top_cwes summary) <= 10 /\
  NoDup (map fst (overall_top_cwes summary)) /\
  (forall key n,
     In (key, n) (overall_top_cwes summary) ->
     exists cwe, key = ("CWE-" ++ cwe)%string /\
                 n = count_occ string_dec all cwe /\ 0 < n) /\
  (forall cwe,
     In cwe all ->
     lookup ("CWE-" ++ cwe)%string (overall_top_cwes summary) = None ->
     List.length (overall_top_cwes summary) = 10 /\
     forall key n, In (key, n) (overall_top_cwes summary) ->
                   count_occ string_dec all cwe <= n) /\
  (forall repo column,
     In (repo, column) repositories_data ->
     exists top,
       lookup repo (repository_top_cwes summary) = Some top /\
       List.length top <= 5 /\
       (forall key n,
          In (key, n) top ->
          exists cwe, key = ("CWE-" ++ cwe)%string /\
                      n = count_occ string_dec (concat column) cwe /\
                      0 < n <= count_occ string_dec all cwe) /\
       (concat column = [] -> top = [])).
Proof.
  intros Hnd. cbv zeta. rewrite (answer_rq3_maps _ Hnd).
  cbn [overall_top_cwes repository_top_cwes].
  destruct (top_entries 10 (all_cwes repositories_data))
    as [Hlen [Hk [Hitems Hrest]]].
  repeat apply conj; trivial.
  - now rewrite map_map.
  - intros repo column Hin. exists (top_of (concat column)).
    repeat apply conj.
    + apply lookup_In.
      * now rewrite map_map.
      * apply in_map_iff. exists (repo, column). split; trivial.
    + unfold top_of. destruct (concat column) as [|c l]; [simpl; lia|].
      apply (top_entries 5 (c :: l)).
    + intros key n Hkn. unfold top_of in Hkn.
      destruct (concat column) as [|c l] eqn:Ec; [destruct Hkn|].
      destruct (top_entries 5 (c :: l)) as [_ [_ [Hi _]]].
      destruct (Hi key n Hkn) as [cwe [-> [-> Hpos]]].
      exists cwe. repeat split; trivial.
      rewrite <- Ec. unfold all_cwes.
      apply count_occ_segment.
      apply in_map_iff. exists (repo, column). split; trivial.
    + now intros ->.
Qed.

End FrequentCwesFacts.

(** ** The commits that introduce and fix issues *)

Module CommitCountFacts.
Import Py PyNumFacts DictFacts AnalyzeResults AnalyzeResultsMore.
Import SeverityChangeFacts.

(** A frame of [n] rows. *)
Definition rows (n : nat) (df : dataframe) : Prop :=
  Forall (fun c => List.length (snd c) = n) df.

(** The count of a row is above the count of the row before it. *)
Definition above (prev cur : option Z) : bool :=
  match prev, cur with
  | Some p, Some c => Z.ltb p c
  | _, _ => false
  end.

(** The rows of [s], after a row [prev], that pass [test] with the row
    before them. *)
Fixpoint count_steps (test : option Z -> option Z -> bool)
  (prev : option Z) (s : series) : nat :=
  match s with
  | [] => 0
  | x :: t => (if test prev x then 1 else 0) + count_steps test x t
  end.

(** The rows whose count is above the count of the row before. *)
Definition rising_rows (s : series) : nat :=
  match s with
  | [] => 0
  | x :: t => count_steps above x t
  end.

(** The rows whose count is below the count of the row before. *)
Definition falling_rows (s : series) : nat :=
  match s with
  | [] => 0
  | x :: t => count_steps (fun prev cur => above cur prev) x t
  end.

Lemma rows_store (n : nat) (k : string) (s : series) (df : dataframe) :
  rows n df -> List.length s = n -> rows n (store k s df).
Proof.
  unfold rows. intros Hdf Hs.
  induction df as [|[k' s'] df IH]; simpl.
  - now constructor.
  - inversion Hdf as [|? ? Hs' Hdf']; subst.
    destruct (String.eqb k k'); constructor; auto.
Qed.

Lemma rows_lookup (n : nat) (k : string) (s : series) (df : dataframe) :
  rows n df -> lookup k df = Some s -> List.length s = n.
Proof.
  unfold rows. induction df as [|[k' s'] df IH]; simpl; [discriminate|].
  intros Hdf. inversion Hdf as [|? ? Hs' Hdf']; subst.
  destruct (String.eqb k k'); [now intros [= <-] | auto].
Qed.

Lemma add_changes_rows (n : nat) (level : string) (df df' : dataframe) :
  rows n df -> add_changes level df = Ok df' -> rows n df'.
Proof.
  intros Hdf. unfold add_changes, column.
  destruct (lookup (level ++ "_severity") df) as [counts|] eqn:Ec;
    [|discriminate].
  pose proof (rows_lookup n _ _ _ Hdf Ec) as Hn.
  rewrite lookup_store_eq, lookup_store.
  assert (H1 : rows n (store (level ++ "_severity_change") (diff counts) df))
    by (apply rows_store; [trivial | now rewrite length_diff]).
  destruct (String.eqb _ _).
  - intros [= <-]. apply rows_store.
    + apply rows_store; trivial.
      now rewrite length_map, length_diff.
    + now rewrite !length_map, length_diff.
  - rewrite lookup_store_eq. intros [= <-]. apply rows_store.
    + apply rows_store; trivial.
      now rewrite length_map, length_diff.
    + now rewrite length_map, length_diff.
Qed.

Lemma len_frame_rows (n : nat) (k : string) (s : series) (df : dataframe) :
  rows n df -> lookup k df = Some s -> len_frame df = n.
Proof.
  destruct df as [|[k' s'] df]; [discriminate|].
  intros Hdf _. now inversion Hdf.
Qed.

Lemma introduced_above (int64 : bool) (prev cur : option Z) :
  count_in_range prev -> count_in_range cur ->
  gt0 (max0 (cell_sub int64 cur prev)) = above prev cur.
Proof.
  destruct prev as [p|], cur as [c|]; cbn [count_in_range]; intros Hp Hc;
    trivial.
  rewrite (cell_sub_in_range int64 p c Hp Hc). clear Hp Hc.
  cbn [max0 above gt0].
  destruct (Z.ltb_spec 0 (c - p)), (Z.ltb_spec p c); cbn [gt0]; trivial;
    try lia; destruct (Z.ltb_spec 0 (c - p)); trivial; lia.
Qed.

Lemma fixed_above (int64 : bool) (prev cur : option Z) :
  count_in_range prev -> count_in_range cur ->
  gt0 (max0 (neg (cell_sub int64 cur prev))) = above cur prev.
Proof.
  destruct prev as [p|], cur as [c|]; cbn [count_in_range]; intros Hp Hc;
    trivial.
  rewrite (cell_sub_in_range int64 p c Hp Hc). clear Hp Hc.
  cbn [max0 neg option_map above gt0].
  destruct (Z.ltb_spec 0 (- (c - p))), (Z.ltb_spec c p); cbn [gt0]; trivial;
    try lia; destruct (Z.ltb_spec 0 (- (c - p))); trivial; lia.
Qed.

Lemma count_introduced (s : series) :
  Forall count_in_range s ->
  List.length (filter gt0 (map max0 (diff s))) = rising_rows s.
Proof.
  destruct s as [|x t]; cbn [diff rising_rows map filter max0 gt0];
    trivial.
  generalize (is_int64 (x :: t)). intros int64 Hall.
  change (0 <? 0)%Z with false. cbv iota.
  revert x Hall. induction t as [|y t IH]; intros x Hall;
    cbn [diff_from map filter count_steps]; trivial.
  inversion Hall as [|? ? Hx Hrest]; subst.
  inversion Hrest as [|? ? Hy _]; subst.
  rewrite (introduced_above int64 x y Hx Hy).
  destruct (above x y); cbn [List.length]; now rewrite (IH y Hrest).
Qed.

Lemma count_fixed (s : series) :
  Forall count_in_range s ->
  List.length (filter gt0 (map (fun x => max0 (neg x)) (diff s))) =
  falling_rows s.
Proof.
  destruct s as [|x t];
    cbn [diff falling_rows map filter max0 neg option_map gt0]; trivial.
  generalize (is_int64 (x :: t)). intros int64 Hall.
  change (0 <? 0)%Z with false. cbv iota.
  revert x Hall. induction t as [|y t IH]; intros x Hall;
    cbn [diff_from map filter count_steps]; trivial.
  inversion Hall as [|? ? Hx Hrest]; subst.
  inversion Hrest as [|? ? Hy _]; subst.
  rewrite (fixed_above int64 x y Hx Hy).
  destruct (above y x); cbn [List.length]; now rewrite (IH y Hrest).
Qed.

Lemma rising_falling_bound (s : series) :
  rising_rows s + falling_rows s <= List.length s - 1.
Proof.
  destruct s as [|x t]; simpl; [lia|]. rewrite Nat.sub_0_r.
  revert x. induction t as [|y t IH]; intros x; cbn [count_steps List.length];
    [lia|].
  specialize (IH y).
  assert (Hex : (if above x y then 1 else 0) + (if above y x then 1 else 0)
                <= 1).
  { destruct x as [p|], y as [c|]; simpl; try lia.
    destruct (Z.ltb_spec p c), (Z.ltb_spec c p); lia. }
  lia.
Qed.

(** X10. The counts of [answer_rq1] for a frame of [n] rows with the column
    [high_severity], whose counts are between 0 and 2^53 (or NaN):
    [n] commits in all; a commit introduces issues when its count is
    above the count of the commit before it, and fixes issues when it
    is below; the first commit does neither and no commit does both, so
    the two counts together are at most [n - 1]. *)
Theorem answer_rq1_commit_counts (df : dataframe) (high : series)
  (n : nat) :
  lookup "high_severity" df = Some high ->
  rows n df ->
  Forall count_in_range high ->
  exists counts,
    answer_rq1_counts df = Ok counts /\
    total_commits counts = n /\
    commits_introducing_vulnerabilities counts = rising_rows high /\
    commits_fixing_vulnerabilities counts = falling_rows high /\
    commits_introducing_vulnerabilities counts
    + commits_fixing_vulnerabilities counts <= n - 1.
Proof.
  intros Hhigh Hrows Hrange.
  destruct (add_changes_high df high Hhigh) as [df' [Hrun [Hcols _]]].
  destruct Hcols as [_ [Hi Hf]]. cbn [append] in Hi, Hf.
  unfold answer_rq1_counts, answer_rq1_changes. rewrite Hrun. cbn [bind].
  unfold len_positive, column. rewrite Hi, Hf. cbn [bind].
  eexists. split; [reflexivity|].
  cbn [total_commits commits_introducing_vulnerabilities
       commits_fixing_vulnerabilities].
  rewrite (count_introduced high Hrange), (count_fixed high Hrange).
  pose proof (add_changes_rows n _ _ _ Hrows Hrun) as Hrows'.
  repeat split.
  - apply (len_frame_rows n _ _ _ Hrows' Hi).
  - rewrite <- (rows_lookup n _ _ _ Hrows Hhigh).
    apply rising_falling_bound.
Qed.

End CommitCountFacts.

(** ** The coverage of the files in the two suites *)

Module FileCoverageFacts.
Import Py PyNumFacts DictFacts CoverageFacts CoverageComparisonMore.

Section Facts.
Context {F : Type} `{PyFloat F}.
Local Open Scope py_scope.

(** The entry that is made from the data of a file: the two counts of
    its summary, 0 where it has none, and their ratio. *)
Definition summary_entry (file_data : json F) (s : suite_metrics F)
  : Prop :=
  exists d summary,
    file_data = JDict d /\
    field d "summary" (JDict []) = JDict summary /\
    covered_lines s = field summary "covered_lines" (JInt 0) /\
    num_statements s = field summary "num_statements" (JInt 0) /\
    match lookup "num_statements" summary with
    | Some n =>
        is_line_ratio (field summary "covered_lines" (JInt 0)) n
          (coverage s)
    | None => coverage s = PInt 0
    end.

(** The data of the file [p] in the files of a report, unless the file
    is skipped. *)
Definition counted (items : list (string * json F)) (p : string)
  : option (json F) :=
  if is_test_file p then None else lookup p items.

(** One side of the entry of a file. *)
Definition side (file_data : option (json F))
  (s : option (suite_metrics F)) : Prop :=
  match file_data with
  | Some fd => exists m, s = Some m /\ summary_entry fd m
  | None => s = None
  end.

(** The key [improvement] of an entry. *)
Definition improvement_of (m : file_metric F) : Prop :=
  match suite_a m, suite_b m with
  | Some a, Some b =>
      exists d, num_sub (coverage b) (coverage a) = Ok d /\
                improvement m = Some d
  | _, _ => improvement m = None
  end.

Lemma suite_metrics_of_entry (file_data : json F) (s : suite_metrics F) :
  suite_metrics_of file_data = Ok s -> summary_entry file_data s.
Proof.
  unfold suite_metrics_of. intros Hs.
  apply bind_Ok in Hs. destruct Hs as [sm [Hsm Hs]].
  apply py_get_Ok in Hsm. destruct Hsm as [d [-> ->]].
  apply bind_Ok in Hs. destruct Hs as [covered [Hc Hs]].
  apply py_get_Ok in Hc. destruct Hc as [summary [Hsum ->]].
  apply bind_Ok in Hs. destruct Hs as [statements [Hst Hs]].
  apply bind_Ok in Hs. destruct Hs as [n0 [Hn0 Hs]].
  apply bind_Ok in Hs. destruct Hs as [positive [Hpos Hs]].
  apply bind_Ok in Hs. destruct Hs as [cov [Hcov Hs]].
  injection Hs as <-. cbn [covered_lines num_statements coverage].
  exists d, summary. unfold field. rewrite Hsum in *.
  cbn [py_get] in Hst, Hn0, Hcov.
  injection Hst as <-. injection Hn0 as <-.
  repeat split.
  unfold is_line_ratio.
  destruct (lookup "num_statements" summary) as [n|] eqn:En.
  - exists positive. split; trivial. destruct positive.
    + cbn [bind] in Hcov.
      apply bind_Ok in Hcov. destruct Hcov as [q [Hq Hcov]].
      injection Hcov as <-. eauto.
    + now injection Hcov as <-.
  - simpl in Hpos. injection Hpos as <-. now injection Hcov as <-.
Qed.

Lemma suite_metrics_of_no_zero_div (file_data : json F) :
  suite_metrics_of file_data <> Raise ZeroDivisionError.
Proof.
  unfold suite_metrics_of. intros Hc.
  apply bind_Raise in Hc. destruct Hc as [Hc|[summary [_ Hc]]].
  { now apply py_get_no_zero_div in Hc. }
  apply bind_Raise in Hc. destruct Hc as [Hc|[c0 [_ Hc]]].
  { now apply py_get_no_zero_div in Hc. }
  apply bind_Raise in Hc. destruct Hc as [Hc|[s0 [_ Hc]]].
  { now apply py_get_no_zero_div in Hc. }
  apply bind_Raise in Hc. destruct Hc as [Hc|[n0 [Hn0 Hc]]].
  { now apply py_get_no_zero_div in Hc. }
  apply bind_Raise in Hc. destruct Hc as [Hc|[positive [Hpos Hc]]].
  { now apply py_gt0_no_zero_div in Hc. }
  apply bind_Raise in Hc. destruct Hc as [Hc|[cov [_ Hc]]]; [|discriminate].
  destruct positive; [|discriminate].
  apply bind_Raise in Hc. destruct Hc as [Hc|[c [_ Hc]]].
  { now apply py_get_no_zero_div in Hc. }
  apply bind_Raise in Hc. destruct Hc as [Hc|[n [Hn Hc]]].
  { now apply py_get_no_zero_div in Hc. }
  apply bind_Raise in Hc. destruct Hc as [Hc|[q [_ Hc]]]; [|discriminate].
  revert Hc. apply py_truediv_positive.
  (* the divisor is the value that was tested, or the default 1 *)
  destruct summary; try discriminate. simpl in Hn, Hn0.
  injection Hn as <-. injection Hn0 as <-.
  destruct (lookup "num_statements" d); trivial.
Qed.

Lemma num_sub_no_zero_div (a b : pynum F) :
  num_sub a b <> Raise ZeroDivisionError.
Proof.
  destruct a as [x|f], b as [y|g]; simpl; try discriminate;
    unfold float_of_int; destruct (f_fits _); discriminate.
Qed.

Lemma counted_cons (p0 p : string) (fd0 : json F)
  (rest : list (string * json F)) :
  counted ((p0, fd0) :: rest) p =
  if String.eqb p p0 then (if is_test_file p0 then None else Some fd0)
  else counted rest p.
Proof.
  unfold counted. cbn [lookup].
  destruct (String.eqb_spec p p0) as [->|Hne]; trivial.
Qed.

Lemma counted_not_in (items : list (string * json F)) (p : string) :
  ~ In p (map fst items) -> counted items p = None.
Proof.
  intros Hnot. unfold counted. apply lookup_None_keys in Hnot.
  rewrite Hnot. now destruct (is_test_file p).
Qed.

Lemma process_suite_a_entries (items : list (string * json F)) :
  NoDup (map fst items) ->
  forall fm0 fm,
    process_suite_a fm0 items = Ok fm ->
    (NoDup (map fst fm0) -> NoDup (map fst fm)) /\
    forall p,
      match counted items p with
      | Some fd =>
          exists s, suite_metrics_of fd = Ok s /\
                    lookup p fm =
                    Some {| suite_a := Some s; suite_b := None;
                            improvement := None |}
      | None => lookup p fm = lookup p fm0
      end.
Proof.
  induction items as [|[p0 fd0] rest IH]; intros Hnd fm0 fm;
    cbn [process_suite_a].
  - intros [= <-]. split; trivial.
    intros p. unfold counted. cbn [lookup]. now destruct (is_test_file p).
  - inversion Hnd as [|? ? Hp0 Hnd']; subst. intros Hrun.
    destruct (is_test_file p0) eqn:Et.
    + destruct (IH Hnd' _ _ Hrun) as [Hk Hl]. split; trivial.
      intros p. rewrite counted_cons, Et. specialize (Hl p).
      destruct (String.eqb_spec p p0) as [->|Hne]; trivial.
      now rewrite (counted_not_in rest p0 Hp0) in Hl.
    + apply bind_Ok in Hrun. destruct Hrun as [s [Hs Hrun]].
      destruct (IH Hnd' _ _ Hrun) as [Hk Hl]. split.
      * intros Hfm0. now apply Hk, NoDup_keys_store.
      * intros p. rewrite counted_cons, Et. specialize (Hl p).
        destruct (String.eqb_spec p p0) as [->|Hne].
        -- rewrite (counted_not_in rest p0 Hp0) in Hl.
           rewrite lookup_store_eq in Hl. eauto.
        -- destruct (counted rest p); trivial.
           rewrite Hl. apply lookup_store_ne. congruence.
Qed.

Lemma process_suite_b_entries (items : list (string * json F)) :
  NoDup (map fst items) ->
  forall fm0 fm,
    process_suite_b fm0 items = Ok fm ->
    (NoDup (map fst fm0) -> NoDup (map fst fm)) /\
    forall p,
      match counted items p with
      | Some fd =>
          exists s, suite_metrics_of fd = Ok s /\
                    lookup p fm =
                    Some {| suite_a :=
                              match lookup p fm0 with
                              | Some m => suite_a m
                              | None => None
                              end;
                            suite_b := Some s;
                            improvement :=
                              match lookup p fm0 with
                              | Some m => improvement m
                              | None => None
                              end |}
      | None => lookup p fm = lookup p fm0
      end.
Proof.
  induction items as [|[p0 fd0] rest IH]; intros Hnd fm0 fm;
    cbn [process_suite_b].
  - intros [= <-]. split; trivial.
    intros p. unfold counted. cbn [lookup]. now destruct (is_test_file p).
  - inversion Hnd as [|? ? Hp0 Hnd']; subst. intros Hrun.
    destruct (is_test_file p0) eqn:Et.
    + destruct (IH Hnd' _ _ Hrun) as [Hk Hl]. split; trivial.
      intros p. rewrite counted_cons, Et. specialize (Hl p).
      destruct (String.eqb_spec p p0) as [->|Hne]; trivial.
      now rewrite (counted_not_in rest p0 Hp0) in Hl.
    + apply bind_Ok in Hrun. destruct Hrun as [s [Hs Hrun]].
      assert (Hstep : exists m,
                 process_suite_b (store p0 m fm0) rest = Ok fm /\
                 m = {| suite_a :=
                          match lookup p0 fm0 with
                          | Some m => suite_a m
                          | None => None
                          end;
                        suite_b := Some s;
                        improvement :=
                          match lookup p0 fm0 with
                          | Some m => improvement m
                          | None => None
                          end |}).
      { destruct (lookup p0 fm0) as [m|]; eauto. }
      destruct Hstep as [m [Hrest Hm]].
      destruct (IH Hnd' _ _ Hrest) as [Hk Hl]. split.
      * intros Hfm0. now apply Hk, NoDup_keys_store.
      * intros p. rewrite counted_cons, Et. specialize (Hl p).
        destruct (String.eqb_spec p p0) as [->|Hne].
        -- rewrite (counted_not_in rest p0 Hp0) in Hl.
           rewrite lookup_store_eq in Hl. exists s. split; trivial.
           now rewrite Hl, Hm.
        -- assert (Hother : lookup p (store p0 m fm0) = lookup p fm0)
             by (apply lookup_store_ne; congruence).
           rewrite Hother in Hl. exact Hl.
Qed.

Lemma add_improvement_spec (m m' : file_metric F) :
  improvement m = None ->
  add_improvement m = Ok m' ->
  suite_a m' = suite_a m /\ suite_b m' = suite_b m /\ improvement_of m'.
Proof.
  unfold add_improvement, improvement_of. intros Hnone.
  destruct (suite_a m) as [a|] eqn:Ea, (suite_b m) as [b|] eqn:Eb.
  - intros Hd. apply bind_Ok in Hd. destruct Hd as [d [Hd Hm]].
    injection Hm as <-. cbn [suite_a suite_b improvement]. eauto.
  - intros [= <-]. rewrite Ea, Eb. repeat split. exact Hnone.
  - intros [= <-]. rewrite Ea, Eb. repeat split. exact Hnone.
  - intros [= <-]. rewrite Ea, Eb. repeat split. exact Hnone.
Qed.

Lemma add_improvements_entries (fm : list (string * file_metric F)) :
  forall fm',
    add_improvements fm = Ok fm' ->
    map fst fm' = map fst fm /\
    forall p,
      match lookup p fm with
      | Some m => exists m', add_improvement m = Ok m' /\
                             lookup p fm' = Some m'
      | None => lookup p fm' = None
      end.
Proof.
  induction fm as [|[p0 m0] rest IH]; intros fm'; cbn [add_improvements].
  - intros [= <-]. split; [reflexivity | intros p; reflexivity].
  - intros Hrun.
    apply bind_Ok in Hrun. destruct Hrun as [m' [Hm Hrun]].
    apply bind_Ok in Hrun. destruct Hrun as [rest' [Hrest Hrun]].
    injection Hrun as <-. destruct (IH _ Hrest) as [Hk Hl].
    split; [cbn [map fst]; now rewrite Hk|].
    intros p. cbn [lookup]. destruct (String.eqb p p0); [eauto | apply Hl].
Qed.

Lemma add_improvements_no_zero_div (fm : list (string * file_metric F)) :
  add_improvements fm <> Raise ZeroDivisionError.
Proof.
  induction fm as [|[p0 m0] rest IH]; cbn [add_improvements];
    [discriminate|].
  intros Hc. apply bind_Raise in Hc. destruct Hc as [Hc|[m' [_ Hc]]].
  - unfold add_improvement in Hc.
    destruct (suite_a m0), (suite_b m0); try discriminate.
    apply bind_Raise in Hc. destruct Hc as [Hc|[d [_ Hc]]]; [|discriminate].
    now apply num_sub_no_zero_div in Hc.
  - apply bind_Raise in Hc. destruct Hc as [Hc|[r [_ Hc]]]; [|discriminate].
    now apply IH in Hc.
Qed.

Lemma process_suite_a_no_zero_div (items : list (string * json F)) :
  forall fm, process_suite_a fm items <> Raise ZeroDivisionError.
Proof.
  induction items as [|[p0 fd0] rest IH]; intros fm; cbn [process_suite_a];
    [discriminate|].
  destruct (is_test_file p0); [apply IH|].
  intros Hc. apply bind_Raise in Hc. destruct Hc as [Hc|[s [_ Hc]]].
  - now apply suite_metrics_of_no_zero_div in Hc.
  - now apply IH in Hc.
Qed.

Lemma process_suite_b_no_zero_div (items : list (string * json F)) :
  forall fm, process_suite_b fm items <> Raise ZeroDivisionError.
Proof.
  induction items as [|[p0 fd0] rest IH]; intros fm; cbn [process_suite_b];
    [discriminate|].
  destruct (is_test_file p0); [apply IH|].
  intros Hc. apply bind_Raise in Hc. destruct Hc as [Hc|[s [_ Hc]]].
  - now apply suite_metrics_of_no_zero_div in Hc.
  - destruct (lookup p0 fm); now apply IH in Hc.
Qed.

(** X11. [analyze_file_coverage] on two reports whose [files] have the
    items [a_items] and [b_items]: it never divides by zero; when it
    returns, no key is a file that the loops skip, and a file has an
    entry iff it is a counted file of one of the reports; the entry has
    the key [suite_a] iff the file is counted in the first report and
    [suite_b] iff it is counted in the second, each with the counts of
    the summary of the file in that report and their ratio; and it has
    [improvement] iff it has both, the coverage in B minus the coverage
    in A. *)
Theorem analyze_file_coverage_entries
  (da db a_items b_items : list (string * json F)) :
  field da "files" (JDict []) = JDict a_items ->
  field db "files" (JDict []) = JDict b_items ->
  NoDup (map fst a_items) ->
  NoDup (map fst b_items) ->
  analyze_file_coverage (JDict da) (JDict db) <> Raise ZeroDivisionError /\
  forall file_metrics,
    analyze_file_coverage (JDict da) (JDict db) = Ok file_metrics ->
    NoDup (map fst file_metrics) /\
    (forall p m, lookup p file_metrics = Some m -> is_test_file p = false) /\
    forall p,
      match counted a_items p, counted b_items p with
      | None, None => lookup p file_metrics = None
      | a, b =>
          exists m,
            lookup p file_metrics = Some m /\
            side a (suite_a m) /\ side b (suite_b m) /\ improvement_of m
      end.
Proof.
  intros Ha Hb Hnda Hndb. unfold field in Ha, Hb.
  unfold analyze_file_coverage. cbn [py_get bind]. rewrite Ha.
  cbn [py_items bind]. split.
  - intros Hc. apply bind_Raise in Hc. destruct Hc as [Hc|[fm1 [_ Hc]]].
    { now apply process_suite_a_no_zero_div in Hc. }
    rewrite Hb in Hc. cbn [py_items bind] in Hc.
    apply bind_Raise in Hc. destruct Hc as [Hc|[fm2 [_ Hc]]].
    { now apply process_suite_b_no_zero_div in Hc. }
    now apply add_improvements_no_zero_div in Hc.
  - intros fm Hrun.
    apply bind_Ok in Hrun. destruct Hrun as [fm1 [H1 Hrun]].
    rewrite Hb in Hrun. cbn [py_items bind] in Hrun.
    apply bind_Ok in Hrun. destruct Hrun as [fm2 [H2 H3]].
    destruct (process_suite_a_entries a_items Hnda _ _ H1) as [Hk1 Hl1].
    destruct (process_suite_b_entries b_items Hndb _ _ H2) as [Hk2 Hl2].
    destruct (add_improvements_entries _ _ H3) as [Hk3 Hl3].
    assert (Hentry : forall p,
               match counted a_items p, counted b_items p with
               | None, None => lookup p fm = None
               | a, b =>
                   exists m,
                     lookup p fm = Some m /\
                     side a (suite_a m) /\ side b (suite_b m) /\
                     improvement_of m
               end).
    { intros p. specialize (Hl1 p). specialize (Hl2 p). specialize (Hl3 p).
      cbn [lookup] in Hl1.
      destruct (counted a_items p) as [fa|], (counted b_items p) as [fb|].
      - destruct Hl1 as [sa [Hsa Hl1]]. destruct Hl2 as [sb [Hsb Hl2]].
        rewrite Hl1 in Hl2. cbn [suite_a improvement] in Hl2.
        rewrite Hl2 in Hl3. destruct Hl3 as [m' [Hm' Hl3]].
        destruct (add_improvement_spec
                    {| suite_a := _; suite_b := _; improvement := None |}
                    m' eq_refl Hm') as [E1 [E2 Hi]].
        exists m'. cbn [suite_a suite_b] in E1, E2.
        rewrite E1, E2. repeat split; trivial;
          eexists; (split; [reflexivity|]);
          now apply suite_metrics_of_entry.
      - destruct Hl1 as [sa [Hsa Hl1]].
        rewrite Hl1 in Hl2. rewrite Hl2 in Hl3.
        destruct Hl3 as [m' [Hm' Hl3]].
        destruct (add_improvement_spec
                    {| suite_a := _; suite_b := _; improvement := None |}
                    m' eq_refl Hm') as [E1 [E2 Hi]].
        exists m'. cbn [suite_a suite_b] in E1, E2.
        rewrite E1, E2. repeat split; trivial.
        eexists; (split; [reflexivity|]).
        now apply suite_metrics_of_entry.
      - destruct Hl2 as [sb [Hsb Hl2]].
        rewrite Hl1 in Hl2. rewrite Hl2 in Hl3.
        destruct Hl3 as [m' [Hm' Hl3]].
        destruct (add_improvement_spec
                    {| suite_a := _; suite_b := _; improvement := None |}
                    m' eq_refl Hm') as [E1 [E2 Hi]].
        exists m'. cbn [suite_a suite_b] in E1, E2.
        rewrite E1, E2. repeat split; trivial.
        eexists; (split; [reflexivity|]).
        now apply suite_metrics_of_entry.
      - rewrite Hl1 in Hl2. now rewrite Hl2 in Hl3. }
    split; [|split; [|exact Hentry]].
    + rewrite Hk3. apply Hk2, Hk1. constructor.
    + intros p m Hm. specialize (Hentry p). unfold counted in Hentry.
      destruct (is_test_file p); [congruence | trivial].
Qed.

End Facts.

End FileCoverageFacts.

(** ** The further properties on the samples *)

Module SequentialScriptExamples.
Import Py SequentialTestScriptMore Samples SamplesMore ExactFloat.
Import ParallelFacts PytestIniFacts SequentialTimeFacts SequentialFilesFacts.

(** The text of [pytest.ini] for one failing and one flaky test. *)
Example pytest_ini_of_two_tests :
  pytest_ini_text ["tests/test_a.py::test_y"] ["tests/test_a.py::test_x"] =
  text [ "[pytest]";
         ("addopts = -k " ++ PyStrMore.dquote ++ "not test_y"
          ++ PyStrMore.dquote ++ " -k " ++ PyStrMore.dquote ++ "not test_x"
          ++ PyStrMore.dquote ++ " ")%string;
         "" ].
Proof. reflexivity. Qed.

(** Three groups of five runs from call 11 of the flaky world. *)
Lemma measure_sequential_time_groups_witness :
  measure_sequential_time flaky_world 11 3 5 =
    Ok (arithmetic_mean (group_means flaky_world 11 3 5),
        group_means flaky_world 11 3 5,
        run_times flaky_world 11 (3 * 5),
        11 + 3 * 5) /\
  List.length (group_means flaky_world 11 3 5) = 3 /\
  List.length (run_times flaky_world 11 (3 * 5)) = 3 * 5.
Proof.
  destruct (measure_sequential_time_groups flaky_world 11 3 5) as [_ Hok].
  apply Hok; lia.
Defined.

(** The sequential script in the flaky world, from no file. *)
Lemma tseq_written_is_tseq_read_witness :
  exists failing_tests flaky_tests k,
    SequentialTestScript.run_sequential_tests
      (ParallelTestScript.observe flaky_world ["pytest"] 0 10) =
      Ok (failing_tests, flaky_tests) /\
    (k = 26 \/ k = 27) /\
    ParallelTestScript.load_tseq (json_files written_files) =
      Ok (PFloat (simple_tseq flaky_world k)) /\
    AnalysisScriptMore.main_sequential (json_files written_files) =
      Ok (analysed_sequential_data flaky_world failing_tests flaky_tests
            (simple_tseq flaky_world k)).
Proof.
  apply (tseq_written_is_tseq_read flaky_world no_script_files
           written_files).
  vm_compute. reflexivity.
Defined.

End SequentialScriptExamples.

Module ParallelFlakyExamples.
Import Py ParallelTestScript Samples SamplesMore ExactFloat QArith.
Import ParallelFlakyFacts.
Local Open Scope nat_scope.

(** No iteration divides by zero; three iterations in the flaky world
    give three lists of failing tests, and [test_x] is the flaky
    one. *)
Lemma flaky_tests_fail_sometimes_witness :
  run_parallel_tests flaky_world 0 plain_config 0 =
    Raise ZeroDivisionError /\
  exists res,
    run_parallel_tests flaky_world 0 plain_config 3 = Ok (res, 0 + 3) /\
    List.length (failing_tests res) = 3 /\
    failures res = map (@List.length string) (failing_tests res) /\
    NoDup (flaky_tests res) /\
    forall t,
      In t (flaky_tests res) <->
      0 < failed_in t (failing_tests res) < 3.
Proof.
  split.
  - apply (flaky_tests_fail_sometimes flaky_world 0 plain_config 0).
    reflexivity.
  - apply (flaky_tests_fail_sometimes flaky_world 0 plain_config 3). lia.
Defined.

Example flaky_world_flaky_tests :
  match run_parallel_tests flaky_world 0 plain_config 3 with
  | Ok (res, _) =>
      failures res = [1; 2; 1] /\
      flaky_tests res = ["tests/test_a.py::test_x"]
  | Raise _ => False
  end.
Proof. vm_compute. split; reflexivity. Qed.

(** Without the file Tseq is 10.0; with [avg_time] and
    [avg_time_simple] in the file it is [avg_time]; a [tseq_simple]
    without [value] is no layout, and a [tseq_simple] that is a number
    raises. *)
Lemma load_tseq_default_witness :
  load_tseq no_files = Ok (PFloat (f_of_int 10)) /\
  load_tseq two_layouts = Ok (PFloat 12%Q) /\
  load_tseq (tseq_file [ ("tseq_simple", JDict []) ]) =
    Ok (PFloat (f_of_int 10)) /\
  load_tseq (tseq_file [ ("tseq_simple", JInt 5) ]) = Raise TypeError.
Proof.
  split; [|split; [|split]].
  - apply (load_tseq_default no_files). left. reflexivity.
  - destruct (load_tseq_default two_layouts) as (_ & _ & Hplain & _).
    apply (Hplain [ ("avg_time_simple", JFloat 7%Q);
                    ("avg_time", JFloat 12%Q) ] (JFloat 12%Q));
      reflexivity.
  - destruct (load_tseq_default (tseq_file [ ("tseq_simple", JDict []) ]))
      as (_ & _ & _ & Hdict & _).
    apply (Hdict [ ("tseq_simple", JDict []) ]); [reflexivity|].
    intros k v [Hk|[Hk|[Hk|[Hk|[Hk|[]]]]]] Hv;
      try discriminate; injection Hk as <-;
      [injection Hv as <-; eauto | discriminate].
  - destruct (load_tseq_default (tseq_file [ ("tseq_simple", JInt 5) ]))
      as (_ & _ & _ & _ & Hnumber & _).
    apply (Hnumber [ ("tseq_simple", JInt 5) ] (JInt 5)); reflexivity.
Defined.

End ParallelFlakyExamples.

Module AnalysisExamples.
Import Py PyCounter AnalysisScriptMore Samples SamplesMore ExactFloat.
Import CounterFacts AnalysisFacts.

Example failing_names_categorized :
  categorize_test_failures failing_names =
  {| shared_resources := [ "tests/test_io.py::test_Global_State";
                           "tests/test_io.py::test_wait_for_state" ];
     timing_issues := [ "tests/test_run.py::test_sleep" ];
     order_dependencies := [ "tests/test_run.py::test_reorder" ];
     other_issues := [ "tests/test_run.py::test_sum" ] |}.
Proof. reflexivity. Qed.

(** The test that waits for a state is a shared resource, and so no
    timing issue. *)
Lemma categorize_test_failures_partition_witness :
  let t := "tests/test_io.py::test_wait_for_state" in
  let c := categorize_test_failures failing_names in
  (In t (shared_resources c) <->
     PyStr.contains "global" (PyStrMore.lower t)
     || PyStr.contains "state" (PyStrMore.lower t)
     || PyStr.contains "resource" (PyStrMore.lower t) = true) /\
  (In t (timing_issues c) <->
     ~ In t (shared_resources c) /\
     PyStr.contains "time" (PyStrMore.lower t)
     || PyStr.contains "wait" (PyStrMore.lower t)
     || PyStr.contains "sleep" (PyStrMore.lower t) = true) /\
  (In t (order_dependencies c) <->
     ~ In t (shared_resources c) /\ ~ In t (timing_issues c) /\
     PyStr.contains "order" (PyStrMore.lower t)
     || PyStr.contains "sequence" (PyStrMore.lower t)
     || PyStr.contains "depend" (PyStrMore.lower t) = true) /\
  (In t (other_issues c) <->
     ~ In t (shared_resources c) /\ ~ In t (timing_issues c) /\
     ~ In t (order_dependencies c)).
Proof.
  destruct (categorize_test_failures_partition failing_names)
    as (_ & _ & _ & _ & _ & Hin).
  apply Hin. right. left. reflexivity.
Defined.

(** The analysis of the results of the flaky world, with the rates
    left in the order of the configurations. *)
Lemma analyze_parallel_failures_counts_witness :
  exists fa,
    analyze_parallel_failures (fun rates => rates) flaky_parallel_results =
      Ok fa /\
    NoDup (all_failing_tests fa) /\
    (forall t, In t (all_failing_tests fa) <->
               0 < occurrences t flaky_parallel_results) /\
    List.length (most_common_failures fa) =
      Nat.min 10 (List.length (all_failing_tests fa)) /\
    NoDup (map fst (most_common_failures fa)) /\
    Sorted.StronglySorted desc (most_common_failures fa) /\
    (forall t n, In (t, n) (most_common_failures fa) ->
                 n = occurrences t flaky_parallel_results /\ 0 < n) /\
    (forall t x, 0 < occurrences t flaky_parallel_results ->
                 ~ In t (map fst (most_common_failures fa)) ->
                 In x (most_common_failures fa) ->
                 occurrences t flaky_parallel_results <= snd x).
Proof.
  destruct (analyze_parallel_failures_counts (fun rates => rates)
              flaky_parallel_results) as [_ Hok].
  - intros n m _ _. discriminate.
  - apply Hok. repeat constructor; discriminate.
Defined.

Example flaky_world_most_common :
  match analyze_parallel_failures (fun rates => rates)
          flaky_parallel_results with
  | Ok fa =>
      all_failing_tests fa =
        [ "tests/test_a.py::test_y"; "tests/test_a.py::test_x" ] /\
      most_common_failures fa =
        [ ("tests/test_a.py::test_y", 10); ("tests/test_a.py::test_x", 5) ]
  | Raise _ => False
  end.
Proof. vm_compute. split; reflexivity. Qed.

End AnalysisExamples.

Module AnalyzeResultsExamples.
Import Py AnalyzeResults AnalyzeResultsMore Samples SamplesMore.
Import FrequentCwesFacts CommitCountFacts.

Example sample_cwes_summary :
  answer_rq3 sample_cwes =
  {| overall_top_cwes := [ ("CWE-703", 3); ("CWE-78", 1); ("CWE-22", 1) ];
     repository_top_cwes :=
       [ ("bandit", [ ("CWE-703", 2); ("CWE-78", 1) ]);
         ("manim", []);
         ("flask", [ ("CWE-22", 1); ("CWE-703", 1) ]) ] |}.
Proof. reflexivity. Qed.

Lemma answer_rq3_top_cwes_witness :
  let summary := answer_rq3 sample_cwes in
  let all := all_cwes sample_cwes in
  map fst (repository_top_cwes summary) = map fst sample_cwes /\
  List.length (overall_top_cwes summary) <= 10 /\
  NoDup (map fst (overall_top_cwes summary)) /\
  (forall key n,
     In (key, n) (overall_top_cwes summary) ->
     exists cwe, key = ("CWE-" ++ cwe)%string /\
                 n = count_occ string_dec all cwe /\ 0 < n) /\
  (forall cwe,
     In cwe all ->
     lookup ("CWE-" ++ cwe)%string (overall_top_cwes summary) = None ->
     List.length (overall_top_cwes summary) = 10 /\
     forall key n, In (key, n) (overall_top_cwes summary) ->
                   count_occ string_dec all cwe <= n) /\
  (forall repo column,
     In (repo, column) sample_cwes ->
     exists top,
       lookup repo (repository_top_cwes summary) = Some top /\
       List.length top <= 5 /\
       (forall key n,
          In (key, n) top ->
          exists cwe, key = ("CWE-" ++ cwe)%string /\
                      n = count_occ string_dec (concat column) cwe /\
                      0 < n <= count_occ string_dec all cwe) /\
       (concat column = [] -> top = [])).
Proof.
  apply (answer_rq3_top_cwes sample_cwes).
  repeat constructor; simpl; intuition discriminate.
Defined.

(** The four commits of the sample frame: one introduces issues (2 to
    5) and one fixes issues (5 to 3). *)
Lemma answer_rq1_commit_counts_witness :
  exists counts,
    answer_rq1_counts severity_frame = Ok counts /\
    total_commits counts = 4 /\
    commits_introducing_vulnerabilities counts =
      rising_rows [Some 2; Some 5; Some 3; Some 3]%Z /\
    commits_fixing_vulnerabilities counts =
      falling_rows [Some 2; Some 5; Some 3; Some 3]%Z /\
    commits_introducing_vulnerabilities counts
    + commits_fixing_vulnerabilities counts <= 4 - 1.
Proof.
  apply (answer_rq1_commit_counts severity_frame).
  - reflexivity.
  - repeat constructor.
  - repeat constructor; cbn; lia.
Defined.

Example sample_frame_counts :
  answer_rq1_counts severity_frame =
  Ok {| total_commits := 4;
        commits_introducing_vulnerabilities := 1;
        commits_fixing_vulnerabilities := 1 |}.
Proof. reflexivity. Qed.

End AnalyzeResultsExamples.

Module FileCoverageExamples.
Import Py CoverageComparisonMore Samples SamplesMore ExactFloat QArith.
Import FileCoverageFacts.

(** [flatten.py] is in both reports and improves from 2/3 to 1;
    [rotate.py] and [empty.py] are in the first only, [binary.py] in
    the second only; the test files and [__init__.py] have no entry. *)
Example sample_file_metrics_keys :
  map fst sample_file_metrics =
  [ "algorithms/arrays/flatten.py"; "algorithms/arrays/rotate.py";
    "algorithms/sort/empty.py"; "algorithms/search/binary.py" ] /\
  (exists m d, lookup "algorithms/arrays/flatten.py" sample_file_metrics
                 = Some m /\
               improvement m = Some (PFloat d) /\ d == 1 # 3) /\
  (exists m, lookup "algorithms/arrays/rotate.py" sample_file_metrics
               = Some m /\
             suite_b m = None /\ improvement m = None).
Proof.
  split; [reflexivity|]. split.
  - do 2 eexists. repeat split; reflexivity.
  - eexists. repeat split; reflexivity.
Qed.

Lemma analyze_file_coverage_entries_witness :
  NoDup (map fst sample_file_metrics) /\
  (forall p m, lookup p sample_file_metrics = Some m ->
               is_test_file p = false) /\
  forall p,
    match counted (files_of coverage_report) p,
          counted (files_of coverage_report_b) p with
    | None, None => lookup p sample_file_metrics = None
    | a, b =>
        exists m,
          lookup p sample_file_metrics = Some m /\
          side a (suite_a m) /\ side b (suite_b m) /\ improvement_of m
    end.
Proof.
  destruct (analyze_file_coverage_entries
              (items_of coverage_report) (items_of coverage_report_b)
              (files_of coverage_report) (files_of coverage_report_b))
    as [_ Hok].
  - reflexivity.
  - reflexivity.
  - repeat constructor; simpl; intuition discriminate.
  - repeat constructor; simpl; intuition discriminate.
  - apply Hok. vm_compute. reflexivity.
Defined.

End FileCoverageExamples.

(** ** The CWEs of a report *)

Module ReportCweFacts.
Import Py PyNumFacts DictFacts RunBanditAnalysis CoverageFacts.

Lemma set_add_spec (x : string) (s : list string) :
  (NoDup s -> NoDup (set_add x s)) /\
  (forall y, In y (set_add x s) <-> y = x \/ In y s) /\
  List.length (set_add x s) <= S (List.length s).
Proof.
  unfold set_add. destruct (existsb (String.eqb x) s) eqn:Ex.
  - apply ParallelFlakyFacts.existsb_eqb_In in Ex.
    split; [trivial | split; [|lia]].
    intros y. split; [auto | intros [->|Hy]; trivial].
  - assert (Hx : ~ In x s).
    { intros Hin. apply ParallelFlakyFacts.existsb_eqb_In in Hin.
      congruence. }
    split; [|split].
    + intros Hnd. apply NoDup_rev in Hnd.
      rewrite <- (rev_involutive (s ++ [x])).
      apply NoDup_rev. rewrite rev_app_distr. simpl.
      constructor; trivial. now rewrite <- in_rev.
    + intros y. rewrite in_app_iff. simpl. intuition.
    + rewrite length_app. simpl. lia.
Qed.

(** One of the ten decimal digits. *)
Definition decimal_digit (a : ascii) : Prop :=
  In a (list_ascii_of_string "0123456789").

(** The first character of [s] is a decimal digit. *)
Definition starts_with_digit (s : string) : Prop :=
  exists a r, s = String a r /\ decimal_digit a.

(** [x] is the number behind the first [CWE-] of [s] that has a digit
    behind it: a run of digits that is not empty and that no digit
    follows, behind a [CWE-], and no [CWE-] that begins further left
    has a digit behind it. *)
Definition first_cwe (s x : string) : Prop :=
  exists pre post,
    s = (pre ++ "CWE-" ++ x ++ post)%string /\
    x <> ""%string /\
    Forall decimal_digit (list_ascii_of_string x) /\
    ~ starts_with_digit post /\
    forall pre' rest,
      s = (pre' ++ "CWE-" ++ rest)%string ->
      String.length pre' < String.length pre ->
      ~ starts_with_digit rest.

(** The same for a literal and a class of characters. *)
Definition first_run (lit : string) (p : ascii -> bool) (s x : string)
  : Prop :=
  exists pre post,
    s = (pre ++ lit ++ x ++ post)%string /\
    x <> ""%string /\
    Forall (fun a => p a = true) (list_ascii_of_string x) /\
    (forall a r, post = String a r -> p a = false) /\
    forall pre' rest a r,
      s = (pre' ++ lit ++ rest)%string ->
      String.length pre' < String.length pre ->
      rest = String a r -> p a = false.

(** The match of the pattern at the start of [s]. *)
Definition match_here (lit : string) (p : ascii -> bool) (s : string)
  : option string :=
  if String.prefix lit s then
    match PyStr.take_while p (PyStr.drop (String.length lit) s) with
    | EmptyString => None
    | g => Some g
    end
  else None.

Lemma is_digit_decimal (a : ascii) :
  PyStr.is_digit a = true <-> decimal_digit a.
Proof.
  unfold decimal_digit.
  destruct a as [[] [] [] [] [] [] [] []]; vm_compute; split; intros Hd;
    try discriminate Hd; try reflexivity; auto 12;
    repeat (destruct Hd as [Hd|Hd]; [discriminate Hd|]); contradiction.
Qed.

Lemma take_while_run (p : ascii -> bool) (x post : string) :
  Forall (fun a => p a = true) (list_ascii_of_string x) ->
  (forall a r, post = String a r -> p a = false) ->
  PyStr.take_while p (x ++ post) = x.
Proof.
  intros Hx Hpost. induction x as [|a x IH]; simpl.
  - destruct post as [|b post]; simpl; trivial.
    now rewrite (Hpost b post eq_refl).
  - simpl in Hx. inversion Hx as [|? ? Ha Hrest]; subst.
    rewrite Ha. f_equal. now apply IH.
Qed.

Lemma take_while_rest (p : ascii -> bool) (s : string) :
  exists post,
    s = (PyStr.take_while p s ++ post)%string /\
    Forall (fun a => p a = true)
      (list_ascii_of_string (PyStr.take_while p s)) /\
    (forall a r, post = String a r -> p a = false).
Proof.
  induction s as [|a s IH]; simpl.
  - exists ""%string. repeat split; [constructor | discriminate].
  - destruct (p a) eqn:Ea.
    + destruct IH as (post & Hs & Hall & Hpost). exists post.
      simpl. repeat split; [now rewrite <- Hs | now constructor | trivial].
    + exists (String a s). repeat split; [constructor|].
      intros b r [= <- <-]. exact Ea.
Qed.

Lemma match_here_spec (lit : string) (p : ascii -> bool) (s x : string) :
  match_here lit p s = Some x <->
  exists post,
    s = (lit ++ x ++ post)%string /\
    x <> ""%string /\
    Forall (fun a => p a = true) (list_ascii_of_string x) /\
    (forall a r, post = String a r -> p a = false).
Proof.
  unfold match_here. split.
  - destruct (String.prefix lit s) eqn:Ep; [|discriminate].
    apply PyStrMoreFacts.prefix_app in Ep. destruct Ep as [r ->]. rewrite PyStrMoreFacts.drop_app.
    destruct (take_while_rest p r) as (post & Hr & Hall & Hpost).
    destruct (PyStr.take_while p r) as [|a g] eqn:Et; [discriminate|].
    intros [= <-]. exists post. repeat split; trivial; [|discriminate].
    now rewrite Hr at 1.
  - intros (post & -> & Hne & Hall & Hpost).
    assert (Hp : String.prefix lit (lit ++ x ++ post) = true)
      by (apply PyStrMoreFacts.prefix_app; eauto).
    rewrite Hp, PyStrMoreFacts.drop_app, (take_while_run p x post Hall Hpost).
    destruct x; [contradiction | trivial].
Qed.

Lemma match_here_None (lit : string) (p : ascii -> bool) (rest : string)
  (a : ascii) (r : string) :
  match_here lit p (lit ++ rest) = None ->
  rest = String a r -> p a = false.
Proof.
  unfold match_here.
  assert (Hp : String.prefix lit (lit ++ rest) = true)
    by (apply PyStrMoreFacts.prefix_app; eauto).
  rewrite Hp, PyStrMoreFacts.drop_app. intros Hn ->. simpl in Hn.
  destruct (p a); [discriminate | trivial].
Qed.

Lemma search_lit_run_eq (lit : string) (p : ascii -> bool) (s : string) :
  PyStr.search_lit_run lit p s =
  match match_here lit p s with
  | Some g => Some g
  | None =>
      match s with
      | EmptyString => None
      | String _ r => PyStr.search_lit_run lit p r
      end
  end.
Proof. destruct s; reflexivity. Qed.

Lemma search_lit_run_first (lit : string) (p : ascii -> bool) (x : string) :
  forall s, PyStr.search_lit_run lit p s = Some x -> first_run lit p s x.
Proof.
  induction s as [|c s IH]; rewrite search_lit_run_eq.
  - destruct (match_here lit p "") as [g|] eqn:E; [|discriminate].
    intros [= ->]. apply match_here_spec in E.
    destruct E as (post & Hs & Hne & Hall & Hpost).
    exists ""%string, post. repeat split; trivial.
    intros pre' rest a r _ Hlen. simpl in Hlen. lia.
  - destruct (match_here lit p (String c s)) as [g|] eqn:E.
    + intros [= ->]. apply match_here_spec in E.
      destruct E as (post & Hs & Hne & Hall & Hpost).
      exists ""%string, post. repeat split; trivial.
      intros pre' rest a r _ Hlen. simpl in Hlen. lia.
    + intros Hs. apply IH in Hs.
      destruct Hs as (pre & post & Hs & Hne & Hall & Hpost & Hleft).
      exists (String c pre), post. repeat split; trivial.
      * simpl. now rewrite <- Hs.
      * intros pre' rest a r Hs' Hlen Hrest.
        destruct pre' as [|b pre'].
        -- simpl in Hs'. rewrite Hs' in E.
           exact (match_here_None lit p rest a r E Hrest).
        -- simpl in Hs', Hlen. injection Hs' as _ Hs'.
           apply (Hleft pre' rest a r Hs'); [lia | trivial].
Qed.

Lemma first_search_lit_run (lit : string) (p : ascii -> bool) (x : string) :
  forall s, first_run lit p s x -> PyStr.search_lit_run lit p s = Some x.
Proof.
  intros s (pre & post & Hs & Hne & Hall & Hpost & Hleft).
  revert s Hs Hleft. induction pre as [|c pre IH]; intros s Hs Hleft;
    rewrite search_lit_run_eq.
  - assert (E : match_here lit p s = Some x)
      by (apply match_here_spec; exists post; auto).
    now rewrite E.
  - destruct (match_here lit p s) as [g|] eqn:E.
    + exfalso. apply match_here_spec in E.
      destruct E as (post' & Hs' & Hne' & Hall' & _).
      destruct g as [|a g]; [contradiction|].
      simpl in Hall'. inversion Hall' as [|? ? Ha _]; subst.
      assert (Hf : p a = false).
      { apply (Hleft ""%string (String a g ++ post')%string a
                 (g ++ post')%string); trivial. simpl. lia. }
      congruence.
    + rewrite Hs. simpl. apply IH; trivial.
      intros pre' rest a r Hr Hlen Hrest.
      apply (Hleft (String c pre') rest a r); trivial.
      * rewrite Hs. simpl. now rewrite Hr.
      * simpl. lia.
Qed.

Lemma search_lit_run_spec (lit : string) (p : ascii -> bool) (s x : string) :
  PyStr.search_lit_run lit p s = Some x <-> first_run lit p s x.
Proof.
  split; [apply search_lit_run_first | apply first_search_lit_run].
Qed.

Lemma starts_with_digit_not (s : string) :
  ~ starts_with_digit s <->
  forall a r, s = String a r -> PyStr.is_digit a = false.
Proof.
  unfold starts_with_digit. split.
  - intros Hn a r ->. apply not_true_is_false. intros Ha.
    apply Hn. exists a, r. split; trivial. now apply is_digit_decimal.
  - intros Hf (a & r & Hs & Ha). apply is_digit_decimal in Ha.
    rewrite (Hf a r Hs) in Ha. discriminate.
Qed.

Lemma first_cwe_run (s x : string) :
  first_run "CWE-" PyStr.is_digit s x <-> first_cwe s x.
Proof.
  assert (Hall : forall l,
             Forall (fun a => PyStr.is_digit a = true) l <->
             Forall decimal_digit l).
  { intros l. split; apply Forall_impl; intros a; apply is_digit_decimal. }
  unfold first_run, first_cwe. split.
  - intros (pre & post & Hs & Hne & Hx & Hpost & Hleft).
    exists pre, post. repeat split; trivial.
    + now apply Hall.
    + now apply starts_with_digit_not.
    + intros pre' rest Hs' Hlen. apply starts_with_digit_not.
      intros a r. now apply (Hleft pre' rest a r).
  - intros (pre & post & Hs & Hne & Hx & Hpost & Hleft).
    exists pre, post. repeat split; trivial.
    + now apply Hall.
    + now apply starts_with_digit_not.
    + intros pre' rest a r Hs' Hlen.
      now apply starts_with_digit_not, (Hleft pre' rest).
Qed.

Section Facts.
Context {F : Type} `{PyFloat F}.
Variable py_str : json F -> string.

(** What the tests of the loop select: the text that is searched. *)
Definition text_match (d : list (string * json F)) (x : string) : Prop :=
  exists s, field d "issue_text" (JStr "") = JStr s /\
            search_cwe s = Some x.

(** What the tests of the loop select for a finding. *)
Definition finding_match (finding : json F) (x : string) : Prop :=
  exists d,
    finding = JDict d /\
    match lookup "issue_cwe" d with
    | Some (JDict cwe) =>
        match lookup "id" cwe with
        | Some id => x = py_str id
        | None => text_match d x
        end
    | Some other => py_in "id" other = Ok false /\ text_match d x
    | None => text_match d x
    end.

(** The CWE that the text of a finding gives: the number behind the
    first [CWE-] of [issue_text] that has a digit behind it. *)
Definition text_cwe (d : list (string * json F)) (x : string) : Prop :=
  exists s, lookup "issue_text" d = Some (JStr s) /\ first_cwe s x.

(** The CWE that a finding adds to the set: the [id] of its
    [issue_cwe] as a string; when the [issue_cwe] has no [id] (a dict
    without the key, a string without these two letters, a list
    without this string), or when there is no [issue_cwe], the CWE of
    its text. *)
Definition finding_cwe (finding : json F) (x : string) : Prop :=
  exists d,
    finding = JDict d /\
    match lookup "issue_cwe" d with
    | Some (JDict cwe) =>
        match lookup "id" cwe with
        | Some id => x = py_str id
        | None => text_cwe d x
        end
    | Some (JStr s) =>
        (forall pre post, s <> (pre ++ "id" ++ post)%string) /\ text_cwe d x
    | Some (JList l) => ~ In (JStr "id") l /\ text_cwe d x
    | Some _ => False
    | None => text_cwe d x
    end.

Lemma text_cwe_match (d : list (string * json F)) (x : string) :
  text_cwe d x <-> text_match d x.
Proof.
  unfold text_cwe, text_match, field, search_cwe. split.
  - intros [s [Hs Hx]]. exists s. rewrite Hs. split; trivial.
    now apply search_lit_run_spec, first_cwe_run.
  - intros [s [Hs Hx]]. exists s.
    apply search_lit_run_spec, first_cwe_run in Hx. split; trivial.
    destruct (lookup "issue_text" d) as [v|]; [congruence|].
    injection Hs as <-. destruct Hx as (pre & post & Hx & _).
    destruct pre; discriminate.
Qed.

Lemma finding_cwe_match (finding : json F) (x : string) :
  finding_cwe finding x <-> finding_match finding x.
Proof.
  unfold finding_cwe, finding_match.
  split; intros [d [-> Hx]]; exists d; (split; [reflexivity|]);
    destruct (lookup "issue_cwe" d) as [cwe|];
    try (now apply text_cwe_match).
  - destruct cwe as [| | | |s|l|c]; try contradiction.
    + destruct Hx as [Hno Hx]. split; [|now apply text_cwe_match].
      cbn [py_in]. f_equal. apply not_true_is_false. intros Hc.
      apply PyStrMoreFacts.contains_app in Hc. destruct Hc as (pre & post & Hc).
      now apply (Hno pre post).
    + destruct Hx as [Hno Hx]. split; [|now apply text_cwe_match].
      cbn [py_in]. f_equal. apply not_true_is_false. intros Hc.
      apply existsb_exists in Hc. destruct Hc as [v [Hv Hc]].
      destruct v; try discriminate. simpl in Hc.
      apply String.eqb_eq in Hc. now subst.
    + destruct (lookup "id" c); [trivial | now apply text_cwe_match].
  - destruct cwe as [| | | |s|l|c];
      try (destruct Hx as [Hx _]; discriminate).
    + destruct Hx as [Hno Hx]. split; [|now apply text_cwe_match].
      intros pre post ->. cbn [py_in] in Hno.
      assert (Hc : PyStr.contains "id" (pre ++ "id" ++ post) = true)
        by (apply PyStrMoreFacts.contains_app; eauto).
      congruence.
    + destruct Hx as [Hno Hx]. split; [|now apply text_cwe_match].
      intros Hin. cbn [py_in] in Hno.
      assert (Hc : existsb (fun v : json F => eq_str v "id") l = true).
      { apply existsb_exists. exists (JStr "id"). now split. }
      congruence.
    + destruct (lookup "id" c); [trivial | now apply text_cwe_match].
Qed.

Lemma finding_match_unique (finding : json F) (x y : string) :
  finding_match finding x -> finding_match finding y -> x = y.
Proof.
  assert (Ht : forall d, text_match d x -> text_match d y -> x = y).
  { intros d [s [Hs Hx]] [s' [Hs' Hy]]. congruence. }
  intros [d [-> Hx]] [d' [[= <-] Hy]].
  destruct (lookup "issue_cwe" d) as [cwe|]; [|eauto].
  destruct cwe as [| | | | | |c];
    try (destruct Hx as [_ Hx], Hy as [_ Hy]; eauto).
  destruct (lookup "id" c); [congruence | eauto].
Qed.

(** What the CWE part of the loop does to the set. *)
Lemma count_cwe_cwes (m m' : metrics) (finding : json F) :
  count_cwe py_str m finding = Ok m' ->
  (exists x, finding_match finding x /\
             unique_cwes m' = set_add x (unique_cwes m)) \/
  ((forall x, ~ finding_match finding x) /\ unique_cwes m' = unique_cwes m).
Proof.
  unfold count_cwe. intros Hc.
  apply bind_Ok in Hc. destruct Hc as [has_id [Hid Hc]].
  assert (Htext : forall d,
             finding = JDict d ->
             (forall x, finding_match finding x <-> text_match d x) ->
             has_id = false ->
             (exists x, finding_match finding x /\
                        unique_cwes m' = set_add x (unique_cwes m)) \/
             ((forall x, ~ finding_match finding x) /\
              unique_cwes m' = unique_cwes m)).
  { intros d -> Hiff ->.
    cbn [py_get bind] in Hc. fold (field d "issue_text" (JStr "")) in Hc.
    destruct (field d "issue_text" (JStr "")) as [| | | |s| |] eqn:Et;
      try discriminate.
    injection Hc as <-.
    destruct (search_cwe s) as [g|] eqn:Es.
    - left. exists g. split; [|reflexivity].
      apply Hiff. exists s. now split.
    - right. split; [|reflexivity].
      intros x Hx. apply Hiff in Hx. destruct Hx as [s' [Hs' Hx]].
      congruence. }
  destruct finding as [| | | |s|l|d].
  1-4: discriminate.
  - (* a string has no [get] and no key *)
    simpl in Hid. destruct (PyStr.contains "issue_cwe" s); simpl in Hid;
      [discriminate | injection Hid as <-; discriminate].
  - simpl in Hid.
    destruct (existsb (fun x => eq_str x "issue_cwe") l); simpl in Hid;
      [discriminate | injection Hid as <-; discriminate].
  - cbn [py_in bind] in Hid.
    destruct (lookup "issue_cwe" d) as [cwe|] eqn:Ecwe.
    + cbn [py_index bind] in Hid. rewrite Ecwe in Hid. cbn [bind] in Hid.
      destruct has_id.
      * cbn [py_index bind] in Hc. rewrite Ecwe in Hc. cbn [bind] in Hc.
        apply bind_Ok in Hc. destruct Hc as [id [Hidx Hc]].
        injection Hc as <-.
        destruct cwe as [| | | | | |c]; try discriminate.
        simpl in Hidx. destruct (lookup "id" c) as [v|] eqn:Ev;
          [|discriminate].
        injection Hidx as <-.
        left. exists (py_str v). split; [|reflexivity].
        exists d. split; trivial. now rewrite Ecwe, Ev.
      * apply (Htext d); trivial.
        intros x. unfold finding_match. split.
        -- intros [d' [[= <-] Hx]]. rewrite Ecwe in Hx.
           destruct cwe as [| | | | | |c]; try tauto.
           simpl in Hid. destruct (lookup "id" c); [discriminate | trivial].
        -- intros Hx. exists d. split; trivial. rewrite Ecwe.
           destruct cwe as [| | | | | |c]; try (split; trivial).
           simpl in Hid. destruct (lookup "id" c); [discriminate | trivial].
    + cbn [bind] in Hid. injection Hid as <-.
      apply (Htext d); trivial.
      intros x. unfold finding_match. split.
      * intros [d' [[= <-] Hx]]. now rewrite Ecwe in Hx.
      * intros Hx. exists d. split; trivial. now rewrite Ecwe.
Qed.

Lemma count_result_cwes (m m' : metrics) (finding : json F) :
  count_result py_str m finding = Ok m' ->
  (exists x, finding_match finding x /\
             unique_cwes m' = set_add x (unique_cwes m)) \/
  ((forall x, ~ finding_match finding x) /\ unique_cwes m' = unique_cwes m).
Proof.
  unfold count_result. intros Hc.
  apply bind_Ok in Hc. destruct Hc as [conf [_ Hc]].
  apply bind_Ok in Hc. destruct Hc as [sev [_ Hc]].
  apply count_cwe_cwes in Hc.
  assert (Hsame : unique_cwes (count_severity (count_confidence m conf) sev)
                  = unique_cwes m).
  { unfold count_severity, count_confidence.
    destruct (eq_str sev "HIGH"), (eq_str sev "MEDIUM"), (eq_str sev "LOW"),
      (eq_str conf "HIGH"), (eq_str conf "MEDIUM"), (eq_str conf "LOW");
      reflexivity. }
  now rewrite Hsame in Hc.
Qed.

Lemma count_results_cwes (findings : list (json F)) :
  forall m0 m,
    count_results py_str m0 findings = Ok m ->
    (NoDup (unique_cwes m0) -> NoDup (unique_cwes m)) /\
    (forall x, In x (unique_cwes m) <->
               In x (unique_cwes m0) \/
               exists finding, In finding findings /\
                               finding_match finding x) /\
    List.length (unique_cwes m)
    <= List.length (unique_cwes m0) + List.length findings.
Proof.
  induction findings as [|f rest IH]; intros m0 m; cbn [count_results].
  - intros [= <-]. repeat split; auto; [|lia].
    intros [Hx|[f [[] _]]]; trivial.
  - intros Hc. apply bind_Ok in Hc. destruct Hc as [m1 [Hstep Hrest]].
    destruct (IH _ _ Hrest) as [Hnd [Hin Hlen]].
    apply count_result_cwes in Hstep.
    destruct Hstep as [[x [Hx Hset]]|[Hnone Hset]]; rewrite Hset in *.
    + destruct (set_add_spec x (unique_cwes m0)) as [Sn [Si Sl]].
      repeat split.
      * auto.
      * intros Hy. apply Hin in Hy. destruct Hy as [Hy|[g [Hg Hy]]].
        -- apply Si in Hy. destruct Hy as [->|Hy]; [|auto].
           right. exists f. split; [now left | trivial].
        -- right. exists g. split; [now right | trivial].
      * intros [Hy|[g [[<-|Hg] Hy]]]; apply Hin.
        -- left. apply Si. now right.
        -- left. apply Si. left. apply (finding_match_unique f); trivial.
        -- right. eauto.
      * cbn [List.length]. lia.
    + repeat split.
      * auto.
      * intros Hy. apply Hin in Hy. destruct Hy as [Hy|[g [Hg Hy]]];
          [auto|]. right. exists g. split; [now right | trivial].
      * intros [Hy|[g [[<-|Hg] Hy]]]; apply Hin; [auto | | eauto].
        now apply Hnone in Hy.
      * cbn [List.length]. lia.
Qed.

(** X12. When [parse_bandit_results] returns metrics for a decoded report,
    [unique_cwes] has no CWE twice, and has a CWE iff an entry of
    [results] adds it: the [id] of its [issue_cwe], as a string, when
    it has one, and otherwise the number behind the first [CWE-] of its
    text that has a digit behind it. An entry adds at most one CWE, so
    the list is no longer than [results]. *)
Theorem parse_bandit_results_unique_cwes (fs : filesystem F)
  (output_file : string) (data : json F) (m : metrics) :
  fs output_file = FileJson data ->
  parse_bandit_results py_str fs output_file = Some m ->
  NoDup (unique_cwes m) /\
  (forall x, In x (unique_cwes m) <->
             exists finding, In finding (BanditFacts.results_entries data) /\
                             finding_cwe finding x) /\
  (forall finding x y,
     finding_cwe finding x -> finding_cwe finding y -> x = y) /\
  List.length (unique_cwes m)
  <= List.length (BanditFacts.results_entries data).
Proof.
  intros Hfile.
  unfold parse_bandit_results, parse_bandit_results_io, parse_bandit_data,
    load_json.
  rewrite Hfile. cbn [bind].
  destruct (findings_of data) as [findings|e] eqn:Ef; cbn [bind];
    [|discriminate].
  destruct (count_results py_str empty_metrics findings) as [m'|e] eqn:Ec;
    cbn [bind try_except fst]; [|discriminate].
  intros [= <-].
  rewrite <- (BanditFacts.count_results_entries py_str _ _ _ _ Ef Ec).
  destruct (count_results_cwes _ _ _ Ec) as [Hnd [Hin Hlen]].
  cbn [unique_cwes empty_metrics List.length] in Hnd, Hin, Hlen.
  repeat split.
  - apply Hnd. constructor.
  - intros Hx. apply Hin in Hx. destruct Hx as [[]|[f [Hf Hx]]].
    exists f. split; [trivial | now apply finding_cwe_match].
  - intros [f [Hf Hx]]. apply Hin. right. exists f.
    split; [trivial | now apply finding_cwe_match].
  - intros f x y Hx Hy.
    apply finding_cwe_match in Hx. apply finding_cwe_match in Hy.
    exact (finding_match_unique f x y Hx Hy).
  - exact Hlen.
Qed.

End Facts.

End ReportCweFacts.

(** ** The Tseq of the speedups and the Tseq of the report *)

Module ReportTseqFacts.
Import Py PyNumFacts DictFacts ParallelTestScript AnalysisScriptMore.

Section Facts.
Context {F : Type} `{PyFloat F}.
Local Open Scope py_scope.

Lemma lookup_py_in (k : string) (d : list (string * json F)) :
  py_in k (JDict d) =
  Ok (match lookup k d with Some _ => true | None => false end).
Proof. reflexivity. Qed.

(** The format raises for a value that is no number only. *)
Lemma format_2f_raises (x : json F) (e : exn) :
  format_2f x = Raise e ->
  e = ValueError \/ e = TypeError \/ e = OverflowError.
Proof.
  unfold format_2f.
  destruct x; simpl; try (intros [= <-]; auto).
  destruct (Z.eqb z 0 || f_fits z); intros [= <-]; auto.
Qed.

(** Decides the handlers of the [try] that loads Tseq for a format. *)
Ltac format_2f_handled :=
  match goal with
  | |- context [format_2f ?x] =>
      let E := fresh "E" in
      destruct (format_2f x) as [?|[]] eqn:E; try reflexivity;
      destruct (format_2f_raises _ _ E) as [?|[?|?]]; discriminate
  end.

(** X13. For a [sequential_time.json] that holds a dict, and a
    [sequential_data] without [avg_time] of its own: when the file has
    [avg_time], or else [avg_time_simple], the Tseq of the report is
    the Tseq that [execute_all_configurations] divides by. When the
    file has neither and has [avg_time_nested], the speedups are
    computed with that value, and the report shows the [value] of
    [tseq_simple] if there is one and 0 if there is no [tseq_simple]. *)
Theorem report_tseq_and_speedup_tseq (fs : filesystem F)
  (d sd : list (string * json F)) :
  fs "sequential_time.json" = FileJson (JDict d) ->
  lookup "avg_time" sd = None ->
  (forall x,
     lookup "avg_time" d = Some x \/
     (lookup "avg_time" d = None /\ lookup "avg_time_simple" d = Some x) ->
     load_tseq fs = format_2f x /\
     bind (main_avg_time fs (JDict sd)) report_tseq = format_2f x) /\
  (forall y,
     lookup "avg_time" d = None ->
     lookup "avg_time_simple" d = None ->
     lookup "avg_time_nested" d = Some y ->
     load_tseq fs = format_2f y /\
     (forall t x,
        lookup "tseq_simple" d = Some (JDict t) ->
        lookup "value" t = Some x ->
        bind (main_avg_time fs (JDict sd)) report_tseq = format_2f x) /\
     (lookup "tseq_simple" d = None ->
      bind (main_avg_time fs (JDict sd)) report_tseq = Ok (PInt 0))).
Proof.
  intros Hfile Hsd.
  assert (Hreport : forall x,
             report_tseq (JDict (store "avg_time" x sd)) = format_2f x).
  { intros x. unfold report_tseq. cbn [py_get bind].
    now rewrite lookup_store_eq. }
  unfold load_tseq, main_avg_time, load_json. rewrite Hfile. cbn [bind].
  unfold tseq_of_data. rewrite !lookup_py_in. cbn [bind].
  split.
  - intros x [Hx|[Hnone Hx]].
    + rewrite Hx. cbn [py_index bind]. rewrite Hx. cbn [bind py_setitem].
      split; [format_2f_handled | apply Hreport].
    + rewrite Hnone, Hx. cbn [py_index bind]. rewrite Hx.
      cbn [bind py_setitem].
      split; [format_2f_handled | apply Hreport].
  - intros y H1 H2 Hy. rewrite H1, H2, Hy. cbn [py_index bind].
    rewrite Hy. cbn [bind].
    split; [format_2f_handled|]. split.
    + intros t x Ht Hx. rewrite Ht. cbn [bind py_in].
      rewrite Hx. cbn [bind py_index]. rewrite Hx. cbn [bind py_setitem].
      apply Hreport.
    + intros Ht. rewrite Ht. cbn [bind].
      unfold report_tseq. cbn [py_get bind]. rewrite Hsd. reflexivity.
Qed.

End Facts.

End ReportTseqFacts.

Module ReportExamples.
Import Py ParallelTestScript AnalysisScriptMore RunBanditAnalysis.
Import Samples SamplesMore ExactFloat QArith.
Import ReportCweFacts ReportTseqFacts.
Local Open Scope nat_scope.

(** The sample report has the CWEs 703 and 78: the third finding has
    703 again in its text, and the 22 behind it is not read. *)
Example sample_report_cwes :
  option_map unique_cwes
    (parse_bandit_results str_of bandit_files "out/abc.json") =
  Some ["703"; "78"].
Proof. reflexivity. Qed.

Lemma parse_bandit_results_unique_cwes_witness :
  exists m,
    parse_bandit_results str_of bandit_files "out/abc.json" = Some m /\
    NoDup (unique_cwes m) /\
    (forall x, In x (unique_cwes m) <->
               exists finding,
                 In finding (BanditFacts.results_entries bandit_report) /\
                 finding_cwe str_of finding x) /\
    (forall finding x y,
       finding_cwe str_of finding x -> finding_cwe str_of finding y ->
       x = y) /\
    List.length (unique_cwes m)
    <= List.length (BanditFacts.results_entries bandit_report).
Proof.
  destruct (parse_bandit_results str_of bandit_files "out/abc.json")
    as [m|] eqn:Eparse.
  - exists m. split; [reflexivity|].
    exact (parse_bandit_results_unique_cwes str_of bandit_files
             "out/abc.json" bandit_report m eq_refl Eparse).
  - vm_compute in Eparse. discriminate.
Defined.

(** With [avg_time_simple] in the file both scripts have the Tseq 12;
    with the nested mean only the speedups are computed with 9 and the
    report shows 0. *)
Lemma report_tseq_and_speedup_tseq_witness :
  (load_tseq sequential_time_files = format_2f (JFloat 12%Q) /\
   bind (main_avg_time sequential_time_files (JDict [])) report_tseq =
   format_2f (JFloat 12%Q)) /\
  (load_tseq nested_only = format_2f (JFloat 9%Q) /\
   bind (main_avg_time nested_only (JDict [])) report_tseq =
   Ok (PInt 0)).
Proof.
  split.
  - destruct (report_tseq_and_speedup_tseq sequential_time_files
                [ ("avg_time_simple", JFloat 12%Q) ] [] eq_refl eq_refl)
      as [Hsame _].
    apply Hsame. right. split; reflexivity.
  - destruct (report_tseq_and_speedup_tseq nested_only
                [ ("avg_time_nested", JFloat 9%Q) ] [] eq_refl eq_refl)
      as [_ Hnested].
    destruct (Hnested (JFloat 9%Q) eq_refl eq_refl eq_refl)
      as [Htseq [_ Hzero]].
    split; [exact Htseq | apply Hzero; reflexivity].
Defined.

End ReportExamples.

(** ** The rows of [results.csv] *)

Module ResultsCsvFacts.
Import Py RunBanditAnalysis CommitLoopFacts.

(** The first list is the second without some of its elements. *)
Inductive subsequence {A : Type} : list A -> list A -> Prop :=
| sub_nil : subsequence [] []
| sub_skip (x : A) (l1 l2 : list A) :
    subsequence l1 l2 -> subsequence l1 (x :: l2)
| sub_keep (x : A) (l1 l2 : list A) :
    subsequence l1 l2 -> subsequence (x :: l1) (x :: l2).

(** The first four fields of the row are those of the commit. *)
Definition row_of_commit (c : commit) (r : csv_row) : Prop :=
  row_commit_hash r = hash c /\
  row_author r = author c /\
  row_date r = date c /\
  row_message r = message c.

Section Facts.
Context {F : Type} `{PyFloat F}.
Variable py_str : json F -> string.
Variable run_bandit : string -> @bandit_effect F.
Variable bandit_outputs_dir : string.
Variable strftime_local : Z -> result string.

Lemma rows_added_subsequence (commits : list commit) :
  forall fs,
    exists kept,
      subsequence kept commits /\
      Forall2 row_of_commit kept
        (rows_added py_str run_bandit bandit_outputs_dir fs commits).
Proof.
  induction commits as [|c rest IH]; intros fs; cbn [rows_added].
  - exists []. split; constructor.
  - destruct (IH (files_after run_bandit bandit_outputs_dir fs c))
      as [kept [Hsub Hrows]].
    unfold row_added.
    destruct (metrics_of_commit py_str run_bandit bandit_outputs_dir fs c)
      as [m|]; cbn [app].
    + exists (c :: kept). split; [now constructor|].
      constructor; trivial. repeat split.
    + exists kept. split; [now constructor | trivial].
Qed.

Lemma subsequence_length {A} (l1 l2 : list A) :
  subsequence l1 l2 -> List.length l1 <= List.length l2.
Proof. induction 1; simpl; lia. Qed.

(** X14. The data rows that [main] writes for a repository, from the
    commits that [get_last_100_non_merge_commits] returned: at most one
    row per commit and at most 100 rows; the rows are in the order of
    the commits, and the first four fields of a row are the hash, the
    author, the date and the message of its commit. *)
Theorem results_csv_rows (git_stdout : string) (commits : list commit)
  (st : loop_state) :
  get_last_100_non_merge_commits strftime_local git_stdout = Ok commits ->
  st_rows st = [] ->
  let st' :=
    process_commits py_str run_bandit bandit_outputs_dir commits st in
  List.length (st_rows st') <= List.length commits /\
  List.length commits <= 100 /\
  exists kept,
    subsequence kept commits /\
    Forall2 row_of_commit kept (st_rows st').
Proof.
  intros Hlog Hempty. cbv zeta.
  rewrite process_commits_rows, Hempty. cbn [app].
  destruct (rows_added_subsequence commits (st_files st))
    as [kept [Hsub Hrows]].
  repeat split.
  - rewrite <- (Forall2_length Hrows). now apply subsequence_length.
  - unfold get_last_100_non_merge_commits in Hlog.
    apply PyNumFacts.bind_Ok in Hlog. destruct Hlog as [cs [_ Hlog]].
    assert (Hcm : commits = firstn 100 cs) by congruence.
    rewrite Hcm, length_firstn. lia.
  - exists kept. now split.
Qed.

End Facts.

End ResultsCsvFacts.

Module ResultsCsvExamples.
Import Py RunBanditAnalysis Samples ResultsCsvFacts.

(** The two commits of the sample log: Bandit fails for [bbb], and the
    file has the row of [aaa]. *)
Lemma results_csv_rows_witness :
  exists commits,
    get_last_100_non_merge_commits strftime_utc git_log = Ok commits /\
    let st' := process_commits str_of bandit_runs "out" commits loop_start in
    List.length (st_rows st') <= List.length commits /\
    List.length commits <= 100 /\
    exists kept,
      subsequence kept commits /\
      Forall2 row_of_commit kept (st_rows st').
Proof.
  destruct (get_last_100_non_merge_commits strftime_utc git_log)
    as [commits|e] eqn:Elog.
  - exists commits. split; [reflexivity|].
    apply (results_csv_rows str_of bandit_runs "out" strftime_utc git_log
             commits loop_start Elog).
    reflexivity.
  - vm_compute in Elog. discriminate.
Defined.

Example sample_log_rows :
  match get_last_100_non_merge_commits strftime_utc git_log with
  | Ok commits =>
      map hash commits = ["aaa"; "bbb"] /\
      map row_commit_hash
        (st_rows (process_commits str_of bandit_runs "out" commits
                    loop_start)) = ["aaa"]
  | Raise _ => False
  end.
Proof. vm_compute. split; reflexivity. Qed.

End ResultsCsvExamples.
